(** * pdfannots: annotation-to-text binding and page orchestration

    A shallow embedding of [pdfannots/__init__.py]:
    [_mkannotation], [_resolve_dest], [_get_outlines], the layout
    callback class [_RectExtractor] and [process_file].

    Python objects that the code mutates in place (annotations, outlines,
    the page, the device) are modelled by explicit state passing.  The
    annotations of a page live in the list [annots] of the page; an
    annotation object is identified by its index in that list, and the two
    Python sets [_lasthit] and [_curline] are finite sets of such indices,
    once the attributes exist.  Code that can raise returns a [result];
    what the code logs or writes is collected in a list. *)

From Stdlib Require Import ZArith QArith Qminmax String List Lia.
From stdpp Require Import base decidable option list gmap sets strings pretty.

Local Open Scope string_scope.
Local Open Scope nat_scope.
Set Warnings "-register-all".

(** ** Exceptions and fallible computations *)

Inductive exn : Type :=
| AssertionError
| AttributeError
| IndexError
| KeyError
| TypeError
| ValueError
| PDFNoOutlines
| ExternalError (msg : string).

Inductive result (A : Type) : Type :=
| Ok (a : A)
| Raise (e : exn).
Arguments Ok {A} a.
Arguments Raise {A} e.

Definition bind {A B : Type} (m : result A) (k : A -> result B) : result B :=
  match m with
  | Ok a => k a
  | Raise e => Raise e
  end.

Notation "'let*' x ':=' m 'in' k" := (bind m (fun x => k))
  (at level 10, x name, m at level 100, k at level 200).

Fixpoint mapM {A B : Type} (f : A -> result B) (l : list A) : result (list B) :=
  match l with
  | [] => Ok []
  | a :: l' => let* b := f a in let* bs := mapM f l' in Ok (b :: bs)
  end.

(** ** PDF objects as the parser hands them over

    The values pdfminer returns for dictionary entries and array
    elements.  [PNone] is Python's [None]; [PLit] is an interned
    [PSLiteral], so that identity ([is]) is equality of names. *)

Inductive pdfobj : Type :=
| PNone
| PBool (b : bool)
| PInt (n : Z)
| PReal (q : Q)
| PBytes (s : string)
| PLit (name : string)
| PRef (objid : Z)
| PList (l : list pdfobj)
| PDict (d : list (string * pdfobj)).

(** Python truth value of an object, as used by [and] and [or]. *)
Definition truthy (o : pdfobj) : bool :=
  match o with
  | PNone => false
  | PBool b => b
  | PInt n => negb (n =? 0)%Z
  | PReal q => negb (Qeq_bool q 0)
  | PBytes s => negb (String.eqb s "")
  | PLit _ => true
  | PRef _ => true
  | PList l => match l with [] => false | _ => true end
  | PDict d => match d with [] => false | _ => true end
  end.

(** [x or y] *)
Definition py_or (x y : pdfobj) : pdfobj := if truthy x then x else y.

(** [d.get(k)] on a dictionary given as its list of items. *)
Fixpoint dict_get (k : string) (d : list (string * pdfobj)) : pdfobj :=
  match d with
  | [] => PNone
  | (k', v) :: d' => if String.eqb k k' then v else dict_get k d'
  end.

(** ** Layout items (pdfminer.layout)

    The classes the code distinguishes with [isinstance].  In pdfminer
    [LTTextLine] and [LTTextBox] are subclasses of [LTContainer]; every
    other container ([LTPage], [LTFigure], ...) is [KContainer].
    [LTComponent] stands for the items that are neither containers,
    characters nor [LTAnno] ([LTLine], [LTRect], [LTCurve], [LTImage]). *)

Record BBox : Type := mkBBox { x0 : Q; y0 : Q; x1 : Q; y1 : Q }.

Inductive LTKind : Type := KTextLine | KTextBox | KContainer.

Inductive LTItem : Type :=
| LTChar (bbox : BBox) (text : string)
| LTAnno (text : string)
| LTContainer (kind : LTKind) (bbox : BBox) (children : list LTItem)
| LTComponent (bbox : BBox).

Definition is_LTTextLine (k : LTKind) : bool :=
  match k with KTextLine => true | _ => false end.

Definition is_LTTextBox (k : LTKind) : bool :=
  match k with KTextBox => true | _ => false end.

(** ** Entities (pdfannots.types) and the binding engine

    [types.py] and [utils.py] are not part of the sources at hand.  The
    types they declare without any attribute the code below reads, and
    the functions and methods the code calls from them, are the members
    of two interfaces; the records list the attributes that
    [__init__.py] reads, writes or passes to a constructor. *)

Class Types : Type := {
  (** [Box]: one region of an annotation. *)
  Box : Type;
  (** [Pos]: a logical position on a page. *)
  Position : Type;
  (** the value [decode_datetime] returns *)
  Datetime : Type
}.

(** The page reference of an outline: [_get_outlines] builds an outline
    only from an [int] page number or a [PDFObjRef]. *)
Inductive PageRef : Type :=
| PageNo (n : Z)
| PageObj (objid : Z).

Section Entities.
Context {T : Types}.

Record Annotation : Type := mkAnnotation {
  tagname : string;
  contents : option string;
  author : option string;
  created : option Datetime;
  rect : pdfobj;
  boxes : option (list Box);
  text : string;
  startpos : option Position
}.

Record Outline : Type := mkOutline {
  title : string;
  pageref : PageRef;
  target : pdfobj * pdfobj;
  pos : option Position
}.

Record Page : Type := mkPage {
  pageno : nat;
  objid : Z;
  annots : list Annotation;
  outlines : list Outline
}.

End Entities.

(** The methods of [types.py] that the binding engine calls. *)
Class Methods {T : Types} : Type := {
  (** [Box.hit_item(item)] *)
  hit_item : Box -> LTItem -> bool;
  (** [Annotation.capture(text)], as the new value of the annotation *)
  capture : string -> Annotation -> Annotation;
  (** [Pos.update_pageseq(component, pageseq)], as the new value of the
      position *)
  pos_update_pageseq : LTItem -> nat -> Position -> Position
}.

Section Engine.
Context {T : Types} {M : Methods}.

(** *** [_RectExtractor]

    The class annotates [_lasthit] and [_curline], but [__init__] creates
    neither: both attributes exist only once [receive_layout] has run.
    [None] stands for an attribute that does not exist yet; reading it
    raises [AttributeError]. *)

Record RectExtractor : Type := mkRectExtractor {
  page : option Page;
  pageseq : nat;
  _lasthit : option (gset nat);
  _curline : option (gset nat)
}.

(** Reading an attribute of an object. *)
Definition attr {A : Type} (o : option A) : result A :=
  match o with
  | Some a => Ok a
  | None => Raise AttributeError
  end.

(** [__init__] *)
Definition new_RectExtractor : RectExtractor :=
  {| page := None; pageseq := 0; _lasthit := None; _curline := None |}.

Definition set_annots (l : list Annotation) (pg : Page) : Page :=
  {| pageno := pageno pg; objid := objid pg;
     annots := l; outlines := outlines pg |}.

Definition set_outlines (l : list Outline) (pg : Page) : Page :=
  {| pageno := pageno pg; objid := objid pg;
     annots := annots pg; outlines := l |}.

(** [start_page] *)
Definition start_page (pg : Page) (d : RectExtractor) : RectExtractor :=
  {| page := Some pg; pageseq := 0;
     _lasthit := _lasthit d; _curline := _curline d |}.

(** The body of the first loop of [update_pageseq], for one annotation. *)
Definition stamp_annot (line : LTItem) (n : nat) (a : Annotation) : Annotation :=
  match startpos a with
  | Some p =>
      {| tagname := tagname a; contents := contents a; author := author a;
         created := created a; rect := rect a; boxes := boxes a;
         text := text a;
         startpos := Some (pos_update_pageseq line n p) |}
  | None => a
  end.

(** The body of the second loop of [update_pageseq], for one outline. *)
Definition stamp_outline (line : LTItem) (n : nat) (o : Outline) : result Outline :=
  match pos o with
  | Some p =>
      Ok {| title := title o; pageref := pageref o; target := target o;
            pos := Some (pos_update_pageseq line n p) |}
  | None => Raise AssertionError
  end.

(** [update_pageseq] *)
Definition update_pageseq (line : LTItem) (d : RectExtractor) : result RectExtractor :=
  match page d with
  | None => Raise AssertionError
  | Some pg =>
      let n := S (pageseq d) in
      let annots' := map (stamp_annot line n) (annots pg) in
      let* outlines' := mapM (stamp_outline line n) (outlines pg) in
      Ok {| page := Some (set_outlines outlines' (set_annots annots' pg));
            pageseq := n;
            _lasthit := _lasthit d; _curline := _curline d |}
  end.

(** The filter of [testboxes]: [a.boxes and any({b.hit_item(item) ...})]. *)
Definition hit_annot (item : LTItem) (a : Annotation) : bool :=
  match boxes a with
  | Some (b :: bs) => existsb (fun b' => hit_item b' item) (b :: bs)
  | _ => false
  end.

(** The annotations of [l] (numbered from [n]) that [item] hits. *)
Fixpoint hits_from (n : nat) (item : LTItem) (l : list Annotation) : gset nat :=
  match l with
  | [] => ∅
  | a :: l' =>
      (if hit_annot item a then {[ n ]} else ∅) ∪ hits_from (S n) item l'
  end.

Definition hits (item : LTItem) (l : list Annotation) : gset nat :=
  hits_from 0 item l.

(** [testboxes]: the new device and the hit set it returns.
    [self._lasthit = hits] creates the attribute if need be;
    [self._curline.update(hits)] reads [_curline]. *)
Definition testboxes (item : LTItem) (d : RectExtractor)
  : result (RectExtractor * gset nat) :=
  match page d with
  | None => Raise AssertionError
  | Some pg =>
      let h := hits item (annots pg) in
      let* cl := attr (_curline d) in
      Ok ({| page := page d; pageseq := pageseq d;
             _lasthit := Some h; _curline := Some (cl ∪ h) |}, h)
  end.

(** [for a in s: a.capture(t)] over the annotations of the page. *)
Definition capture_all (s : gset nat) (t : string) (l : list Annotation)
  : list Annotation :=
  imap (fun i a => if decide (i ∈ s) then capture t a else a) l.

(** The same loop, on the page of the device.  Both sets hold
    annotations of that page only: they are filled by [testboxes], which
    needs the page, and emptied by [receive_layout]. *)
Definition capture_in_page (s : gset nat) (t : string) (d : RectExtractor)
  : RectExtractor :=
  {| page := option_map (fun pg => set_annots (capture_all s t (annots pg)) pg) (page d);
     pageseq := pageseq d;
     _lasthit := _lasthit d; _curline := _curline d |}.

(** The newline character ['\n']. *)
Definition newline : string := String (Ascii.ascii_of_nat 10) EmptyString.

(** [capture_newline] *)
Definition capture_newline (d : RectExtractor) : result RectExtractor :=
  let* cl := attr (_curline d) in
  let d' := capture_in_page cl newline d in
  Ok {| page := page d'; pageseq := pageseq d';
        _lasthit := _lasthit d'; _curline := Some ∅ |}.

(** [render] *)
Fixpoint render (item : LTItem) (d : RectExtractor) {struct item}
  : result RectExtractor :=
  match item with
  | LTContainer k _ children =>
      let* d1 := (if is_LTTextLine k then update_pageseq item d else Ok d) in
      let* d2 :=
        (fix render_children (l : list LTItem) (d : RectExtractor)
           : result RectExtractor :=
           match l with
           | [] => Ok d
           | child :: l' => let* d' := render child d in render_children l' d'
           end) children d1 in
      if is_LTTextBox k then
        let* r := testboxes item d2 in
        capture_newline (fst r)
      else Ok d2
  | LTChar _ t =>
      let* r := testboxes item d in
      Ok (capture_in_page (snd r) t (fst r))
  | LTAnno t =>
      if String.eqb t newline then capture_newline d
      else
        let* lh := attr (_lasthit d) in
        Ok (capture_in_page lh t d)
  | LTComponent _ => Ok d
  end.

(** The loop [for child in item: self.render(child)]. *)
Fixpoint render_children (l : list LTItem) (d : RectExtractor)
  : result RectExtractor :=
  match l with
  | [] => Ok d
  | child :: l' => let* d' := render child d in render_children l' d'
  end.

(** [receive_layout] *)
Definition receive_layout (ltpage : LTItem) (d : RectExtractor)
  : result RectExtractor :=
  render ltpage {| page := page d; pageseq := pageseq d;
                   _lasthit := Some ∅; _curline := Some ∅ |}.

(** The device has a page, every outline of the page has a position and
    both sets exist: what the assertions and the attribute reads of the
    engine require. *)
Definition ready (d : RectExtractor) : Prop :=
  is_Some (_lasthit d) /\ is_Some (_curline d)
  /\ exists pg, page d = Some pg
                /\ Forall (fun o => is_Some (pos o)) (outlines pg).

(** The truth value of [a.boxes]. *)
Definition has_boxes (a : Annotation) : bool :=
  match boxes a with
  | Some (_ :: _) => true
  | _ => false
  end.

(** Index [i] is in neither set of the device, and both sets exist. *)
Definition in_no_set (i : nat) (d : RectExtractor) : Prop :=
  exists lh cl, _lasthit d = Some lh /\ _curline d = Some cl
                /\ (i ∉ lh) /\ (i ∉ cl).

(** Annotation [i] of the page still has the text and the boxes of
    [a], and is in neither set of the device. *)
Definition keeps (i : nat) (a : Annotation) (d : RectExtractor) : Prop :=
  exists pg a', page d = Some pg /\ annots pg !! i = Some a'
    /\ text a' = text a /\ boxes a' = boxes a
    /\ in_no_set i d.

(** Annotation [i] of the page of a ready device has the boxes of [a]
    and the text [s]. *)
Definition holds (i : nat) (a : Annotation) (d : RectExtractor)
  (s : string) : Prop :=
  ready d
  /\ exists pg a', page d = Some pg /\ annots pg !! i = Some a'
       /\ boxes a' = boxes a /\ text a' = s.

(** One of the boxes of annotation [a] hits [item]: the hit test, said
    with [Box.hit_item] alone. *)
Definition covers (item : LTItem) (a : Annotation) : Prop :=
  exists bs bx, boxes a = Some bs /\ bx ∈ bs /\ hit_item bx item = true.

End Engine.

(** ** The document layer

    What [process_file] calls outside [__init__.py]: the constructors and
    methods of [types.py], the helpers of [utils.py] and the functions of
    pdfminer. *)

Class Library {T : Types} : Type := {
  (** [Annotation(page, tagname, coords, rect, contents, author=, created=)] *)
  new_Annotation :
    Page -> string -> pdfobj -> pdfobj -> option string -> option string ->
    option Datetime -> Annotation;
  (** [Outline.resolve(page)], as the new value of the outline *)
  resolve : Page -> Outline -> Outline;
  (** [Annotation.__lt__] and [Outline.__lt__], used by [list.sort] *)
  annot_lt : Annotation -> Annotation -> bool;
  outline_lt : Outline -> Outline -> bool;
  (** [pdftypes.resolve1] *)
  resolve1 : pdfobj -> pdfobj;
  (** [PDFObjRef.resolve] *)
  deref : Z -> pdfobj;
  (** [pdfminer.utils.decode_text]; it raises on what it cannot decode,
      and what reaches it is whatever the record holds *)
  decode_text : pdfobj -> result string;
  (** [utils.cleanup_text] and [utils.decode_datetime] *)
  cleanup_text : string -> result string;
  decode_datetime : string -> result (option Datetime)
}.

(** What the code puts out, in the order it does so: the records it
    hands to [logger], and the messages it writes to the progress
    stream. *)
Inductive Output : Type :=
| InfoNoOutlines
| WarnOutlinesFailed (ex : exn)
| WarnUnsupportedPageref (pageref : pdfobj)
| WarnUnknownAnnotation (pa : pdfobj)
| Progress (msg : string).

(** One tuple of [doc.get_outlines()]: title, destination, action. *)
Record OutlineItem : Type := mkOutlineItem {
  oi_title : string;
  oi_dest : pdfobj;
  oi_action : pdfobj
}.

(** One [PDFPage], with the layout that [interpreter.process_page] hands
    to [receive_layout]. *)
Record PDFPage : Type := mkPDFPage {
  pageid : Z;
  page_annots : pdfobj;
  layout : LTItem
}.

(** A [PDFDocument].  [get_outlines] is a generator: the tuples it
    yields and the exception that ends it, if any. *)
Record PDFDocument : Type := mkPDFDocument {
  get_outlines : list OutlineItem * option exn;
  get_dest : string -> result pdfobj;
  create_pages : list PDFPage
}.

(** The argument [file] of [process_file]: the document that
    [PDFDocument(PDFParser(file))] gives, unless it raises, and the
    attribute [name] of the stream, if it has one. *)
Record BinaryIO : Type := mkBinaryIO {
  file_doc : result PDFDocument;
  file_name : option string
}.

(** The progress stream: its methods [write] and [flush]. *)
Record TextIO : Type := mkTextIO {
  stream_write : string -> result unit;
  stream_flush : result unit
}.

Definition ANNOT_SUBTYPES : list string :=
  ["Text"; "Highlight"; "Squiggly"; "StrikeOut"; "Underline"].

Definition in_ANNOT_SUBTYPES (name : string) : bool :=
  existsb (String.eqb name) ANNOT_SUBTYPES.

(** [o.name] for a [PSLiteral]; any other object has no such attribute. *)
Definition literal_name (o : pdfobj) : result string :=
  match o with
  | PLit name => Ok name
  | _ => Raise AttributeError
  end.

(** [pa.get(key)]: only a dictionary has the method. *)
Definition py_get (key : string) (pa : pdfobj) : result pdfobj :=
  match pa with
  | PDict d => Ok (dict_get key d)
  | _ => Raise AttributeError
  end.

Definition is_None (o : pdfobj) : bool :=
  match o with PNone => true | _ => false end.

(** [dest[1]] *)
Definition py_item1 (dest : pdfobj) : result pdfobj :=
  match dest with
  | PList l =>
      match l with
      | _ :: x :: _ => Ok x
      | _ => Raise IndexError
      end
  | PBytes s =>
      match s with
      | String _ (String c _) => Ok (PInt (Z.of_nat (Ascii.nat_of_ascii c)))
      | _ => Raise IndexError
      end
  | PDict _ => Raise KeyError
  | _ => Raise TypeError
  end.

(** [(a, b, c, d) = dest[:4]] *)
Definition py_unpack4 (dest : pdfobj)
  : result (pdfobj * pdfobj * pdfobj * pdfobj) :=
  match dest with
  | PList (a :: b :: c :: d :: _) => Ok (a, b, c, d)
  | PList _ => Raise ValueError
  | PBytes (String a (String b (String c (String d _)))) =>
      let i x := PInt (Z.of_nat (Ascii.nat_of_ascii x)) in
      Ok (i a, i b, i c, i d)
  | PBytes _ => Raise ValueError
  | _ => Raise TypeError
  end.

(** [for x in o]: the elements a loop over [o] visits (a dictionary
    gives its keys, written here as byte strings). *)
Definition py_iter (o : pdfobj) : result (list pdfobj) :=
  match o with
  | PList l => Ok l
  | PDict d => Ok (map (fun kv => PBytes (fst kv)) d)
  | PBytes s =>
      Ok (map (fun c => PInt (Z.of_nat (Ascii.nat_of_ascii c)))
            (list_ascii_of_string s))
  | _ => Raise TypeError
  end.

(** [list.sort()]: a stable sort that compares with [<] only. *)
Fixpoint sort_insert {A : Type} (lt : A -> A -> bool) (x : A) (l : list A)
  : list A :=
  match l with
  | [] => [x]
  | y :: l' => if lt y x then y :: sort_insert lt x l' else x :: y :: l'
  end.

Fixpoint py_sort {A : Type} (lt : A -> A -> bool) (l : list A) : list A :=
  match l with
  | [] => []
  | x :: l' => sort_insert lt x (py_sort lt l')
  end.

Section Document.
Context {T : Types} {M : Methods} {L : Library}.

(** [_mkannotation] *)
Definition _mkannotation (pa : pdfobj) (pg : Page)
  : result (option Annotation) :=
  let* subtype := py_get "Subtype" pa in
  let* unsupported :=
    (if is_None subtype then Ok false
     else let* name := literal_name subtype in
          Ok (negb (in_ANNOT_SUBTYPES name))) in
  if (unsupported : bool) then Ok None
  else
    let* contents0 := py_get "Contents" pa in
    let* contents1 :=
      (if is_None contents0 then Ok None
       else let* s := decode_text contents0 in
            let* s' := cleanup_text s in
            Ok (Some s')) in
    let* quadpoints := py_get "QuadPoints" pa in
    let coords := resolve1 quadpoints in
    let* rect0 := py_get "Rect" pa in
    let rect1 := resolve1 rect0 in
    let* t := py_get "T" pa in
    let author0 := resolve1 t in
    let* author1 :=
      (if is_None author0 then Ok None
       else let* s := decode_text author0 in Ok (Some s)) in
    let* dobj0 := py_get "CreationDate" pa in
    let* moddate := py_get "ModDate" pa in
    let dobj1 := py_or dobj0 moddate in
    let* m := py_get "M" pa in
    let dobj2 := py_or dobj1 m in
    let createds := resolve1 dobj2 in
    let* created1 :=
      (if is_None createds then Ok None
       else let* s := decode_text createds in decode_datetime s) in
    let* name := literal_name subtype in
    Ok (Some (new_Annotation pg name coords rect1 contents1 author1 created1)).

(** [_resolve_dest] *)
Definition _resolve_dest (doc : PDFDocument) (dest : pdfobj) : result pdfobj :=
  let* dest1 :=
    match dest with
    | PBytes s => let* r := get_dest doc s in Ok (resolve1 r)
    | PLit name => let* r := get_dest doc name in Ok (resolve1 r)
    | _ => Ok dest
    end in
  match dest1 with
  | PDict d =>
      if existsb (fun kv => String.eqb "D" (fst kv)) d
      then Ok (dict_get "D" d) else Raise KeyError
  | _ => Ok dest1
  end.

(** [Outline(title, pageref, (targetx, targety))]; the position of an
    outline is unset until [resolve]. *)
Definition new_Outline (t : string) (pr : PageRef) (tg : pdfobj * pdfobj)
  : Outline :=
  {| title := t; pageref := pr; target := tg; pos := None |}.

(** [type(pageref) is int or isinstance(pageref, pdftypes.PDFObjRef)] *)
Definition as_pageref (o : pdfobj) : option PageRef :=
  match o with
  | PInt n => Some (PageNo n)
  | PRef i => Some (PageObj i)
  | _ => None
  end.

Definition is_literal (name : string) (o : pdfobj) : bool :=
  match o with
  | PLit n => String.eqb n name
  | _ => false
  end.

(** The first statement of the loop of [_get_outlines]: the destination
    of a tuple, taken from its [GoTo] action when it has none. *)
Definition item_destname (it : OutlineItem) : pdfobj :=
  let destname := oi_dest it in
  let actionref := oi_action it in
  if is_None destname && truthy actionref then
    match resolve1 actionref with
    | PDict action =>
        if is_literal "GoTo" (dict_get "S" action)
        then dict_get "D" action else destname
    | _ => destname
    end
  else destname.

(** The body of the loop of [_get_outlines] for one tuple: the outline it
    yields, if any, and what it logs. *)
Definition outline_of_item (doc : PDFDocument) (it : OutlineItem)
  : result (option Outline * list Output) :=
  let destname := item_destname it in
  if is_None destname then Ok (None, [])
  else
    let* dest := _resolve_dest doc destname in
    let* mode := py_item1 dest in
    if is_literal "XYZ" mode then
      let* u := py_unpack4 dest in
      let '(pr, _, targetx, targety) := u in
      match as_pageref pr with
      | Some r => Ok (Some (new_Outline (oi_title it) r (targetx, targety)), [])
      | None => Ok (None, [WarnUnsupportedPageref pr])
      end
    else Ok (None, []).

(** The generator [_get_outlines] run over the tuples [items]: the
    outlines yielded, the records logged, and the exception that stops
    it, if any. *)
Fixpoint outlines_of_items (doc : PDFDocument) (items : list OutlineItem)
  (ends : option exn) : list Outline * list Output * option exn :=
  match items with
  | [] => ([], [], ends)
  | it :: items' =>
      match outline_of_item doc it with
      | Raise e => ([], [], Some e)
      | Ok (o, lg) =>
          let '(os, lgs, e) := outlines_of_items doc items' ends in
          (match o with Some o' => o' :: os | None => os end, (lg ++ lgs)%list, e)
      end
  end.

(** [_get_outlines] *)
Definition _get_outlines (doc : PDFDocument)
  : list Outline * list Output * option exn :=
  outlines_of_items doc (fst (get_outlines doc)) (snd (get_outlines doc)).

(** *** [process_file]

    A computation that logs: the records logged, then its result. *)
Definition logged (A : Type) : Type := list Output * result A.

Definition lret {A : Type} (a : A) : logged A := ([], Ok a).

Definition lraise {A : Type} (e : exn) : logged A := ([], Raise e).

Definition llog (r : Output) : logged unit := ([r], Ok tt).

(** A computation that puts out nothing. *)
Definition quiet {A : Type} (m : result A) : logged A := ([], m).

Definition lbind {A B : Type} (m : logged A) (k : A -> logged B) : logged B :=
  match m with
  | (lg, Ok a) => let '(lg', r) := k a in ((lg ++ lg')%list, r)
  | (lg, Raise e) => (lg, Raise e)
  end.

(** The local function [emit_progress] of [process_file]: nothing
    without a progress stream; else the message is written, then the
    stream is flushed. *)
Definition emit_progress (emit_progress_to : option TextIO) (msg : string)
  : logged unit :=
  match emit_progress_to with
  | None => lret tt
  | Some f =>
      lbind (quiet (stream_write f msg)) (fun _ =>
      lbind (llog (Progress msg)) (fun _ =>
      quiet (stream_flush f)))
  end.

(** [" %d" % (pageno + 1)] *)
Definition page_message (pageno : nat) : string :=
  String.append " " (pretty (S pageno)).

(** The two dictionaries of pending outlines. *)
Record Pending : Type := mkPending {
  outlines_by_pageno : gmap Z (list Outline);
  outlines_by_objid : gmap Z (list Outline)
}.

(** [d[k].append(o)] on a [defaultdict(list)] *)
Definition dd_append (k : Z) (o : Outline) (d : gmap Z (list Outline))
  : gmap Z (list Outline) :=
  <[ k := (default [] (d !! k) ++ [o])%list ]> d.

(** The body of the loop of step 1. *)
Definition file_outline (pend : Pending) (o : Outline) : Pending :=
  match pageref o with
  | PageObj i =>
      {| outlines_by_pageno := outlines_by_pageno pend;
         outlines_by_objid := dd_append i o (outlines_by_objid pend) |}
  | PageNo n =>
      {| outlines_by_pageno := dd_append n o (outlines_by_pageno pend);
         outlines_by_objid := outlines_by_objid pend |}
  end.

(** The handlers of the [try] of step 1. *)
Definition outlines_handler (e : option exn) : list Output :=
  match e with
  | None => []
  | Some PDFNoOutlines => [InfoNoOutlines]
  | Some ex => [WarnOutlinesFailed ex]
  end.

(** [o.resolve(page); page.outlines.append(o)] *)
Definition link_outline (pg : Page) (o : Outline) : Page :=
  set_outlines (outlines pg ++ [resolve pg o])%list pg.

(** The body of the loop that constructs the annotations of a page. *)
Definition add_annotation (pg : Page) (pa : pdfobj) : logged Page :=
  match pa with
  | PRef i =>
      match _mkannotation (deref i) pg with
      | Raise e => lraise e
      | Ok (Some annot) => lret (set_annots (annots pg ++ [annot])%list pg)
      | Ok None => lret pg
      end
  | _ => lbind (llog (WarnUnknownAnnotation pa)) (fun _ => lret pg)
  end.

Fixpoint add_annotations (pg : Page) (pas : list pdfobj) : logged Page :=
  match pas with
  | [] => lret pg
  | pa :: pas' => lbind (add_annotation pg pa) (fun pg' => add_annotations pg' pas')
  end.

(** What the page loop carries from one page to the next. *)
Record LoopState : Type := mkLoopState {
  pending : Pending;
  allannots : list Annotation;
  alloutlines : list Outline;
  device : RectExtractor
}.

(** The body of the page loop of step 2, after its progress message. *)
Definition process_page (n : nat) (pdfpage : PDFPage) (st : LoopState)
  : logged LoopState :=
  let pg0 := {| pageno := n; objid := pageid pdfpage;
                annots := []; outlines := [] |} in
  let by_objid := outlines_by_objid (pending st) in
  let by_pageno := outlines_by_pageno (pending st) in
  let popped :=
    (default [] (by_objid !! objid pg0)
     ++ default [] (by_pageno !! Z.of_nat n))%list in
  let pend' := {| outlines_by_pageno := delete (Z.of_nat n) by_pageno;
                  outlines_by_objid := delete (objid pg0) by_objid |} in
  let pg1 := foldl link_outline pg0 popped in
  lbind (if truthy (page_annots pdfpage)
         then ([], py_iter (resolve1 (page_annots pdfpage)))
         else lret []) (fun pas =>
  lbind (add_annotations pg1 pas) (fun pg2 =>
  lbind ([], receive_layout (layout pdfpage) (start_page pg2 (device st)))
    (fun dev =>
  (* [page] and [device.page] are one object *)
  let pg3 := default pg2 (page dev) in
  let sorted_annots := py_sort annot_lt (annots pg3) in
  let sorted_outlines := py_sort outline_lt (outlines pg3) in
  lret {| pending := pend';
          allannots := (allannots st ++ sorted_annots)%list;
          alloutlines := (alloutlines st ++ sorted_outlines)%list;
          device := dev |}))).

(** [for (pageno, pdfpage) in enumerate(PDFPage.create_pages(doc))],
    from page number [n] on. *)
Fixpoint process_pages (emit_progress_to : option TextIO) (n : nat)
  (pages : list PDFPage) (st : LoopState) : logged LoopState :=
  match pages with
  | [] => lret st
  | pdfpage :: pages' =>
      lbind (emit_progress emit_progress_to (page_message n)) (fun _ =>
      lbind (process_page n pdfpage st) (fun st' =>
      process_pages emit_progress_to (S n) pages' st'))
  end.

(** The two final assertions. *)
Definition check_resolved (pend : Pending) : result unit :=
  if decide (outlines_by_pageno pend = ∅) then
    if decide (outlines_by_objid pend = ∅) then Ok tt
    else Raise AssertionError
  else Raise AssertionError.

(** The state before the first page: what step 1 leaves in the two
    dictionaries, two empty result lists and a fresh device. *)
Definition initial_state (os : list Outline) : LoopState :=
  {| pending := foldl file_outline
                  {| outlines_by_pageno := ∅; outlines_by_objid := ∅ |} os;
     allannots := []; alloutlines := [];
     device := new_RectExtractor |}.

(** [process_file], from the document on: steps 1 and 2 and the final
    assertions. *)
Definition process_document (emit_progress_to : option TextIO)
  (doc : PDFDocument) : logged (list Annotation * list Outline) :=
  let '(os, lg, e) := _get_outlines doc in
  lbind ((lg ++ outlines_handler e)%list, Ok tt) (fun _ =>
  lbind (process_pages emit_progress_to 0 (create_pages doc)
           (initial_state os)) (fun st =>
  lbind (emit_progress emit_progress_to newline) (fun _ =>
  lbind (quiet (check_resolved (pending st))) (fun _ =>
  lret (allannots st, alloutlines st))))).

(** [process_file]: the document is parsed, then [file.name] is read for
    the first progress message, whether or not there is a progress
    stream. *)
Definition process_file (file : BinaryIO) (emit_progress_to : option TextIO)
  : logged (list Annotation * list Outline) :=
  lbind (quiet (file_doc file)) (fun doc =>
  lbind (quiet (attr (file_name file))) (fun name =>
  lbind (emit_progress emit_progress_to name) (fun _ =>
  process_document emit_progress_to doc))).

(** The entry of the pending dictionaries that a page reference
    addresses. *)
Definition pending_of (r : PageRef) (pend : Pending)
  : option (list Outline) :=
  match r with
  | PageNo n => outlines_by_pageno pend !! n
  | PageObj i => outlines_by_objid pend !! i
  end.

(** The page that [r] refers to is among [pages], numbered from [n]. *)
Definition appears_from (n : nat) (pages : list PDFPage) (r : PageRef)
  : Prop :=
  match r with
  | PageNo k => (Z.of_nat n <= k < Z.of_nat (n + length pages))%Z
  | PageObj i => i ∈ map pageid pages
  end.

(** Outline [o] is still in its pending dictionary. *)
Definition waits (pend : Pending) (o : Outline) : Prop :=
  exists l, pending_of (pageref o) pend = Some l /\ o ∈ l.



(** The progress stream, if there is one, takes every message. *)
Definition accepts (emit_progress_to : option TextIO) : Prop :=
  match emit_progress_to with
  | None => True
  | Some f => (forall msg, stream_write f msg = Ok tt) /\ stream_flush f = Ok tt
  end.

(** What one progress message leaves in the output. *)
Definition progress (emit_progress_to : option TextIO) (msg : string)
  : list Output :=
  match emit_progress_to with
  | None => []
  | Some _ => [Progress msg]
  end.



End Document.

(** ** The members of [types.py], after the specification *)

(** Modelled from the spec: [Annotation.capture] of [types.py], which is
    not among the sources.  "Accumulated captured text (append-only string
    builder)"; "append the character's text to that annotation's
    accumulated text"; a line break is broadcast as "a single newline
    character".  The call receives the text only, so nothing else of the
    annotation changes. *)
Definition capture_text {T : Types} (t : string) (a : Annotation) : Annotation :=
  {| tagname := tagname a; contents := contents a; author := author a;
     created := created a; rect := rect a; boxes := boxes a;
     text := String.append (text a) t;
     startpos := startpos a |}.

(** The methods with [capture_text] for [Annotation.capture]; the hit test
    and the update of a position stay parameters. *)
Definition text_methods {T : Types} (hit : Box -> LTItem -> bool)
  (upd : LTItem -> nat -> Position -> Position) : Methods :=
  {| hit_item := hit; capture := capture_text; pos_update_pageseq := upd |}.

(** The number of [LTTextLine] items of a layout tree. *)
Fixpoint count_lines (item : LTItem) : nat :=
  match item with
  | LTContainer k _ children =>
      (if is_LTTextLine k then 1 else 0)
      + (fix sum (l : list LTItem) : nat :=
           match l with
           | [] => 0
           | c :: l' => count_lines c + sum l'
           end) children
  | _ => 0
  end.

Fixpoint count_lines_list (l : list LTItem) : nat :=
  match l with
  | [] => 0
  | c :: l' => count_lines c + count_lines_list l'
  end.


(** ** A concrete instance, to run the definitions on documents *)

(** Modelled from the spec: [Pos] of [types.py]: "(pageIndex: integer,
    pageSequence: integer, tiebreak coordinates)". *)
Record Pos : Type := mkPos {
  pos_page : nat;
  pos_x : Q;
  pos_y : Q;
  _pageseq : nat
}.

Definition rect_types : Types :=
  {| Box := BBox; Position := Pos; Datetime := string |}.

Definition item_bbox (item : LTItem) : option BBox :=
  match item with
  | LTChar b _ => Some b
  | LTAnno _ => None
  | LTContainer _ b _ => Some b
  | LTComponent b => Some b
  end.

(** Modelled from the spec: [Box.hit_item] of [types.py]: "true if the
    character's bounding box's center ... lies within the rectangle". *)
Definition center_hit (b : BBox) (item : LTItem) : bool :=
  match item_bbox item with
  | Some c =>
      Qle_bool (2 * x0 b) (x0 c + x1 c) && Qle_bool (x0 c + x1 c) (2 * x1 b)
      && Qle_bool (2 * y0 b) (y0 c + y1 c) && Qle_bool (y0 c + y1 c) (2 * y1 b)
  | None => false
  end.

(** Modelled from the spec: [Pos.update_pageseq] of [types.py], read as
    "stamps the new counter value onto ... a pending unresolved start
    Position": the position takes the counter value it is given while it
    has none (sequence number 0).  Only the examples use it. *)
Definition stamp_pos (line : LTItem) (n : nat) (p : Pos) : Pos :=
  if Nat.eqb (_pageseq p) 0
  then {| pos_page := pos_page p; pos_x := pos_x p; pos_y := pos_y p;
          _pageseq := n |}
  else p.

Definition rect_methods : @Methods rect_types :=
  @text_methods rect_types center_hit stamp_pos.

Definition number_of (o : pdfobj) : Q :=
  match o with
  | PInt n => inject_Z n
  | PReal q => q
  | _ => 0
  end.

(** Modelled from the spec: the boxes of an annotation, one per
    quadrilateral of its [QuadPoints] ("a set of quadrilaterals (4 points
    each)"), each as the rectangle that bounds it. *)
Fixpoint boxes_of_coords (l : list Q) : list BBox :=
  match l with
  | ax :: ay :: bx :: by_ :: cx :: cy :: dx :: dy :: rest =>
      {| x0 := Qmin (Qmin ax bx) (Qmin cx dx);
         y0 := Qmin (Qmin ay by_) (Qmin cy dy);
         x1 := Qmax (Qmax ax bx) (Qmax cx dx);
         y1 := Qmax (Qmax ay by_) (Qmax cy dy) |} :: boxes_of_coords rest
  | _ => []
  end.

(** Modelled from the spec: the constructor [Annotation] of [types.py]:
    the captured text starts empty and the start position unset. *)
Definition rect_new_Annotation (pg : @Page rect_types) (name : string)
  (coords rect0 : pdfobj) (contents0 author0 : option string)
  (created0 : option string) : @Annotation rect_types :=
  @mkAnnotation rect_types name contents0 author0 created0 rect0
    (match coords with
     | PList l => Some (boxes_of_coords (map number_of l))
     | _ => None
     end)
    "" None.

(** Modelled from the spec: [Outline.resolve] of [types.py]: an outline
    is "resolved to a concrete Position when its referenced page is
    reached". *)
Definition rect_resolve (pg : @Page rect_types) (o : @Outline rect_types)
  : @Outline rect_types :=
  @mkOutline rect_types (title o) (pageref o) (target o)
    (Some {| pos_page := pageno pg;
             pos_x := number_of (fst (target o));
             pos_y := number_of (snd (target o));
             _pageseq := 0 |}).

(** Modelled from the spec: the order of positions: "lexicographic on
    (pageIndex, pageSequence, coordinate tiebreak)". *)
Definition pos_lt (p q : Pos) : bool :=
  Nat.ltb (pos_page p) (pos_page q)
  || (Nat.eqb (pos_page p) (pos_page q)
      && (Nat.ltb (_pageseq p) (_pageseq q)
          || (Nat.eqb (_pageseq p) (_pageseq q)
              && negb (Qle_bool (pos_y p) (pos_y q))))).

Definition opt_pos_lt (p q : option Pos) : bool :=
  match p, q with
  | Some p', Some q' => pos_lt p' q'
  | None, Some _ => true
  | _, _ => false
  end.

(** A library over a table [objs] of indirect objects: references are
    looked up in the table; a byte string decodes to itself, and anything
    else makes [decode_text] raise, as pdfminer's does when it calls
    [startswith] on it. *)
Definition rect_library (objs : Z -> pdfobj) : @Library rect_types :=
  @Build_Library rect_types
    rect_new_Annotation
    rect_resolve
    (fun a b => opt_pos_lt (startpos a) (startpos b))
    (fun a b => opt_pos_lt (pos a) (pos b))
    (fun o => match o with PRef i => objs i | _ => o end)
    objs
    (fun o => match o with PBytes s => Ok s | _ => Raise AttributeError end)
    (fun s => Ok s)
    (fun s => Ok (Some s)).

(** ** Example pages and documents *)

Definition ex_bbox (a b c d : Z) : BBox :=
  mkBBox (inject_Z a) (inject_Z b) (inject_Z c) (inject_Z d).

(** A highlight over the region [b]. *)
Definition ex_highlight (b : BBox) : @Annotation rect_types :=
  @mkAnnotation rect_types "Highlight" None None None PNone (Some [b]) "" None.

(** A sticky note: no region at all. *)
Definition ex_note : @Annotation rect_types :=
  @mkAnnotation rect_types "Text" None None None PNone None "" None.

(** A page with two overlapping highlights and a note. *)
Definition ex_page : @Page rect_types :=
  @mkPage rect_types 0 7
    [ex_highlight (ex_bbox 0 0 100 100); ex_highlight (ex_bbox 50 0 100 100);
     ex_note] [].

Definition ex_device : @RectExtractor rect_types :=
  @mkRectExtractor rect_types (Some ex_page) 0 (Some ∅) (Some ∅).

(** One text line "Hi!" with its line break. *)
Definition ex_line : list LTItem :=
  [LTContainer KTextLine (ex_bbox 0 0 100 10)
     [LTChar (ex_bbox 0 0 10 10) "H"; LTChar (ex_bbox 10 0 20 10) "i";
      LTChar (ex_bbox 60 0 70 10) "!"; LTAnno newline]].

(** The layout of a page: one text box that holds the line. *)
Definition ex_layout : LTItem :=
  LTContainer KContainer (ex_bbox 0 0 200 200)
    [LTContainer KTextBox (ex_bbox 0 0 100 100) ex_line].

(** The indirect objects of the example documents: 1 is a FreeText
    annotation, 2 a highlight. *)
Definition ex_objs (i : Z) : pdfobj :=
  if (i =? 1)%Z then PDict [("Subtype", PLit "FreeText")]
  else if (i =? 2)%Z then
    PDict [("Subtype", PLit "Highlight");
           ("QuadPoints",
            PList [PInt 0; PInt 0; PInt 100; PInt 0;
                   PInt 0; PInt 100; PInt 100; PInt 100])]
  else PNone.

Definition ex_library : @Library rect_types := rect_library ex_objs.

(** An outline tuple whose destination is [[page /XYZ left top zoom]]. *)
Definition ex_item_xyz (pr : pdfobj) : OutlineItem :=
  mkOutlineItem "Intro" (PList [pr; PLit "XYZ"; PInt 0; PInt 700; PNone]) PNone.

(** An outline tuple whose destination is [[page /Fit]]. *)
Definition ex_item_fit : OutlineItem :=
  mkOutlineItem "Intro" (PList [PInt 0; PLit "Fit"]) PNone.

(** A document without pages, with one outline that points to page 3. *)
Definition ex_doc_dangling : PDFDocument :=
  {| get_outlines := ([ex_item_xyz (PInt 3)], None);
     get_dest := fun _ => Raise KeyError;
     create_pages := [] |}.


(** A document with one page and one outline to it; the annotations of
    the page are a FreeText one, a stray integer and a highlight. *)
Definition ex_doc : PDFDocument :=
  {| get_outlines := ([ex_item_xyz (PInt 0); ex_item_fit], None);
     get_dest := fun _ => Raise KeyError;
     create_pages := [mkPDFPage 7 (PList [PRef 1; PInt 5; PRef 2]) ex_layout] |}.

(** A document whose only outline has a [/Fit] destination. *)
Definition ex_doc_fit : PDFDocument :=
  {| get_outlines := ([ex_item_fit], None);
     get_dest := fun _ => Raise KeyError;
     create_pages := [] |}.

(** A file with a name that holds the document [doc], and a stream
    without the attribute [name]. *)
Definition ex_file (doc : PDFDocument) : BinaryIO :=
  {| file_doc := Ok doc; file_name := Some "ex.pdf" |}.

Definition ex_file_unnamed (doc : PDFDocument) : BinaryIO :=
  {| file_doc := Ok doc; file_name := None |}.

(** A progress stream that takes whatever is written to it. *)
Definition ex_stream : TextIO :=
  {| stream_write := fun _ => Ok tt; stream_flush := Ok tt |}.

Definition ex_process_file (doc : PDFDocument)
  : list Output * result (list (@Annotation rect_types)
                             * list (@Outline rect_types)) :=
  process_file (M:=rect_methods) (L:=ex_library) (ex_file doc) None.

(** An outline tuple whose destination array has one entry only. *)
Definition ex_item_short : OutlineItem :=
  mkOutlineItem "Short" (PList [PInt 0]) PNone.

(** An outline tuple without destination, with a [GoTo] action. *)
Definition ex_item_action : OutlineItem :=
  mkOutlineItem "Intro" PNone
    (PDict [("S", PLit "GoTo");
            ("D", PList [PInt 0; PLit "XYZ"; PInt 0; PInt 700; PNone])]).

(** The document [ex_doc] with a short destination between its two
    outlines. *)
Definition ex_doc_short : PDFDocument :=
  {| get_outlines :=
       ([ex_item_xyz (PInt 0); ex_item_short; ex_item_fit], None);
     get_dest := fun _ => Raise KeyError;
     create_pages := create_pages ex_doc |}.

(** A document with the named destination [intro]. *)
Definition ex_doc_named : PDFDocument :=
  {| get_outlines := ([mkOutlineItem "Intro" (PBytes "intro") PNone], None);
     get_dest := fun s =>
       if String.eqb s "intro"
       then Ok (PDict [("D", PList [PInt 0; PLit "XYZ"; PInt 0; PInt 700;
                                    PNone])])
       else Raise KeyError;
     create_pages := create_pages ex_doc |}.

(** A page one of whose annotations refers to an object that is no
    dictionary, and a document with this page after the page of
    [ex_doc]. *)
Definition ex_page_bad : PDFPage := mkPDFPage 8 (PList [PRef 2; PRef 9]) ex_layout.

Definition ex_doc_bad : PDFDocument :=
  {| get_outlines := ([], None);
     get_dest := fun _ => Raise KeyError;
     create_pages := (create_pages ex_doc ++ [ex_page_bad])%list |}.


(** The texts of the annotations of the page of a device. *)
Definition texts (r : result (@RectExtractor rect_types))
  : option (list string) :=
  match r with
  | Ok d => option_map (fun pg => map (@text rect_types) (annots pg)) (page d)
  | Raise _ => None
  end.

(** ** Notions for further properties of the code *)

Section Notions.
Context {T : Types} {M : Methods} {L : Library}.

(** The text lines of a layout tree, in the order [render] meets them. *)
Fixpoint text_lines (item : LTItem) : list LTItem :=
  match item with
  | LTContainer k _ children =>
      ((if is_LTTextLine k then [item] else [])
       ++ flat_map text_lines children)%list
  | _ => []
  end.

(** [Pos.update_pageseq] applied for the text lines [lines] in turn,
    with the sequence numbers [n + 1], [n + 2], ... *)
Fixpoint stamp_lines (n : nat) (lines : list LTItem) (p : Position)
  : Position :=
  match lines with
  | [] => p
  | line :: lines' =>
      stamp_lines (S n) lines' (pos_update_pageseq line (S n) p)
  end.

(** An outline whose position, if it has one, went through
    [stamp_lines]. *)
Definition outline_after_lines (n : nat) (lines : list LTItem) (o : Outline)
  : Outline :=
  {| title := title o; pageref := pageref o; target := target o;
     pos := option_map (stamp_lines n lines) (pos o) |}.

(** No hit test of the layout tree hits annotation [a]: neither a
    character nor the end of a text box. *)
Fixpoint misses (a : Annotation) (item : LTItem) : bool :=
  match item with
  | LTChar _ _ => negb (hit_annot item a)
  | LTContainer k _ children =>
      (if is_LTTextBox k then negb (hit_annot item a) else true)
      && forallb (misses a) children
  | _ => true
  end.

(** An annotation that went through the first loop of [update_pageseq]
    for the text lines [lines] in turn, with the sequence numbers [n + 1],
    [n + 2], ... *)
Fixpoint annot_after_lines (n : nat) (lines : list LTItem) (a : Annotation)
  : Annotation :=
  match lines with
  | [] => a
  | line :: lines' => annot_after_lines (S n) lines' (stamp_annot line (S n) a)
  end.

(** Annotation [i] of the page is [a], and is in neither set of the
    device. *)
Definition unhit (i : nat) (a : Annotation) (d : RectExtractor) : Prop :=
  exists pg, page d = Some pg /\ annots pg !! i = Some a /\ in_no_set i d.

(** Both sets of the device exist. *)
Definition has_sets (d : RectExtractor) : Prop :=
  is_Some (_lasthit d) /\ is_Some (_curline d).

(** Both sets of the device hold annotations of its page only. *)
Definition sets_on_page (d : RectExtractor) : Prop :=
  forall pg s i, page d = Some pg ->
    _lasthit d = Some s \/ _curline d = Some s ->
    i ∈ s -> is_Some (annots pg !! i).

(** [isinstance(pa, pdftypes.PDFObjRef)] *)
Definition is_PDFObjRef (pa : pdfobj) : bool :=
  match pa with PRef _ => true | _ => false end.

(** The entry is a reference to a dictionary whose subtype is one of
    [ANNOT_SUBTYPES]. *)
Definition supported_entry (pa : pdfobj) : bool :=
  match pa with
  | PRef i =>
      match deref i with
      | PDict d =>
          match dict_get "Subtype" d with
          | PLit name => in_ANNOT_SUBTYPES name
          | _ => false
          end
      | _ => false
      end
  | _ => false
  end.

(** The entries the annotation loop of a page visits:
    [pdftypes.resolve1(pdfpage.annots) if pdfpage.annots else []]. *)
Definition page_entries (p : PDFPage) : result (list pdfobj) :=
  if truthy (page_annots p) then py_iter (resolve1 (page_annots p))
  else Ok [].

(** A page that stops [process_file]: its annotations cannot be
    iterated, or one of them refers to a record that is no dictionary
    with a name for subtype. *)
Definition bad_page (p : PDFPage) : Prop :=
  match page_entries p with
  | Raise _ => True
  | Ok pas =>
      exists i, In (PRef i) pas
        /\ forall d name, deref i = PDict d -> dict_get "Subtype" d <> PLit name
  end.

(** The number of entries of a page that give an annotation. *)
Definition supported_on (p : PDFPage) : nat :=
  match page_entries p with
  | Ok pas => length (List.filter supported_entry pas)
  | Raise _ => 0
  end.

(** The warnings for the entries of a page that are no references. *)
Definition warnings_on (p : PDFPage) : list Output :=
  match page_entries p with
  | Ok pas =>
      map WarnUnknownAnnotation
        (List.filter (fun pa => negb (is_PDFObjRef pa)) pas)
  | Raise _ => []
  end.

(** The outlines of [os] that are addressed to [r], in their order. *)
Definition addressed_to (r : PageRef) (os : list Outline) : list Outline :=
  List.filter
    (fun o => match pageref o, r with
              | PageNo n, PageNo k => (n =? k)%Z
              | PageObj i, PageObj j => (i =? j)%Z
              | _, _ => false
              end) os.

(** Device [d'] has the page of [d] with as many annotations, and with
    the outlines that the text lines [lines] leave. *)
Definition follows (lines : list LTItem) (d d' : RectExtractor) : Prop :=
  forall pg, page d = Some pg ->
    exists pg', page d' = Some pg'
      /\ pageno pg' = pageno pg /\ objid pg' = objid pg
      /\ length (annots pg') = length (annots pg)
      /\ outlines pg'
         = map (outline_after_lines (pageseq d) lines) (outlines pg).

(** The outlines that wait in a pending dictionary, and in the two. *)
Definition waiting (m : gmap Z (list Outline)) : list Outline :=
  flat_map snd (map_to_list m).

Definition pending_list (pend : Pending) : list Outline :=
  (waiting (outlines_by_objid pend) ++ waiting (outlines_by_pageno pend))%list.

(** Every outline that waits does so under the key it refers to. *)
Definition well_filed (pend : Pending) : Prop :=
  (forall k l o, outlines_by_pageno pend !! k = Some l -> o ∈ l ->
                 pageref o = PageNo k)
  /\ (forall k l o, outlines_by_objid pend !! k = Some l -> o ∈ l ->
                    pageref o = PageObj k).

(** Outline [r] is what the page loop returns for the retrieved outline
    [o] on page [p] with number [n]: [o] refers to the page by its number
    or by its object id, it has been resolved on the [Page] object of
    that page, and its position has gone through the text lines of the
    layout of the page. *)
Definition returned_on (n : nat) (p : PDFPage) (o r : Outline) : Prop :=
  exists pg, pageno pg = n /\ objid pg = pageid p
    /\ (pageref o = PageNo (Z.of_nat n) \/ pageref o = PageObj (pageid p))
    /\ r = outline_after_lines 0 (text_lines (layout p)) (resolve pg o).

(** The same on one of the pages [pages], which are numbered from [n0]. *)
Definition returned_for (n0 : nat) (pages : list PDFPage) (o r : Outline)
  : Prop :=
  exists k p, pages !! k = Some p /\ returned_on (n0 + k) p o r.


End Notions.

(** Induction over layout trees, with the hypothesis for every child. *)
Lemma LTItem_tree_ind (P : LTItem -> Prop) :
  (forall b t, P (LTChar b t)) ->
  (forall t, P (LTAnno t)) ->
  (forall k b cs, Forall P cs -> P (LTContainer k b cs)) ->
  (forall b, P (LTComponent b)) ->
  forall item, P item.
Proof.
  intros HC HA HK HO.
  fix IH 1. intros [b t | t | k b cs | b].
  - apply HC.
  - apply HA.
  - apply HK. induction cs as [| c cs IHcs]; constructor.
    + apply IH.
    + apply IHcs.
  - apply HO.
Qed.

(** ** Facts about the binding engine *)

Section EngineFacts.
Context {T : Types} {M : Methods}.

Lemma render_container (k : LTKind) (b : BBox) (cs : list LTItem)
    (d : RectExtractor) :
  render (LTContainer k b cs) d =
    let* d1 := (if is_LTTextLine k
                then update_pageseq (LTContainer k b cs) d else Ok d) in
    let* d2 := render_children cs d1 in
    if is_LTTextBox k then
      let* r := testboxes (LTContainer k b cs) d2 in
      capture_newline (fst r)
    else Ok d2.
Proof. reflexivity. Qed.

Lemma count_lines_container (k : LTKind) (b : BBox) (cs : list LTItem) :
  count_lines (LTContainer k b cs) =
    (if is_LTTextLine k then 1 else 0) + count_lines_list cs.
Proof. reflexivity. Qed.

Lemma bind_Ok {A B : Type} (m : result A) (k : A -> result B) (b : B) :
  bind m k = Ok b -> exists a, m = Ok a /\ k a = Ok b.
Proof. destruct m as [a | e]; simpl; [eauto | discriminate]. Qed.

Lemma attr_Ok {A : Type} (o : option A) (a : A) :
  attr o = Ok a -> o = Some a.
Proof. destruct o; simpl; congruence. Qed.

Lemma mapM_stamp_outline (line : LTItem) (n : nat) (os : list Outline) :
  Forall (fun o => is_Some (pos o)) os ->
  exists os', mapM (stamp_outline line n) os = Ok os'
              /\ Forall (fun o => is_Some (pos o)) os'
              /\ length os' = length os.
Proof.
  induction 1 as [| o os [p Hp] _ (os' & IH & Hall & Hlen)]; simpl.
  - exists []. auto.
  - unfold stamp_outline at 1. rewrite Hp. simpl. rewrite IH. simpl.
    eexists. split; [reflexivity |]. split.
    + constructor; [simpl; eauto | exact Hall].
    + simpl. congruence.
Qed.

Lemma mapM_stamp_outline_inv (line : LTItem) (n : nat)
    (os os' : list Outline) :
  mapM (stamp_outline line n) os = Ok os' ->
  Forall (fun o => is_Some (pos o)) os'.
Proof.
  revert os'. induction os as [| o os IH]; simpl; intros os' Heq.
  - injection Heq as <-. constructor.
  - apply bind_Ok in Heq as (o1 & Ho & Heq).
    apply bind_Ok in Heq as (os1 & Hos & Heq).
    injection Heq as <-. constructor; [| eauto].
    unfold stamp_outline in Ho. destruct (pos o); [| discriminate].
    injection Ho as <-. simpl. eauto.
Qed.

(** [update_pageseq] returns on a ready device; it adds one to the
    counter, stamps the annotations and leaves the two sets alone. *)
Lemma update_pageseq_ready (line : LTItem) (d : RectExtractor) :
  ready d ->
  exists d', update_pageseq line d = Ok d' /\ ready d'.
Proof.
  intros (Hlh & Hcl & pg & Hpg & Hall). unfold update_pageseq. rewrite Hpg.
  destruct (mapM_stamp_outline line (S (pageseq d)) _ Hall)
    as (os' & -> & Hall' & _).
  simpl. eexists. split; [reflexivity |].
  split; [exact Hlh |]. split; [exact Hcl |].
  eexists. split; [reflexivity | exact Hall'].
Qed.

Lemma update_pageseq_Ok (line : LTItem) (d d' : RectExtractor) :
  update_pageseq line d = Ok d' ->
  pageseq d' = S (pageseq d)
  /\ _lasthit d' = _lasthit d /\ _curline d' = _curline d
  /\ exists pg pg', page d = Some pg /\ page d' = Some pg'
       /\ annots pg' = map (stamp_annot line (S (pageseq d))) (annots pg)
       /\ Forall (fun o => is_Some (pos o)) (outlines pg').
Proof.
  unfold update_pageseq. destruct (page d) as [pg |]; [| discriminate].
  intros Heq. apply bind_Ok in Heq as (os' & Hos & Heq).
  injection Heq as <-. simpl. repeat split.
  exists pg. eexists. repeat split. simpl.
  eapply mapM_stamp_outline_inv. exact Hos.
Qed.

Lemma testboxes_Ok (item : LTItem) (d : RectExtractor)
    (r : RectExtractor * gset nat) :
  testboxes item d = Ok r ->
  exists pg cl, page d = Some pg /\ _curline d = Some cl
    /\ snd r = hits item (annots pg)
    /\ page (fst r) = Some pg /\ pageseq (fst r) = pageseq d
    /\ _lasthit (fst r) = Some (hits item (annots pg))
    /\ _curline (fst r) = Some (cl ∪ hits item (annots pg)).
Proof.
  unfold testboxes. destruct (page d) as [pg |] eqn:Hpg; [| discriminate].
  destruct (_curline d) as [cl |]; [| discriminate].
  intros Heq. injection Heq as <-. simpl. exists pg, cl. repeat split; auto.
Qed.

Lemma testboxes_ready (item : LTItem) (d : RectExtractor) :
  ready d -> exists r, testboxes item d = Ok r /\ ready (fst r).
Proof.
  intros (Hlh & [cl Hcl] & pg & Hpg & Hall). unfold testboxes.
  rewrite Hpg, Hcl. simpl.
  eexists. split; [reflexivity |]. simpl.
  split; [eauto |]. split; [eauto |]. exists pg. auto.
Qed.

Lemma capture_in_page_ready (s : gset nat) (t : string) (d : RectExtractor) :
  ready d -> ready (capture_in_page s t d).
Proof.
  intros (Hlh & Hcl & pg & Hpg & Hall). unfold capture_in_page, ready. simpl.
  rewrite Hpg. simpl. split; [exact Hlh |]. split; [exact Hcl |].
  eexists. split; [reflexivity | exact Hall].
Qed.

Lemma capture_newline_Ok (d d' : RectExtractor) :
  capture_newline d = Ok d' ->
  exists cl, _curline d = Some cl
    /\ page d' = page (capture_in_page cl newline d)
    /\ pageseq d' = pageseq d
    /\ _lasthit d' = _lasthit d /\ _curline d' = Some ∅.
Proof.
  unfold capture_newline. destruct (_curline d) as [cl |]; [| discriminate].
  simpl. intros Heq. injection Heq as <-. exists cl. auto.
Qed.

Lemma capture_newline_sets (d : RectExtractor) (cl : gset nat) :
  _curline d = Some cl ->
  capture_newline d
  = Ok {| page := page (capture_in_page cl newline d);
          pageseq := pageseq d;
          _lasthit := _lasthit d; _curline := Some ∅ |}.
Proof. intros Hcl. unfold capture_newline. by rewrite Hcl. Qed.

Lemma capture_newline_ready (d : RectExtractor) :
  ready d -> exists d', capture_newline d = Ok d' /\ ready d'.
Proof.
  intros Hd. pose proof Hd as (Hlh & [cl Hcl] & _).
  rewrite (capture_newline_sets d cl Hcl). eexists. split; [reflexivity |].
  apply (capture_in_page_ready cl newline) in Hd.
  destruct Hd as (Hlh' & _ & pg & Hpg & Hall).
  split; [exact Hlh' |]. split; [simpl; eauto |].
  exists pg. split; [exact Hpg | exact Hall].
Qed.

(** [render] returns on a ready device, and leaves it ready. *)
Lemma render_ready (item : LTItem) :
  forall d, ready d -> exists d', render item d = Ok d' /\ ready d'.
Proof.
  induction item as [b t | t | k b cs IH | b] using LTItem_tree_ind;
    intros d Hd.
  - simpl. destruct (testboxes_ready (LTChar b t) d Hd) as (r & -> & Hr).
    simpl. eexists. split; [reflexivity |].
    by apply capture_in_page_ready.
  - simpl. destruct (String.eqb t newline).
    + by apply capture_newline_ready.
    + pose proof Hd as ([lh Hlh] & _). rewrite Hlh. simpl.
      eexists. split; [reflexivity |]. by apply capture_in_page_ready.
  - rewrite render_container.
    assert (exists d1, (if is_LTTextLine k
                        then update_pageseq (LTContainer k b cs) d
                        else Ok d) = Ok d1 /\ ready d1) as (d1 & -> & Hd1).
    { destruct (is_LTTextLine k); [by apply update_pageseq_ready | eauto]. }
    simpl.
    assert (exists d2, render_children cs d1 = Ok d2 /\ ready d2)
      as (d2 & -> & Hd2).
    { clear Hd. revert d1 Hd1.
      induction IH as [| c cs Hc _ IHcs]; intros d1 Hd1; simpl; [eauto |].
      destruct (Hc d1 Hd1) as (d' & -> & Hd'). simpl. by apply IHcs. }
    simpl. destruct (is_LTTextBox k); [| eauto].
    destruct (testboxes_ready (LTContainer k b cs) d2 Hd2) as (r & -> & Hr).
    simpl. by apply capture_newline_ready.
  - simpl. eauto.
Qed.

Lemma bind_Ok_l {A B : Type} (a : A) (k : A -> result B) :
  bind (Ok a) k = k a.
Proof. reflexivity. Qed.

Lemma bind_Ok_r {A : Type} (m : result A) : bind m Ok = m.
Proof. by destruct m. Qed.

Lemma render_children_nil (d : RectExtractor) : render_children [] d = Ok d.
Proof. reflexivity. Qed.

Lemma render_children_cons (c : LTItem) (cs : list LTItem)
    (d : RectExtractor) :
  render_children (c :: cs) d =
    let* d' := render c d in render_children cs d'.
Proof. reflexivity. Qed.

Lemma render_textline (b : BBox) (cs : list LTItem) (d : RectExtractor) :
  render (LTContainer KTextLine b cs) d =
    let* d1 := update_pageseq (LTContainer KTextLine b cs) d in
    render_children cs d1.
Proof.
  rewrite render_container. simpl.
  destruct (update_pageseq _ d) as [d1 | e]; simpl; [| reflexivity].
  apply bind_Ok_r.
Qed.

Lemma render_children_ready (cs : list LTItem) :
  forall d, ready d -> exists d', render_children cs d = Ok d' /\ ready d'.
Proof.
  induction cs as [| c cs IH]; intros d Hd; simpl; [eauto |].
  destruct (render_ready c d Hd) as (d' & -> & Hd'). simpl. by apply IH.
Qed.

(** The device that [receive_layout] renders on is ready when the
    outlines of the page have positions. *)
Lemma reset_ready (pg : Page) (n : nat) :
  Forall (fun o => is_Some (pos o)) (outlines pg) ->
  ready {| page := Some pg; pageseq := n;
           _lasthit := Some ∅; _curline := Some ∅ |}.
Proof.
  intros Hall. split; [simpl; eauto |]. split; [simpl; eauto |].
  exists pg. auto.
Qed.

End EngineFacts.

(** ** The page sequence counter *)

Section PageSeq.
Context {T : Types} {M : Methods}.

Lemma render_pageseq (item : LTItem) :
  forall d d', render item d = Ok d' ->
               pageseq d' = pageseq d + count_lines item.
Proof.
  induction item as [b t | t | k b cs IH | b] using LTItem_tree_ind;
    intros d d' Hr.
  - simpl in Hr. apply bind_Ok in Hr as (r & Hr & Heq).
    injection Heq as <-.
    apply testboxes_Ok in Hr as (pg & cl & _ & _ & _ & _ & Hs & _).
    simpl. lia.
  - simpl in Hr. destruct (String.eqb t newline).
    + apply capture_newline_Ok in Hr as (cl & _ & _ & Hs & _). simpl. lia.
    + apply bind_Ok in Hr as (lh & _ & Heq). injection Heq as <-. simpl. lia.
  - rewrite render_container in Hr. rewrite count_lines_container.
    apply bind_Ok in Hr as (d1 & H1 & Hr).
    apply bind_Ok in Hr as (d2 & H2 & Hr).
    assert (pageseq d1 = pageseq d + (if is_LTTextLine k then 1 else 0))
      as E1.
    { destruct (is_LTTextLine k).
      - apply update_pageseq_Ok in H1 as (-> & _). lia.
      - injection H1 as <-. lia. }
    assert (pageseq d2 = pageseq d1 + count_lines_list cs) as E2.
    { clear Hr H1 E1. revert d1 H2.
      induction IH as [| c cs Hc _ IHcs]; intros d1 H2; simpl in H2 |- *.
      - injection H2 as <-. lia.
      - apply bind_Ok in H2 as (d3 & H3 & H2).
        rewrite (IHcs _ H2), (Hc _ _ H3). lia. }
    destruct (is_LTTextBox k).
    + apply bind_Ok in Hr as (r & Hr & Hn).
      apply testboxes_Ok in Hr as (pg & cl & _ & _ & _ & _ & Hs & _).
      apply capture_newline_Ok in Hn as (cl' & _ & _ & Hs' & _). lia.
    + injection Hr as <-. lia.
  - simpl in Hr. injection Hr as <-. simpl. lia.
Qed.

(** C9: the sequence counter of a page is 0 when the page starts, and
    rendering adds to it exactly the number of text lines met: one per
    [LTTextLine], nothing for a character, an [LTAnno], any other
    component or the begin and end of any other container. *)
Theorem C9_pageseq_counts_text_lines (pg : Page) (d : RectExtractor)
    (ltpage : LTItem) :
  Forall (fun o => is_Some (pos o)) (outlines pg) ->
  pageseq (start_page pg d) = 0
  /\ (exists d', receive_layout ltpage (start_page pg d) = Ok d'
                 /\ pageseq d' = count_lines ltpage)
  /\ (forall item d1 d2, render item d1 = Ok d2 ->
        pageseq d2 = pageseq d1 + count_lines item)
  /\ (forall item d1 d2, render item d1 = Ok d2 ->
        match item with
        | LTContainer KTextLine _ cs =>
            pageseq d2 = S (pageseq d1) + count_lines_list cs
        | LTContainer _ _ cs => pageseq d2 = pageseq d1 + count_lines_list cs
        | _ => pageseq d2 = pageseq d1
        end).
Proof.
  intros Hall. split; [reflexivity |]. split; [| split].
  - unfold receive_layout.
    destruct (render_ready ltpage
                {| page := page (start_page pg d);
                   pageseq := pageseq (start_page pg d);
                   _lasthit := Some ∅; _curline := Some ∅ |})
      as (d' & Hr & _).
    { by apply reset_ready. }
    exists d'. split; [exact Hr |].
    apply render_pageseq in Hr. simpl in Hr. exact Hr.
  - apply render_pageseq.
  - intros item d1 d2 Hr. apply render_pageseq in Hr.
    destruct item as [b t | t | k b cs | b]; simpl in Hr; try lia.
    change (pageseq d2 = pageseq d1
              + ((if is_LTTextLine k then 1 else 0) + count_lines_list cs))
      in Hr.
    destruct k; simpl in Hr; lia.
Qed.

End PageSeq.

(** ** Annotations without boxes *)

Section NoBoxes.
Context {T : Types} {M : Methods}.

Lemma hit_annot_has_boxes (item : LTItem) (a : Annotation) :
  hit_annot item a = true -> has_boxes a = true.
Proof.
  unfold hit_annot, has_boxes. destruct (boxes a) as [[| b bs] |]; auto.
Qed.

Lemma elem_of_hits_from (n : nat) (item : LTItem) (l : list Annotation)
    (i : nat) :
  i ∈ hits_from n item l <->
  exists a, n <= i /\ l !! (i - n) = Some a /\ hit_annot item a = true.
Proof.
  revert n. induction l as [| a l IH]; intros n; simpl.
  - split; [set_solver | intros (a & _ & Hl & _); discriminate].
  - rewrite elem_of_union, IH. split.
    + intros [Hi | (a' & Hle & Hl & Hh)].
      * destruct (hit_annot item a) eqn:Hh; [| set_solver].
        apply elem_of_singleton in Hi as ->. exists a.
        rewrite Nat.sub_diag. auto.
      * exists a'. split; [lia |]. split; [| exact Hh].
        replace (i - n) with (S (i - S n)) by lia. exact Hl.
    + intros (a' & Hle & Hl & Hh).
      destruct (decide (i = n)) as [-> | Hne].
      * left. rewrite Nat.sub_diag in Hl. injection Hl as ->.
        rewrite Hh. set_solver.
      * right. exists a'. split; [lia |]. split; [| exact Hh].
        replace (i - n) with (S (i - S n)) in Hl by lia. exact Hl.
Qed.

(** The hit set of [testboxes]: the annotations with boxes, one of
    which the item hits. *)
Lemma elem_of_hits (item : LTItem) (l : list Annotation) (i : nat) :
  i ∈ hits item l <->
  exists a, l !! i = Some a /\ hit_annot item a = true.
Proof.
  unfold hits. rewrite elem_of_hits_from. rewrite Nat.sub_0_r.
  split; intros (a & Ha); exists a; intuition lia.
Qed.

Lemma capture_all_lookup (s : gset nat) (t : string) (l : list Annotation)
    (i : nat) :
  capture_all s t l !! i =
    (fun a => if decide (i ∈ s) then capture t a else a) <$> (l !! i).
Proof. unfold capture_all. apply list_lookup_imap. Qed.

Lemma capture_all_not_elem (s : gset nat) (t : string)
    (l : list Annotation) (i : nat) :
  i ∉ s -> capture_all s t l !! i = l !! i.
Proof.
  intros Hi. rewrite capture_all_lookup. destruct (l !! i); simpl; [| done].
  by rewrite decide_False.
Qed.

Lemma in_no_set_sets (i : nat) (d d' : RectExtractor) :
  _lasthit d' = _lasthit d -> _curline d' = _curline d ->
  in_no_set i d -> in_no_set i d'.
Proof.
  intros E1 E2 (lh & cl & Hlh & Hcl & Hn1 & Hn2).
  exists lh, cl. rewrite E1, E2. auto.
Qed.

Lemma in_no_set_lasthit (i : nat) (d : RectExtractor) (lh : gset nat) :
  in_no_set i d -> _lasthit d = Some lh -> i ∉ lh.
Proof. intros (lh' & cl & Hlh & _ & Hn & _) E. congruence. Qed.

Lemma in_no_set_curline (i : nat) (d : RectExtractor) (cl : gset nat) :
  in_no_set i d -> _curline d = Some cl -> i ∉ cl.
Proof. intros (lh & cl' & _ & Hcl & _ & Hn) E. congruence. Qed.

Lemma in_no_set_testboxes (i : nat) (item : LTItem) (d : RectExtractor)
    (r : RectExtractor * gset nat) :
  testboxes item d = Ok r -> i ∉ snd r ->
  in_no_set i d -> in_no_set i (fst r).
Proof.
  intros Hr Hi Hn.
  apply testboxes_Ok in Hr as (pg & cl & _ & Hcl & Hs & _ & _ & E1 & E2).
  rewrite Hs in Hi. pose proof (in_no_set_curline i d cl Hn Hcl) as Hc.
  eexists. eexists. split; [exact E1 |]. split; [exact E2 |].
  split; [exact Hi |]. intros [H | H]%elem_of_union; auto.
Qed.

Lemma in_no_set_capture_in_page (i : nat) (s : gset nat) (t : string)
    (d : RectExtractor) :
  in_no_set i d -> in_no_set i (capture_in_page s t d).
Proof. by apply in_no_set_sets. Qed.

Lemma in_no_set_capture_newline (i : nat) (d d' : RectExtractor) :
  capture_newline d = Ok d' -> in_no_set i d -> in_no_set i d'.
Proof.
  intros Hc (lh & cl & Hlh & Hcl & Hn1 & Hn2).
  apply capture_newline_Ok in Hc as (cl' & _ & _ & _ & E1 & E2).
  exists lh, ∅. rewrite E1, E2. repeat split; auto. set_solver.
Qed.

Section Keeps.
Variable i : nat.
Variable a : Annotation.

Hypothesis Hnone : has_boxes a = false.

Lemma keeps_not_hit (item : LTItem) (l : list Annotation)
    (a' : Annotation) :
  l !! i = Some a' -> boxes a' = boxes a -> i ∉ hits item l.
Proof.
  intros Hl Hb Hi. apply elem_of_hits in Hi as (a2 & Hl2 & Hh).
  rewrite Hl in Hl2. injection Hl2 as <-.
  apply hit_annot_has_boxes in Hh. unfold has_boxes in Hh, Hnone.
  rewrite Hb in Hh. congruence.
Qed.

Lemma keeps_update_pageseq (line : LTItem) (d d' : RectExtractor) :
  update_pageseq line d = Ok d' -> keeps i a d -> keeps i a d'.
Proof.
  intros Hu (pg & a' & Hpg & Hl & Ht & Hb & Hn).
  apply update_pageseq_Ok in Hu
    as (_ & E1 & E2 & pg1 & pg' & Hpg1 & Hpg' & Ha & _).
  rewrite Hpg in Hpg1. injection Hpg1 as <-.
  exists pg', (stamp_annot line (S (pageseq d)) a').
  split; [exact Hpg' |]. split.
  { rewrite Ha, list_lookup_fmap, Hl. reflexivity. }
  split; [| split]; [| | by apply (in_no_set_sets i d)];
    unfold stamp_annot; destruct (startpos a'); simpl; auto.
Qed.

Lemma keeps_testboxes (item : LTItem) (d : RectExtractor)
    (r : RectExtractor * gset nat) :
  testboxes item d = Ok r -> keeps i a d -> keeps i a (fst r) /\ i ∉ snd r.
Proof.
  intros Hu (pg & a' & Hpg & Hl & Ht & Hb & Hn).
  pose proof Hu as (pg1 & cl & Hpg1 & _ & Hs & Hp & _)%testboxes_Ok.
  rewrite Hpg in Hpg1. injection Hpg1 as <-.
  pose proof (keeps_not_hit item _ _ Hl Hb) as Hnh. rewrite <- Hs in Hnh.
  split; [| exact Hnh].
  exists pg, a'. repeat split; auto. by apply (in_no_set_testboxes i item d).
Qed.

Lemma keeps_capture_in_page (s : gset nat) (t : string)
    (d : RectExtractor) :
  i ∉ s -> keeps i a d -> keeps i a (capture_in_page s t d).
Proof.
  intros Hs (pg & a' & Hpg & Hl & Ht & Hb & Hn).
  unfold keeps. simpl. rewrite Hpg. simpl.
  eexists. exists a'. split; [reflexivity |]. simpl.
  rewrite capture_all_not_elem by exact Hs. repeat split; auto.
Qed.

Lemma keeps_capture_newline (d d' : RectExtractor) :
  capture_newline d = Ok d' -> keeps i a d -> keeps i a d'.
Proof.
  intros Hc Hk.
  assert (in_no_set i d) as Hn
    by (destruct Hk as (pg & a' & _ & _ & _ & _ & Hn); exact Hn).
  pose proof (in_no_set_capture_newline i d d' Hc Hn) as Hn'.
  apply capture_newline_Ok in Hc as (cl & Hcl & Hp & _).
  apply (keeps_capture_in_page cl newline) in Hk;
    [| by apply (in_no_set_curline i d)].
  destruct Hk as (pg & a' & Hpg & Hl & Ht & Hb & _).
  exists pg, a'. rewrite Hp. repeat split; auto.
Qed.

Lemma keeps_render (item : LTItem) :
  forall d d', render item d = Ok d' -> keeps i a d -> keeps i a d'.
Proof.
  induction item as [b t | t | k b cs IH | b] using LTItem_tree_ind;
    intros d d' Hr Hk.
  - simpl in Hr. apply bind_Ok in Hr as (r & Hr & Heq).
    injection Heq as <-.
    destruct (keeps_testboxes _ _ _ Hr Hk) as [Hk' Hn].
    by apply keeps_capture_in_page.
  - simpl in Hr. destruct (String.eqb t newline).
    + by apply (keeps_capture_newline d).
    + apply bind_Ok in Hr as (lh & Hlh%attr_Ok & Heq). injection Heq as <-.
      apply keeps_capture_in_page; [| exact Hk].
      destruct Hk as (pg & a' & _ & _ & _ & _ & Hn).
      by apply (in_no_set_lasthit i d).
  - rewrite render_container in Hr.
    apply bind_Ok in Hr as (d1 & H1 & Hr).
    apply bind_Ok in Hr as (d2 & H2 & Hr).
    assert (keeps i a d1) as Hk1.
    { destruct (is_LTTextLine k).
      - eapply keeps_update_pageseq; eauto.
      - injection H1 as <-. exact Hk. }
    assert (keeps i a d2) as Hk2.
    { clear Hr H1 Hk. revert d1 H2 Hk1.
      induction IH as [| c cs Hc _ IHcs]; intros d1 H2 Hk1; simpl in H2.
      - injection H2 as <-. exact Hk1.
      - apply bind_Ok in H2 as (d3 & H3 & H2). eauto. }
    destruct (is_LTTextBox k).
    + apply bind_Ok in Hr as (r & Hr & Hn).
      destruct (keeps_testboxes _ _ _ Hr Hk2) as [Hk' _].
      by apply (keeps_capture_newline (fst r)).
    + injection Hr as <-. exact Hk2.
  - simpl in Hr. injection Hr as <-. exact Hk.
Qed.

End Keeps.

(** C4: an annotation whose boxes are absent or empty is in no hit set,
    and whatever the layout of the page, rendering it returns and
    leaves the text of the annotation as it was (empty, if it was
    empty): no character, whitespace or newline reaches it. *)
Theorem C4_no_boxes_no_text (pg : Page) (d : RectExtractor)
    (ltpage : LTItem) (i : nat) (a : Annotation) :
  annots pg !! i = Some a ->
  has_boxes a = false ->
  Forall (fun o => is_Some (pos o)) (outlines pg) ->
  (forall item l, l !! i = Some a -> i ∉ hits item l)
  /\ exists d' pg' a',
       receive_layout ltpage (start_page pg d) = Ok d'
       /\ page d' = Some pg' /\ annots pg' !! i = Some a'
       /\ text a' = text a /\ boxes a' = boxes a
       /\ (text a = "" -> text a' = "")
       /\ exists lh cl, _lasthit d' = Some lh /\ _curline d' = Some cl
            /\ (i ∉ lh) /\ (i ∉ cl).
Proof.
  intros Hl Hnone Hall. split.
  { intros item l Hi. by eapply keeps_not_hit. }
  unfold receive_layout.
  set (d0 := {| page := page (start_page pg d);
                pageseq := pageseq (start_page pg d);
                _lasthit := Some ∅; _curline := Some ∅ |}).
  destruct (render_ready ltpage d0) as (d' & Hr & _).
  { by apply reset_ready. }
  assert (keeps i a d0) as Hk.
  { exists pg, a. simpl. repeat split; auto.
    exists ∅, ∅. simpl. repeat split; auto; set_solver. }
  apply (keeps_render i a Hnone ltpage _ _ Hr) in Hk
    as (pg' & a' & Hpg' & Hl' & Ht & Hb & Hn).
  exists d', pg', a'. repeat split; auto. congruence.
Qed.

End NoBoxes.

(** ** Containers, whitespace and the line flush *)

Section Flush.
Context {T : Types} {M : Methods}.

Lemma covers_hit_annot (item : LTItem) (a : Annotation) :
  hit_annot item a = true <-> covers item a.
Proof.
  unfold hit_annot, covers. destruct (boxes a) as [[| b bs] |].
  - split; [discriminate |].
    intros (bs & bx & [= <-] & Hin & _). by apply elem_of_nil in Hin.
  - rewrite existsb_exists. split.
    + intros (bx & Hin & Hh). exists (b :: bs), bx.
      split; [reflexivity |]. split; [by apply list_elem_of_In | exact Hh].
    + intros (bs' & bx & [= <-] & Hin & Hh). exists bx.
      split; [by apply list_elem_of_In | exact Hh].
  - split; [discriminate |]. intros (bs & bx & Hb & _). discriminate.
Qed.

(** The hit set of [testboxes], said with [Box.hit_item] alone. *)
Lemma elem_of_hits_covers (item : LTItem) (l : list Annotation) (i : nat) :
  i ∈ hits item l <-> exists a, l !! i = Some a /\ covers item a.
Proof.
  rewrite elem_of_hits.
  split; intros (a & Hl & Hh); exists a; (split; [exact Hl |]);
    by apply covers_hit_annot.
Qed.

(** C6: at the end of a text box, after all children have been
    rendered, the box itself is hit-tested once: the annotations of the
    page one of whose boxes the text box hits become the last-hit set and
    join the current line.  Then the line is flushed: [capture] is called
    with a newline on every annotation of the current line, and on no
    other, and the current line is emptied.  Nothing else of the page or
    the device changes.  No other kind of container does either: its
    result is the device its last child leaves. *)
Theorem C6_textbox_end_flush (k : LTKind) (b : BBox) (cs : list LTItem)
    (d d1 d2 : RectExtractor) :
  (if is_LTTextLine k then update_pageseq (LTContainer k b cs) d else Ok d)
    = Ok d1 ->
  render_children cs d1 = Ok d2 ->
  (k <> KTextBox -> render (LTContainer k b cs) d = Ok d2)
  /\ (k = KTextBox ->
      forall pg2 cl2, page d2 = Some pg2 -> _curline d2 = Some cl2 ->
      exists d' pg' lh',
        render (LTContainer k b cs) d = Ok d'
        /\ page d' = Some pg' /\ pageseq d' = pageseq d2
        /\ pageno pg' = pageno pg2 /\ objid pg' = objid pg2
        /\ outlines pg' = outlines pg2
        /\ length (annots pg') = length (annots pg2)
        /\ _lasthit d' = Some lh'
        /\ (forall j, j ∈ lh' <->
                      exists aj, annots pg2 !! j = Some aj
                                 /\ covers (LTContainer k b cs) aj)
        /\ _curline d' = Some ∅
        /\ forall j aj, annots pg2 !! j = Some aj ->
             (j ∈ cl2 \/ covers (LTContainer k b cs) aj ->
              annots pg' !! j = Some (capture newline aj))
             /\ (j ∉ cl2 -> ~ covers (LTContainer k b cs) aj ->
                 annots pg' !! j = Some aj)).
Proof.
  intros H1 H2. rewrite render_container, H1. simpl. rewrite H2. simpl.
  split.
  { intros Hk. by destruct k. }
  intros -> pg2 cl2 Hpg Hcl. simpl.
  set (item := LTContainer KTextBox b cs).
  unfold testboxes. rewrite Hpg, Hcl. simpl.
  rewrite (capture_newline_sets _ (cl2 ∪ hits item (annots pg2)))
    by reflexivity.
  simpl.
  eexists. eexists. exists (hits item (annots pg2)).
  split; [reflexivity |]. simpl.
  split; [reflexivity |]. split; [reflexivity |]. split; [reflexivity |].
  split; [reflexivity |]. split; [reflexivity |].
  split; [unfold capture_all; apply length_imap |].
  split; [reflexivity |].
  split; [intros j; apply elem_of_hits_covers |].
  split; [reflexivity |].
  intros j aj Hj. unfold set_annots. simpl.
  rewrite capture_all_lookup, Hj. simpl. split.
  - intros Hin. rewrite decide_True; [reflexivity |].
    apply elem_of_union. destruct Hin as [Hin | Hin]; [by left | right].
    apply elem_of_hits_covers. eauto.
  - intros Hn1 Hn2. rewrite decide_False; [reflexivity |].
    intros [Hin | Hin]%elem_of_union; [by apply Hn1 |].
    apply elem_of_hits_covers in Hin as (aj' & Hl & Hc).
    rewrite Hj in Hl. injection Hl as <-. by apply Hn2.
Qed.


Lemma capture_in_page_page (s : gset nat) (t : string) (d : RectExtractor)
    (pg : Page) :
  page d = Some pg ->
  page (capture_in_page s t d)
    = Some (set_annots (capture_all s t (annots pg)) pg).
Proof. intros Hpg. unfold capture_in_page. simpl. by rewrite Hpg. Qed.





End Flush.


(** ** Whitespace, with the text an annotation accumulates *)

Section Whitespace.
Context {T : Types}.
Variable hit : Box -> LTItem -> bool.
Variable upd : LTItem -> nat -> Position -> Position.

Let M : Methods := text_methods hit upd.
#[local] Existing Instance M.

Lemma hit_annot_boxes (item : LTItem) (a1 a2 : Annotation) :
  boxes a1 = boxes a2 -> hit_annot item a1 = hit_annot item a2.
Proof. unfold hit_annot. by intros ->. Qed.

Lemma holds_char (i : nat) (a : Annotation) (b : BBox) (c s : string)
    (d : RectExtractor) :
  holds i a d s ->
  hit_annot (LTChar b c) a = true ->
  exists d' cl', render (LTChar b c) d = Ok d'
    /\ holds i a d' (String.append s c)
    /\ _curline d' = Some cl' /\ i ∈ cl'.
Proof.
  intros [Hd (pg & a' & Hpg & Hl & Hb & Ht)] Hh.
  pose proof Hd as (Hlh & [cl Hcl] & pg1 & Hpg1 & Hall).
  rewrite Hpg in Hpg1. injection Hpg1 as <-.
  simpl. unfold testboxes. rewrite Hpg, Hcl. simpl.
  assert (i ∈ hits (LTChar b c) (annots pg)) as Hi.
  { apply elem_of_hits. exists a'. split; [exact Hl |].
    by rewrite (hit_annot_boxes _ a' a Hb). }
  eexists. eexists. split; [reflexivity |]. split; [split |].
  - apply capture_in_page_ready.
    split; [simpl; eauto |]. split; [simpl; eauto |].
    exists pg. split; [reflexivity | exact Hall].
  - eexists. exists (capture_text c a'). split; [reflexivity |].
    unfold set_annots. simpl.
    split; [| by rewrite Ht].
    rewrite capture_all_lookup, Hl. simpl. by rewrite decide_True.
  - simpl. split; [reflexivity |]. set_solver.
Qed.

Lemma holds_newline (i : nat) (a : Annotation) (s : string)
    (d : RectExtractor) (cl : gset nat) :
  holds i a d s ->
  _curline d = Some cl -> i ∈ cl ->
  exists d', render (LTAnno newline) d = Ok d'
             /\ holds i a d' (String.append s newline).
Proof.
  intros [Hd (pg & a' & Hpg & Hl & Hb & Ht)] Hcl Hi.
  change (render (LTAnno newline) d) with (capture_newline d).
  destruct (capture_newline_ready d Hd) as (d' & Hc & Hd').
  exists d'. split; [exact Hc |]. split; [exact Hd' |].
  rewrite (capture_newline_sets d cl Hcl) in Hc. injection Hc as <-.
  simpl. rewrite Hpg. simpl.
  eexists. exists (capture_text newline a'). split; [reflexivity |].
  unfold set_annots. simpl. split; [| by rewrite Ht].
  rewrite capture_all_lookup, Hl. simpl. by rewrite decide_True.
Qed.

Lemma holds_update_pageseq (i : nat) (a : Annotation) (line : LTItem)
    (s : string) (d : RectExtractor) :
  holds i a d s ->
  exists d', update_pageseq line d = Ok d' /\ holds i a d' s.
Proof.
  intros [Hd (pg & a' & Hpg & Hl & Hb & Ht)].
  destruct (update_pageseq_ready line d Hd) as (d' & Hu & Hd').
  exists d'. split; [exact Hu |]. split; [exact Hd' |].
  apply update_pageseq_Ok in Hu
    as (_ & _ & _ & pg1 & pg' & Hpg1 & Hpg' & Ha & _).
  rewrite Hpg in Hpg1. injection Hpg1 as <-.
  exists pg', (stamp_annot line (S (pageseq d)) a').
  split; [exact Hpg' |]. split.
  { rewrite Ha, list_lookup_fmap, Hl. reflexivity. }
  unfold stamp_annot. destruct (startpos a'); simpl; auto.
Qed.

Lemma string_append_assoc (s1 s2 s3 : string) :
  String.append (String.append s1 s2) s3
  = String.append s1 (String.append s2 s3).
Proof.
  induction s1 as [| c s1 IH]; [reflexivity |].
  change (String c (String.append (String.append s1 s2) s3)
          = String c (String.append s1 (String.append s2 s3))).
  by rewrite IH.
Qed.

(** C2: on any page, a whitespace item whose text is a newline
    appends one newline character to every annotation of the current
    line, to no other, and empties the current line; any other
    whitespace is appended to the annotations of the last-hit set and to
    no other.  Nothing else of an annotation changes.  So an annotation
    that is hit by "A", "B" on one line and by "C", "D" on the next, with
    one line break after "B", accumulates "AB", a newline, "CD". *)
Theorem C2_whitespace_broadcast (d : RectExtractor) (pg : Page)
    (lh cl : gset nat) (t : string) :
  page d = Some pg ->
  _lasthit d = Some lh ->
  _curline d = Some cl ->
  t <> newline ->
  (exists d' pg',
     render (LTAnno newline) d = Ok d' /\ page d' = Some pg'
     /\ _curline d' = Some ∅ /\ _lasthit d' = Some lh
     /\ length (annots pg') = length (annots pg)
     /\ forall j aj, annots pg !! j = Some aj ->
          exists aj', annots pg' !! j = Some aj'
            /\ aj' = (if decide (j ∈ cl) then capture_text newline aj
                      else aj)
            /\ text aj' = if decide (j ∈ cl)
                          then String.append (text aj) newline
                          else text aj)
  /\ (exists d' pg',
        render (LTAnno t) d = Ok d' /\ page d' = Some pg'
        /\ _curline d' = Some cl /\ _lasthit d' = Some lh
        /\ length (annots pg') = length (annots pg)
        /\ forall j aj, annots pg !! j = Some aj ->
             exists aj', annots pg' !! j = Some aj'
               /\ aj' = (if decide (j ∈ lh) then capture_text t aj else aj)
               /\ text aj' = if decide (j ∈ lh)
                             then String.append (text aj) t
                             else text aj)
  /\ (forall (i : nat) (a : Annotation) (bl1 bl2 b1 b2 b3 b4 : BBox),
        annots pg !! i = Some a ->
        Forall (fun o => is_Some (pos o)) (outlines pg) ->
        hit_annot (LTChar b1 "A") a = true ->
        hit_annot (LTChar b2 "B") a = true ->
        hit_annot (LTChar b3 "C") a = true ->
        hit_annot (LTChar b4 "D") a = true ->
        exists d' pg' a',
          render_children
            [LTContainer KTextLine bl1
               [LTChar b1 "A"; LTChar b2 "B"; LTAnno newline];
             LTContainer KTextLine bl2 [LTChar b3 "C"; LTChar b4 "D"]] d
          = Ok d'
          /\ page d' = Some pg' /\ annots pg' !! i = Some a'
          /\ text a'
             = String.append (text a)
                 (String.append "AB" (String.append newline "CD"))).
Proof.
  intros Hpg Hlh Hcl Ht. split; [| split].
  - change (render (LTAnno newline) d) with (capture_newline d).
    rewrite (capture_newline_sets d cl Hcl).
    eexists. exists (set_annots (capture_all cl newline (annots pg)) pg).
    split; [reflexivity |]. simpl. rewrite Hpg. simpl.
    split; [reflexivity |]. split; [reflexivity |]. split; [exact Hlh |].
    split; [unfold capture_all; apply length_imap |].
    intros j aj Hj. rewrite capture_all_lookup, Hj.
    eexists. split; [reflexivity |]. split; [reflexivity |].
    by destruct (decide (j ∈ cl)).
  - exists (capture_in_page lh t d),
      (set_annots (capture_all lh t (annots pg)) pg).
    split. { simpl. apply String.eqb_neq in Ht. by rewrite Ht, Hlh. }
    split. { exact (capture_in_page_page lh t d pg Hpg). }
    split; [exact Hcl |]. split; [exact Hlh |].
    split; [unfold capture_all; apply length_imap |].
    intros j aj Hj. unfold set_annots. simpl.
    rewrite capture_all_lookup, Hj.
    eexists. split; [reflexivity |]. split; [reflexivity |].
    by destruct (decide (j ∈ lh)).
  - intros i a bl1 bl2 b1 b2 b3 b4 Hl Hall HA HB HC HD.
    assert (holds i a d (text a)) as H0.
    { split.
      - split; [rewrite Hlh; eauto |]. split; [rewrite Hcl; eauto |].
        exists pg. auto.
      - exists pg, a. auto. }
    rewrite render_children_cons, render_textline.
    destruct (holds_update_pageseq i a
                (LTContainer KTextLine bl1
                   [LTChar b1 "A"; LTChar b2 "B"; LTAnno newline]) _ _ H0)
      as (d1 & -> & H1).
    rewrite bind_Ok_l, render_children_cons.
    destruct (holds_char i a b1 "A" _ _ H1 HA) as (d2 & cl2 & -> & H2 & _).
    rewrite bind_Ok_l, render_children_cons.
    destruct (holds_char i a b2 "B" _ _ H2 HB)
      as (d3 & cl3 & -> & H3 & Hc3 & Hi3).
    rewrite bind_Ok_l, render_children_cons.
    destruct (holds_newline i a _ _ cl3 H3 Hc3 Hi3) as (d4 & -> & H4).
    rewrite bind_Ok_l, render_children_nil, bind_Ok_l.
    rewrite render_children_cons, render_textline.
    destruct (holds_update_pageseq i a
                (LTContainer KTextLine bl2 [LTChar b3 "C"; LTChar b4 "D"])
                _ _ H4) as (d5 & -> & H5).
    rewrite bind_Ok_l, render_children_cons.
    destruct (holds_char i a b3 "C" _ _ H5 HC) as (d6 & cl6 & -> & H6 & _).
    rewrite bind_Ok_l, render_children_cons.
    destruct (holds_char i a b4 "D" _ _ H6 HD) as (d7 & cl7 & -> & H7 & _).
    rewrite bind_Ok_l, render_children_nil, bind_Ok_l, render_children_nil.
    destruct H7 as [_ (pg' & a' & Hpg' & Hl' & _ & Ht')].
    exists d7, pg', a'. split; [reflexivity |]. split; [exact Hpg' |].
    split; [exact Hl' |]. rewrite Ht'.
    rewrite !string_append_assoc. reflexivity.
Qed.

End Whitespace.


(** ** Facts about the document layer *)

Section DocumentFacts.
Context {T : Types} {M : Methods} {L : Library}.

Lemma lbind_lret_l {A B : Type} (a : A) (k : A -> logged B) :
  lbind (lret a) k = k a.
Proof. unfold lbind, lret. by destruct (k a). Qed.

Lemma lbind_Ok {A B : Type} (m : logged A) (k : A -> logged B)
    (lg : list Output) (b : B) :
  lbind m k = (lg, Ok b) ->
  exists lg1 a lg2, m = (lg1, Ok a) /\ k a = (lg2, Ok b)
                    /\ lg = (lg1 ++ lg2)%list.
Proof.
  destruct m as [lg1 [a | e]]; simpl; [| discriminate].
  destruct (k a) as [lg2 r] eqn:Hk. intros Heq. injection Heq as <- ->.
  exists lg1, a, lg2. auto.
Qed.

(** [_mkannotation] on a record whose subtype is a name. *)
Lemma mkannotation_unsupported (pa : list (string * pdfobj)) (name : string)
    (pg : Page) :
  dict_get "Subtype" pa = PLit name ->
  in_ANNOT_SUBTYPES name = false ->
  _mkannotation (PDict pa) pg = Ok None.
Proof.
  intros Hs Hn. unfold _mkannotation. simpl. rewrite Hs. simpl.
  by rewrite Hn.
Qed.

(** [_mkannotation] returns for dictionaries with a name for subtype
    only: an annotation when the name is supported, [None] when not. *)
Lemma mkannotation_Ok (pa : pdfobj) (pg : Page) (r : option Annotation) :
  _mkannotation pa pg = Ok r ->
  exists d name, pa = PDict d /\ dict_get "Subtype" d = PLit name
    /\ if in_ANNOT_SUBTYPES name then exists a, r = Some a else r = None.
Proof.
  unfold _mkannotation. intros H.
  apply bind_Ok in H as (subtype & Hs & H).
  destruct pa as [| | | | | | | | d]; try discriminate Hs.
  injection Hs as <-. exists d.
  apply bind_Ok in H as (u & Hu & H).
  destruct (dict_get "Subtype" d) as [| | | | | name | | |] eqn:E;
    simpl in Hu; try discriminate Hu.
  - injection Hu as <-. exfalso.
    repeat (apply bind_Ok in H as (? & ? & H)).
    match goal with Hn : literal_name PNone = Ok _ |- _ => discriminate Hn end.
  - exists name. split; [reflexivity |]. split; [reflexivity |].
    injection Hu as <-. destruct (in_ANNOT_SUBTYPES name); simpl in H.
    + repeat (apply bind_Ok in H as (? & ? & H)). injection H as <-. eauto.
    + by injection H as <-.
Qed.

Lemma quiet_bind {A B : Type} (m : result A) (k : A -> logged B) (a : A) :
  m = Ok a -> lbind (quiet m) k = k a.
Proof. intros ->. unfold quiet, lbind. by destruct (k a). Qed.

Lemma emit_progress_accepts (emit_progress_to : option TextIO)
    (msg : string) :
  accepts emit_progress_to ->
  emit_progress emit_progress_to msg = (progress emit_progress_to msg, Ok tt).
Proof.
  destruct emit_progress_to as [f |]; [| reflexivity].
  intros [Hw Hf]. unfold emit_progress, quiet. by rewrite Hw, Hf.
Qed.

Lemma emit_progress_Ok (emit_progress_to : option TextIO) (msg : string)
    (lg : list Output) (u : unit) :
  emit_progress emit_progress_to msg = (lg, Ok u) ->
  lg = progress emit_progress_to msg.
Proof.
  destruct emit_progress_to as [f |]; simpl; [| by intros [= <-]].
  unfold quiet. destruct (stream_write f msg) as [[] | e]; simpl;
    [| discriminate].
  destruct (stream_flush f) as [[] | e]; simpl; [| discriminate].
  by intros [= <-].
Qed.

(** C5: a raw annotation whose subtype is a name outside the supported
    set gives no annotation: [_mkannotation] returns [None], the page
    gets nothing for it, and the annotations built from the entries of
    the page are those built without it. *)
Theorem C5_unsupported_subtype_dropped (pa : list (string * pdfobj))
    (name : string) (i : Z) :
  dict_get "Subtype" pa = PLit name ->
  in_ANNOT_SUBTYPES name = false ->
  deref i = PDict pa ->
  (forall pg, _mkannotation (PDict pa) pg = Ok None)
  /\ (forall pg, add_annotation pg (PRef i) = ([], Ok pg))
  /\ (forall pg pas1 pas2,
        add_annotations pg (pas1 ++ PRef i :: pas2)%list
        = add_annotations pg (pas1 ++ pas2)%list).
Proof.
  intros Hs Hn Hd.
  assert (forall pg, add_annotation pg (PRef i) = ([], Ok pg)) as Hadd.
  { intros pg. unfold add_annotation. rewrite Hd.
    by rewrite (mkannotation_unsupported pa name pg Hs Hn). }
  split; [intros pg; by apply (mkannotation_unsupported pa name) |].
  split; [exact Hadd |].
  intros pg pas1. revert pg.
  induction pas1 as [| p pas1 IH]; intros pg pas2;
    cbn [app add_annotations].
  - rewrite Hadd. apply (lbind_lret_l pg).
  - destruct (add_annotation pg p) as [lg [pg' | e]]; simpl; [| reflexivity].
    by rewrite IH.
Qed.

(** C8, as the code has it: an outline tuple with a destination yields
    an outline exactly when the display mode of the destination is XYZ and
    its page is an [int] or an indirect reference.  An XYZ destination
    with any other page is ignored with a warning; a destination with any
    other display mode is ignored and nothing is logged. *)
Theorem C8_only_xyz_destinations (doc : PDFDocument) (it : OutlineItem)
    (dest mode : pdfobj) :
  is_None (item_destname it) = false ->
  _resolve_dest doc (item_destname it) = Ok dest ->
  py_item1 dest = Ok mode ->
  (is_literal "XYZ" mode = false -> outline_of_item doc it = Ok (None, []))
  /\ (is_literal "XYZ" mode = true ->
      forall pr m tx ty, py_unpack4 dest = Ok (pr, m, tx, ty) ->
        outline_of_item doc it =
          match as_pageref pr with
          | Some r => Ok (Some (new_Outline (oi_title it) r (tx, ty)), [])
          | None => Ok (None, [WarnUnsupportedPageref pr])
          end)
  /\ (forall o lg, outline_of_item doc it = Ok (Some o, lg) ->
        is_literal "XYZ" mode = true /\ lg = []
        /\ exists pr m tx ty,
             py_unpack4 dest = Ok (pr, m, tx, ty)
             /\ as_pageref pr = Some (pageref o)).
Proof.
  intros Hn Hd Hm. unfold outline_of_item. rewrite Hn, Hd. simpl.
  rewrite Hm. simpl. split; [| split].
  - by intros ->.
  - intros -> pr m tx ty ->. simpl. by destruct (as_pageref pr).
  - intros o lg. destruct (is_literal "XYZ" mode); [| discriminate].
    destruct (py_unpack4 dest) as [[[[pr m] tx] ty] | e]; simpl;
      [| discriminate].
    destruct (as_pageref pr) as [r |] eqn:Hr; [| discriminate].
    intros Heq. injection Heq as <- <-. split; [reflexivity |].
    split; [reflexivity |]. exists pr, m, tx, ty. auto.
Qed.

(** *** Pending outlines *)

Lemma dd_append_lookup (k k' : Z) (o : Outline) (m : gmap Z (list Outline)) :
  dd_append k o m !! k' =
    if decide (k = k') then Some (default [] (m !! k) ++ [o])%list
    else m !! k'.
Proof. unfold dd_append. apply lookup_insert. Qed.

Lemma file_outline_waits_new (pend : Pending) (o : Outline) :
  waits (file_outline pend o) o.
Proof.
  unfold waits, file_outline, pending_of.
  destruct (pageref o) as [n | j]; simpl; rewrite dd_append_lookup;
    rewrite decide_True by reflexivity;
    eexists; (split; [reflexivity | set_solver]).
Qed.

Lemma file_outline_waits_old (pend : Pending) (o o' : Outline) :
  waits pend o -> waits (file_outline pend o') o.
Proof.
  intros (l & Hl & Ho). unfold waits, file_outline, pending_of in *.
  destruct (pageref o') as [n' | j'], (pageref o) as [n | j]; simpl;
    try (exists l; split; [exact Hl | exact Ho]);
    rewrite dd_append_lookup; case_decide as Hk;
    try (exists l; split; [exact Hl | exact Ho]);
    subst; rewrite Hl; simpl;
    eexists; (split; [reflexivity | set_solver]).
Qed.

Lemma foldl_file_outline_old (os : list Outline) (pend : Pending)
    (o : Outline) :
  waits pend o -> waits (foldl file_outline pend os) o.
Proof.
  revert pend. induction os as [| o' os IH]; intros pend Hw; simpl;
    [exact Hw |].
  apply IH. by apply file_outline_waits_old.
Qed.

Lemma foldl_file_outline_new (os : list Outline) (pend : Pending)
    (o : Outline) :
  o ∈ os -> waits (foldl file_outline pend os) o.
Proof.
  revert pend. induction os as [| o' os IH]; intros pend Ho; simpl.
  - by apply elem_of_nil in Ho.
  - apply elem_of_cons in Ho as [-> | Ho].
    + apply foldl_file_outline_old, file_outline_waits_new.
    + by apply IH.
Qed.

Lemma process_page_pending (n : nat) (p : PDFPage) (st st' : LoopState)
    (lg : list Output) :
  process_page n p st = (lg, Ok st') ->
  outlines_by_pageno (pending st')
    = delete (Z.of_nat n) (outlines_by_pageno (pending st))
  /\ outlines_by_objid (pending st')
     = delete (pageid p) (outlines_by_objid (pending st)).
Proof.
  unfold process_page. intros Hp.
  apply lbind_Ok in Hp as (lg1 & pas & lg2 & _ & Hp & _).
  apply lbind_Ok in Hp as (lg3 & pg2 & lg4 & _ & Hp & _).
  apply lbind_Ok in Hp as (lg5 & dev & lg6 & _ & Hp & _).
  unfold lret in Hp. injection Hp as _ <-. simpl. auto.
Qed.

Lemma process_pages_waits (emit_progress_to : option TextIO)
    (pages : list PDFPage) (o : Outline) :
  forall n st st' lg,
    process_pages emit_progress_to n pages st = (lg, Ok st') ->
    ~ appears_from n pages (pageref o) ->
    waits (pending st) o -> waits (pending st') o.
Proof.
  induction pages as [| p pages IH]; intros n st st' lg Hp Hna Hw.
  - unfold process_pages, lret in Hp. by injection Hp as _ <-.
  - cbn [process_pages] in Hp.
    apply lbind_Ok in Hp as (lg0 & u & lg0' & _ & Hp & _).
    apply lbind_Ok in Hp as (lg1 & st1 & lg2 & Hpage & Hp & _).
    apply (IH _ _ _ _ Hp).
    + intros Ha. apply Hna. unfold appears_from in *.
      destruct (pageref o) as [k | j]; simpl in *; [lia |].
      apply elem_of_cons. by right.
    + apply process_page_pending in Hpage as [E1 E2].
      destruct Hw as (l & Hl & Ho). exists l. split; [| exact Ho].
      unfold pending_of, appears_from in *.
      destruct (pageref o) as [k | j]; simpl in *.
      * rewrite E1. rewrite lookup_delete_ne; [exact Hl | lia].
      * rewrite E2. rewrite lookup_delete_ne; [exact Hl |].
        intros <-. apply Hna, elem_of_cons. by left.
Qed.

Lemma waits_check_resolved (pend : Pending) (o : Outline) :
  waits pend o -> check_resolved pend = Raise AssertionError.
Proof.
  intros (l & Hl & _). unfold check_resolved, pending_of in *.
  destruct (pageref o) as [k | j].
  - rewrite decide_False; [reflexivity |].
    intros E. rewrite E, lookup_empty in Hl. discriminate.
  - case_decide; [| reflexivity]. rewrite decide_False; [reflexivity |].
    intros E. rewrite E, lookup_empty in Hl. discriminate.
Qed.

(** *** [process_file], step by step *)

Lemma lbind_raises {A B : Type} (m : logged A) (k : A -> logged B) :
  (forall a, exists lg e, k a = (lg, Raise e)) ->
  exists lg e, lbind m k = (lg, Raise e).
Proof.
  intros Hk. destruct m as [lg [a | e]]; simpl; [| eauto].
  destruct (Hk a) as (lg' & e & ->). eauto.
Qed.

Lemma lbind_raises_Ok {A B : Type} (m : logged A) (k : A -> logged B)
    (lg : list Output) (a : A) :
  m = (lg, Ok a) ->
  (exists lg' e, k a = (lg', Raise e)) ->
  exists lg' e, lbind m k = (lg', Raise e).
Proof. intros -> (lg' & e & Hk). simpl. rewrite Hk. eauto. Qed.

Lemma lbind_Raise_l {A B : Type} (m : logged A) (k : A -> logged B)
    (lg : list Output) (e : exn) :
  m = (lg, Raise e) -> lbind m k = (lg, Raise e).
Proof. by intros ->. Qed.

Lemma process_file_opened (file : BinaryIO)
    (emit_progress_to : option TextIO) (doc : PDFDocument) (name : string) :
  file_doc file = Ok doc -> file_name file = Some name ->
  process_file file emit_progress_to
  = lbind (emit_progress emit_progress_to name) (fun _ =>
      process_document emit_progress_to doc).
Proof.
  intros Hd Hn. unfold process_file.
  rewrite (quiet_bind _ _ doc Hd).
  rewrite (quiet_bind _ _ name); [reflexivity | by rewrite Hn].
Qed.

Lemma process_file_accepted (file : BinaryIO)
    (emit_progress_to : option TextIO) (doc : PDFDocument) (name : string) :
  file_doc file = Ok doc -> file_name file = Some name ->
  accepts emit_progress_to ->
  process_file file emit_progress_to
  = ((progress emit_progress_to name
      ++ fst (process_document emit_progress_to doc))%list,
     snd (process_document emit_progress_to doc)).
Proof.
  intros Hd Hn Ha. rewrite (process_file_opened file _ doc name Hd Hn).
  rewrite (emit_progress_accepts _ _ Ha). simpl.
  by destruct (process_document emit_progress_to doc).
Qed.

(** Whatever the name of the file and the progress stream:
    [process_file] raises when what it does with the document raises. *)
Lemma process_file_raises (file : BinaryIO)
    (emit_progress_to : option TextIO) (doc : PDFDocument) :
  file_doc file = Ok doc ->
  (exists lg e, process_document emit_progress_to doc = (lg, Raise e)) ->
  exists lg e, process_file file emit_progress_to = (lg, Raise e).
Proof.
  intros Hd Hdoc. unfold process_file. rewrite (quiet_bind _ _ doc Hd).
  destruct (file_name file) as [name |]; [| simpl; eauto].
  rewrite (quiet_bind _ _ name) by reflexivity.
  apply lbind_raises. intros _. exact Hdoc.
Qed.

Lemma process_document_Ok (emit_progress_to : option TextIO)
    (doc : PDFDocument) (lg : list Output)
    (r : list Annotation * list Outline) :
  process_document emit_progress_to doc = (lg, Ok r) ->
  exists lg1 st,
    process_pages emit_progress_to 0 (create_pages doc)
      (initial_state (fst (fst (_get_outlines doc)))) = (lg1, Ok st)
    /\ check_resolved (pending st) = Ok tt
    /\ r = (allannots st, alloutlines st)
    /\ lg = ((snd (fst (_get_outlines doc))
              ++ outlines_handler (snd (_get_outlines doc)))
             ++ lg1 ++ progress emit_progress_to newline)%list.
Proof.
  unfold process_document. destruct (_get_outlines doc) as [[os lg0] e].
  intros H.
  apply lbind_Ok in H as (lga & u & lgb & Ha & H & ->).
  injection Ha as <-.
  apply lbind_Ok in H as (lg1 & st & lgc & Hp & H & ->).
  apply lbind_Ok in H as (lgn & u' & lgd & Hn & H & ->).
  apply emit_progress_Ok in Hn as ->.
  apply lbind_Ok in H as (lge & u'' & lgf & Hc & H & ->).
  unfold quiet in Hc. injection Hc as <- Hc. injection H as <- <-.
  exists lg1, st. simpl. rewrite !app_nil_r.
  destruct u''. auto.
Qed.

Lemma process_file_Ok (file : BinaryIO) (emit_progress_to : option TextIO)
    (lg : list Output) (r : list Annotation * list Outline) :
  process_file file emit_progress_to = (lg, Ok r) ->
  exists doc name lg1,
    file_doc file = Ok doc /\ file_name file = Some name
    /\ process_document emit_progress_to doc = (lg1, Ok r)
    /\ lg = (progress emit_progress_to name ++ lg1)%list.
Proof.
  unfold process_file. intros H.
  apply lbind_Ok in H as (lga & doc & lgb & Hd & H & ->).
  unfold quiet in Hd. injection Hd as <- Hd.
  apply lbind_Ok in H as (lgc & name & lgd & Hn & H & ->).
  unfold quiet in Hn. injection Hn as <- Hn. apply attr_Ok in Hn.
  apply lbind_Ok in H as (lge & u & lgf & He & H & ->).
  apply emit_progress_Ok in He as ->.
  exists doc, name, lgf. auto.
Qed.

(** C1, as the code has it: an outline whose page never appears among
    the processed pages is never taken out of its pending dictionary, so
    it is neither resolved nor put in the result; [process_file] then
    does not return: when the page loop ends, the final assertion on the
    pending dictionaries fails, and [process_file] raises
    [AssertionError] (the file has a name and the progress stream takes
    its messages, or nothing would have reached the page loop). *)
Theorem C1_dangling_outline_fails (file : BinaryIO)
    (emit_progress_to : option TextIO) (doc : PDFDocument)
    (os : list Outline) (lg : list Output) (e : option exn) (o : Outline) :
  file_doc file = Ok doc ->
  _get_outlines doc = (os, lg, e) ->
  o ∈ os ->
  ~ appears_from 0 (create_pages doc) (pageref o) ->
  (exists lg' ex, process_file file emit_progress_to = (lg', Raise ex))
  /\ forall lg1 st,
       process_pages emit_progress_to 0 (create_pages doc) (initial_state os)
       = (lg1, Ok st) ->
       waits (pending st) o
       /\ check_resolved (pending st) = Raise AssertionError
       /\ (is_Some (file_name file) -> accepts emit_progress_to ->
           exists lg', process_file file emit_progress_to
                       = (lg', Raise AssertionError)).
Proof.
  intros Hd Hg Ho Hna.
  assert (forall lg1 st,
            process_pages emit_progress_to 0 (create_pages doc)
              (initial_state os) = (lg1, Ok st) ->
            waits (pending st) o) as Hw.
  { intros lg1 st Hp.
    apply (process_pages_waits _ _ o _ _ _ _ Hp Hna).
    by apply foldl_file_outline_new. }
  split.
  - apply (process_file_raises file _ doc Hd).
    unfold process_document. rewrite Hg.
    apply lbind_raises. intros _.
    destruct (process_pages emit_progress_to 0 (create_pages doc)
                (initial_state os)) as [lg1 [st | ex]] eqn:Hp;
      [| simpl; eauto].
    apply (lbind_raises_Ok _ _ lg1 st eq_refl).
    apply lbind_raises. intros _.
    unfold quiet. rewrite (waits_check_resolved _ o (Hw lg1 st eq_refl)).
    simpl. eauto.
  - intros lg1 st Hp. pose proof (Hw lg1 st Hp) as Hwst.
    split; [exact Hwst |].
    split; [by apply (waits_check_resolved _ o) |].
    intros [name Hname] Hacc.
    rewrite (process_file_accepted file _ doc name Hd Hname Hacc).
    unfold process_document. rewrite Hg. simpl. rewrite Hp. simpl.
    rewrite (emit_progress_accepts _ _ Hacc). simpl.
    rewrite (waits_check_resolved _ o Hwst). simpl. eauto.
Qed.


(** *** The annotations of a page *)

Lemma add_annotation_Ok (pg pg' : Page) (pa : pdfobj) (lg : list Output) :
  add_annotation pg pa = (lg, Ok pg') ->
  lg = (if is_PDFObjRef pa then [] else [WarnUnknownAnnotation pa])
  /\ pageno pg' = pageno pg /\ objid pg' = objid pg
  /\ outlines pg' = outlines pg
  /\ exists new, annots pg' = (annots pg ++ new)%list
       /\ length new = if supported_entry pa then 1 else 0.
Proof.
  assert (forall w, (([w], Ok pg) : logged Page) = (lg, Ok pg') ->
            lg = [w] /\ pageno pg' = pageno pg /\ objid pg' = objid pg
            /\ outlines pg' = outlines pg
            /\ exists new, annots pg' = (annots pg ++ new)%list
                 /\ length new = 0) as Hwarn.
  { intros w [= <- <-]. repeat split. exists []. by rewrite app_nil_r. }
  unfold add_annotation.
  destruct pa as [| b | n | q | s | name | i | l | d];
    try (intros Hr; exact (Hwarn _ Hr)).
  unfold supported_entry. simpl is_PDFObjRef. cbv iota.
  destruct (_mkannotation (deref i) pg) as [r | e] eqn:Hm; [| discriminate].
  destruct (mkannotation_Ok _ _ _ Hm) as (d & name & Hd & Hs & Hn).
  rewrite Hd, Hs. destruct (in_ANNOT_SUBTYPES name).
  - destruct Hn as [a ->]. intros [= <- <-]. simpl. repeat split.
    exists [a]. auto.
  - subst r. intros [= <- <-]. repeat split. exists []. by rewrite app_nil_r.
Qed.

Lemma add_annotations_Ok (pas : list pdfobj) (pg pg' : Page)
    (lg : list Output) :
  add_annotations pg pas = (lg, Ok pg') ->
  lg = map WarnUnknownAnnotation
         (List.filter (fun pa => negb (is_PDFObjRef pa)) pas)
  /\ pageno pg' = pageno pg /\ objid pg' = objid pg
  /\ outlines pg' = outlines pg
  /\ exists new, annots pg' = (annots pg ++ new)%list
       /\ length new = length (List.filter supported_entry pas).
Proof.
  revert pg lg. induction pas as [| pa pas IH]; intros pg lg Hr.
  - injection Hr as <- <-. repeat split. exists []. by rewrite app_nil_r.
  - cbn [add_annotations] in Hr.
    apply lbind_Ok in Hr as (lg1 & pg1 & lg2 & H1 & H2 & ->).
    apply add_annotation_Ok in H1
      as (-> & En & Eo & Eout & new1 & Ea & El).
    apply IH in H2 as (-> & En2 & Eo2 & Eout2 & new2 & Ea2 & El2).
    split.
    { cbn [List.filter]. destruct (is_PDFObjRef pa); reflexivity. }
    repeat split; try congruence.
    exists (new1 ++ new2)%list. split.
    + rewrite Ea2, Ea. by rewrite app_assoc.
    + rewrite length_app, El, El2. cbn [List.filter].
      destruct (supported_entry pa); reflexivity.
Qed.

Lemma add_annotations_Ok_each (pas : list pdfobj) :
  forall pg pg' lg,
    add_annotations pg pas = (lg, Ok pg') ->
    forall pa, In pa pas ->
      exists pg0 lg0 pg1, add_annotation pg0 pa = (lg0, Ok pg1).
Proof.
  induction pas as [| pa0 pas IH]; intros pg pg' lg Hr pa Hin;
    [destruct Hin |].
  cbn [add_annotations] in Hr.
  apply lbind_Ok in Hr as (lg1 & pg1 & lg2 & H1 & H2 & _).
  destruct Hin as [<- | Hin]; eauto.
Qed.

(** What a page that [process_page] gets through has done. *)
Lemma process_page_Ok (n : nat) (p : PDFPage) (st st' : LoopState)
    (lg : list Output) :
  process_page n p st = (lg, Ok st') ->
  exists pas pg2 dev,
    page_entries p = Ok pas
    /\ add_annotations
         (foldl link_outline
            {| pageno := n; objid := pageid p; annots := []; outlines := [] |}
            (default [] (outlines_by_objid (pending st) !! pageid p)
             ++ default [] (outlines_by_pageno (pending st) !! Z.of_nat n)))
         pas = (lg, Ok pg2)
    /\ receive_layout (layout p) (start_page pg2 (device st)) = Ok dev
    /\ allannots st'
       = (allannots st
          ++ py_sort annot_lt (annots (default pg2 (page dev))))%list
    /\ alloutlines st'
       = (alloutlines st
          ++ py_sort outline_lt (outlines (default pg2 (page dev))))%list.
Proof.
  unfold process_page. cbv zeta. intros Hp.
  apply lbind_Ok in Hp as (lg1 & pas & lg2 & H1 & Hp & ->).
  apply lbind_Ok in Hp as (lg3 & pg2 & lg4 & H2 & Hp & ->).
  apply lbind_Ok in Hp as (lg5 & dev & lg6 & H3 & Hp & ->).
  injection H3 as <- H3. injection Hp as <- <-.
  assert (lg1 = [] /\ page_entries p = Ok pas) as [-> Hpas].
  { unfold page_entries. destruct (truthy (page_annots p)).
    - by injection H1 as <- ->.
    - by injection H1 as <- <-. }
  exists pas, pg2, dev. rewrite !app_nil_r. simpl. auto.
Qed.

Lemma process_pages_Ok_each (emit_progress_to : option TextIO)
    (pages : list PDFPage) :
  forall n st st' lg,
    process_pages emit_progress_to n pages st = (lg, Ok st') ->
    forall p, In p pages ->
      exists k st0 lg0 st1, process_page k p st0 = (lg0, Ok st1).
Proof.
  induction pages as [| p0 pages IH]; intros n st st' lg Hr p Hin;
    [destruct Hin |].
  cbn [process_pages] in Hr.
  apply lbind_Ok in Hr as (lg0 & u & lg0' & _ & Hr & _).
  apply lbind_Ok in Hr as (lg1 & st1 & lg2 & H1 & H2 & _).
  destruct Hin as [<- | Hin]; eauto.
Qed.


(** *** Documents that [process_file] goes through *)








(** *** The records of the two handlers in the output *)










End DocumentFacts.


(** ** Examples: the definitions run on concrete pages and documents *)

Example ex_process_file_doc :
  fst (ex_process_file ex_doc) = [WarnUnknownAnnotation (PInt 5)]
  /\ match snd (ex_process_file ex_doc) with
     | Ok (allannots, alloutlines) =>
         map (@tagname rect_types) allannots = ["Highlight"]
         /\ map (@text rect_types) allannots
            = [String.append "Hi!" (String.append newline newline)]
         /\ map (@pageref rect_types) alloutlines = [PageNo 0]
     | Raise _ => False
     end.
Proof. vm_compute. repeat split. Qed.

(** With a progress stream: the name of the file, the number of each
    page and a final line break are written. *)
Example ex_process_file_progress :
  fst (process_file (M:=rect_methods) (L:=ex_library) (ex_file ex_doc)
         (Some ex_stream))
  = [Progress "ex.pdf"; Progress " 1"; WarnUnknownAnnotation (PInt 5);
     Progress newline].
Proof. vm_compute. reflexivity. Qed.

(** A file without the attribute [name]: [file.name] is read with or
    without a progress stream. *)
Example ex_unnamed_file_raises :
  process_file (M:=rect_methods) (L:=ex_library) (ex_file_unnamed ex_doc) None
  = ([], Raise AttributeError).
Proof. vm_compute. reflexivity. Qed.

(** The slip next to C7: a record without subtype passes the guard of
    [_mkannotation] and then fails on [subtype.name]. *)
Example ex_missing_subtype_raises :
  _mkannotation (L:=ex_library) (PDict [("Rect", PNone)]) ex_page
  = Raise AttributeError.
Proof. reflexivity. Qed.

(** A supported record whose [Contents] is no byte string:
    [decode_text] raises. *)
Example ex_contents_not_bytes_raises :
  _mkannotation (L:=ex_library)
    (PDict [("Subtype", PLit "Highlight"); ("Contents", PInt 5)]) ex_page
  = Raise AttributeError.
Proof. reflexivity. Qed.

(** A device on which [receive_layout] has not run has no [_lasthit]. *)
Example ex_fresh_device_raises :
  render (M:=rect_methods) (LTAnno " ") (start_page ex_page new_RectExtractor)
  = Raise AttributeError.
Proof. reflexivity. Qed.

(** The text box of the example page: "Hi!" with its line break, and the
    newline of the end of the box; the second highlight covers "!"
    only. *)
Example ex_textbox_texts :
  texts (render (M:=rect_methods)
           (LTContainer KTextBox (ex_bbox 0 0 100 100) ex_line) ex_device)
  = Some [String.append "Hi!" (String.append newline newline);
          String.append "!" (String.append newline newline); ""].
Proof. vm_compute. reflexivity. Qed.

(** *** The theorems at these inputs *)

Lemma C9_witness :
  exists d',
    receive_layout (M:=rect_methods) ex_layout (start_page ex_page ex_device)
    = Ok d'
    /\ pageseq d' = 1.
Proof.
  destruct (C9_pageseq_counts_text_lines (M:=rect_methods)
              ex_page ex_device ex_layout) as (_ & Hr & _).
  - constructor.
  - exact Hr.
Defined.

Lemma C4_witness :
  ex_page.(annots) !! 2 = Some ex_note
  /\ exists d' pg' a',
       receive_layout (M:=rect_methods) ex_layout
         (start_page ex_page ex_device) = Ok d'
       /\ page d' = Some pg' /\ annots pg' !! 2 = Some a'
       /\ @text rect_types a' = "".
Proof.
  split; [reflexivity |].
  destruct (C4_no_boxes_no_text (M:=rect_methods)
              ex_page ex_device ex_layout 2 ex_note)
    as (_ & d' & pg' & a' & Hr & Hp & Hl & Ht & _).
  - reflexivity.
  - reflexivity.
  - constructor.
  - exists d', pg', a'. repeat split; assumption.
Defined.

Lemma C6_witness :
  exists d2 pg2 d' pg' lh',
    render_children (M:=rect_methods) ex_line ex_device = Ok d2
    /\ page d2 = Some pg2
    /\ render (M:=rect_methods)
         (LTContainer KTextBox (ex_bbox 0 0 100 100) ex_line) ex_device
       = Ok d'
    /\ page d' = Some pg'
    /\ length (annots pg') = length (annots pg2)
    /\ _lasthit d' = Some lh' /\ _curline d' = Some ∅.
Proof.
  destruct (render_children_ready (M:=rect_methods) ex_line ex_device)
    as (d2 & E2 & _ & [cl2 Hc2] & pg2 & Hp2 & _).
  { apply reset_ready. constructor. }
  destruct (C6_textbox_end_flush (M:=rect_methods) KTextBox
              (ex_bbox 0 0 100 100) ex_line ex_device ex_device d2
              eq_refl E2) as (_ & H).
  destruct (H eq_refl pg2 cl2 Hp2 Hc2)
    as (d' & pg' & lh' & Hr & Hp' & _ & _ & _ & _ & Hlen & Hl & _ & Hc & _).
  exists d2, pg2, d', pg', lh'. repeat split; assumption.
Defined.


(** C10 as stated fails: the character "H" is the last character before
    the line break and hits the first highlight only; the text box that
    ends between it and the line break hits both highlights, and the
    whitespace after the line break goes to both. *)
Lemma C10_counterexample :
  hit_annot (M:=rect_methods) (LTChar (ex_bbox 0 0 10 10) "H")
    (ex_highlight (ex_bbox 50 0 100 100)) = false
  /\ texts (render_children (M:=rect_methods)
              [LTChar (ex_bbox 0 0 10 10) "H";
               LTContainer KTextBox (ex_bbox 0 0 100 100) [];
               LTAnno newline; LTAnno " "] ex_device)
     = Some [String.append "H" (String.append newline " ");
             String.append newline " "; ""]
  /\ texts (render_children (M:=rect_methods)
              [LTChar (ex_bbox 0 0 10 10) "H";
               LTAnno newline; LTAnno " "] ex_device)
     = Some [String.append "H" (String.append newline " "); ""; ""].
Proof. vm_compute. repeat split. Qed.

Lemma C2_witness :
  exists d' pg' a',
    render_children (M:=rect_methods)
      [LTContainer KTextLine (ex_bbox 0 10 100 20)
         [LTChar (ex_bbox 0 10 10 20) "A"; LTChar (ex_bbox 10 10 20 20) "B";
          LTAnno newline];
       LTContainer KTextLine (ex_bbox 0 0 100 10)
         [LTChar (ex_bbox 0 0 10 10) "C"; LTChar (ex_bbox 10 0 20 10) "D"]]
      ex_device = Ok d'
    /\ page d' = Some pg' /\ annots pg' !! 0 = Some a'
    /\ @text rect_types a'
       = String.append "AB" (String.append newline "CD").
Proof.
  destruct (C2_whitespace_broadcast (T:=rect_types) center_hit stamp_pos
              ex_device ex_page ∅ ∅ " ") as (_ & _ & H).
  - reflexivity.
  - reflexivity.
  - reflexivity.
  - unfold newline. discriminate.
  - destruct (H 0 (ex_highlight (ex_bbox 0 0 100 100))
                (ex_bbox 0 10 100 20) (ex_bbox 0 0 100 10)
                (ex_bbox 0 10 10 20) (ex_bbox 10 10 20 20)
                (ex_bbox 0 0 10 10) (ex_bbox 10 0 20 10))
      as (d' & pg' & a' & Hr & Hp & Hl & Ht).
    + reflexivity.
    + constructor.
    + reflexivity.
    + reflexivity.
    + reflexivity.
    + reflexivity.
    + exists d', pg', a'. repeat split; assumption.
Defined.

Lemma C5_witness :
  in_ANNOT_SUBTYPES "FreeText" = false
  /\ forall pg,
       _mkannotation (L:=ex_library) (PDict [("Subtype", PLit "FreeText")]) pg
       = Ok None.
Proof.
  split; [reflexivity |].
  destruct (C5_unsupported_subtype_dropped (L:=ex_library)
              [("Subtype", PLit "FreeText")] "FreeText" 1) as (Hm & _).
  - reflexivity.
  - reflexivity.
  - reflexivity.
  - exact Hm.
Defined.

Lemma C8_witness :
  outline_of_item (L:=ex_library) ex_doc (ex_item_xyz (PInt 0))
  = Ok (Some (new_Outline "Intro" (PageNo 0) (PInt 0, PInt 700)), []).
Proof.
  destruct (C8_only_xyz_destinations (L:=ex_library) ex_doc
              (ex_item_xyz (PInt 0))
              (PList [PInt 0; PLit "XYZ"; PInt 0; PInt 700; PNone])
              (PLit "XYZ")) as (_ & Hx & _).
  - reflexivity.
  - reflexivity.
  - reflexivity.
  - exact (Hx eq_refl (PInt 0) (PLit "XYZ") (PInt 0) (PInt 700) eq_refl).
Defined.

(** C8 as stated fails: a [/Fit] destination is ignored, and nothing is
    logged for it. *)
Lemma C8_counterexample :
  py_item1 (oi_dest ex_item_fit) = Ok (PLit "Fit")
  /\ outline_of_item (L:=ex_library) ex_doc_fit ex_item_fit = Ok (None, [])
  /\ ex_process_file ex_doc_fit = ([], Ok ([], [])).
Proof. vm_compute. repeat split. Qed.

Lemma C1_witness :
  exists lg' ex, ex_process_file ex_doc_dangling = (lg', Raise ex).
Proof.
  destruct (C1_dangling_outline_fails (M:=rect_methods) (L:=ex_library)
              (ex_file ex_doc_dangling) None ex_doc_dangling
              [new_Outline "Intro" (PageNo 3) (PInt 0, PInt 700)] [] None
              (new_Outline "Intro" (PageNo 3) (PInt 0, PInt 700)))
    as (Hf & _).
  - reflexivity.
  - reflexivity.
  - apply list_elem_of_singleton. reflexivity.
  - simpl. lia.
  - exact Hf.
Defined.

(** C1 as stated fails: the document has no page 3, its outline points
    to page 3, and [process_file] raises instead of returning. *)
Lemma C1_counterexample :
  create_pages ex_doc_dangling = []
  /\ map (@pageref rect_types)
       (fst (fst (_get_outlines (L:=ex_library) ex_doc_dangling)))
     = [PageNo 3]
  /\ ex_process_file ex_doc_dangling = ([], Raise AssertionError).
Proof. vm_compute. repeat split. Qed.




(** ** Further properties of the binding engine *)

Section MoreEngine.
Context {T : Types} {M : Methods}.


Lemma count_lines_text_lines (item : LTItem) :
  count_lines item = length (text_lines item).
Proof.
  induction item as [b t | t | k b cs IH | b] using LTItem_tree_ind;
    try reflexivity.
  rewrite count_lines_container. cbn [text_lines].
  rewrite length_app. f_equal; [by destruct (is_LTTextLine k) |].
  induction IH as [| c cs Hc _ IHcs]; [reflexivity |].
  cbn [count_lines_list flat_map]. rewrite length_app. congruence.
Qed.

Lemma stamp_lines_app (l1 l2 : list LTItem) :
  forall n p,
    stamp_lines n (l1 ++ l2) p
    = stamp_lines (n + length l1) l2 (stamp_lines n l1 p).
Proof.
  induction l1 as [| l l1 IH]; intros n p; simpl.
  - by rewrite Nat.add_0_r.
  - rewrite IH. f_equal. lia.
Qed.

Lemma outline_after_lines_nil (n : nat) (o : Outline) :
  outline_after_lines n [] o = o.
Proof. destruct o as [t r g [p |]]; reflexivity. Qed.

Lemma outline_after_lines_app (n : nat) (l1 l2 : list LTItem) (o : Outline) :
  outline_after_lines (n + length l1) l2 (outline_after_lines n l1 o)
  = outline_after_lines n (l1 ++ l2) o.
Proof.
  unfold outline_after_lines. simpl. f_equal.
  destruct (pos o) as [p |]; simpl; [| reflexivity].
  by rewrite stamp_lines_app.
Qed.

Lemma follows_refl (d d' : RectExtractor) :
  page d' = page d ->
  follows [] d d'.
Proof.
  intros E pg Hpg. exists pg. rewrite E. repeat split; [exact Hpg |].
  rewrite <- (map_id (outlines pg)) at 1. apply map_ext.
  intros o. symmetry. apply outline_after_lines_nil.
Qed.

Lemma follows_trans (l1 l2 : list LTItem) (d1 d2 d3 : RectExtractor) :
  follows l1 d1 d2 ->
  pageseq d2 = pageseq d1 + length l1 ->
  follows l2 d2 d3 ->
  follows (l1 ++ l2) d1 d3.
Proof.
  intros H12 Hs H23 pg Hpg.
  destruct (H12 pg Hpg) as (pg2 & Hp2 & En & Eo & El & Eout).
  destruct (H23 pg2 Hp2) as (pg3 & Hp3 & En3 & Eo3 & El3 & Eout3).
  exists pg3. split; [exact Hp3 |]. repeat split; try congruence.
  rewrite Eout3, Eout, map_map, Hs. apply map_ext.
  intros o. apply outline_after_lines_app.
Qed.

Lemma mapM_stamp_outline_map (line : LTItem) (n : nat)
    (os os' : list Outline) :
  mapM (stamp_outline line (S n)) os = Ok os' ->
  os' = map (outline_after_lines n [line]) os.
Proof.
  revert os'. induction os as [| o os IH]; simpl; intros os' Heq.
  - by injection Heq as <-.
  - apply bind_Ok in Heq as (o1 & Ho & Heq).
    apply bind_Ok in Heq as (os1 & Hos & Heq).
    injection Heq as <-. rewrite (IH _ Hos). f_equal.
    unfold stamp_outline in Ho. unfold outline_after_lines.
    destruct (pos o) as [p |]; [| discriminate]. by injection Ho as <-.
Qed.

Lemma follows_update_pageseq (line : LTItem) (d d' : RectExtractor) :
  update_pageseq line d = Ok d' -> follows [line] d d'.
Proof.
  intros Hu pg Hpg. unfold update_pageseq in Hu. rewrite Hpg in Hu.
  apply bind_Ok in Hu as (os' & Hos & Heq). injection Heq as <-.
  eexists. split; [reflexivity |]. simpl. repeat split.
  - apply length_map.
  - by apply mapM_stamp_outline_map.
Qed.

Lemma follows_capture_in_page (s : gset nat) (t : string)
    (d : RectExtractor) :
  follows [] d (capture_in_page s t d).
Proof.
  intros pg Hpg. rewrite (capture_in_page_page s t d pg Hpg).
  eexists. split; [reflexivity |]. simpl. repeat split.
  - unfold capture_all. apply length_imap.
  - rewrite <- (map_id (outlines pg)) at 1. apply map_ext.
    intros o. symmetry. apply outline_after_lines_nil.
Qed.

Lemma follows_capture_newline (d d' : RectExtractor) :
  capture_newline d = Ok d' -> follows [] d d'.
Proof.
  intros Hc pg Hpg. apply capture_newline_Ok in Hc as (cl & _ & Hp & _).
  destruct (follows_capture_in_page cl newline d pg Hpg)
    as (pg' & Hp' & Hrest).
  exists pg'. split; [by rewrite Hp | exact Hrest].
Qed.

Lemma follows_testboxes (item : LTItem) (d : RectExtractor)
    (r : RectExtractor * gset nat) :
  testboxes item d = Ok r ->
  follows [] d (fst r) /\ pageseq (fst r) = pageseq d.
Proof.
  intros Hr.
  apply testboxes_Ok in Hr as (pg & cl & Hpg & _ & _ & Hp & Hs & _).
  split; [| exact Hs]. apply follows_refl. congruence.
Qed.

Lemma follows_render (item : LTItem) :
  forall d d', render item d = Ok d' -> follows (text_lines item) d d'.
Proof.
  induction item as [b t | t | k b cs IH | b] using LTItem_tree_ind;
    intros d d' Hr.
  - simpl in Hr. apply bind_Ok in Hr as (r & Hr & Heq). injection Heq as <-.
    apply follows_testboxes in Hr as [Hf Hs].
    apply (follows_trans [] [] d (fst r)); [exact Hf | simpl; lia |].
    apply follows_capture_in_page.
  - simpl in Hr. destruct (String.eqb t newline).
    + by apply follows_capture_newline.
    + apply bind_Ok in Hr as (lh & _ & Heq). injection Heq as <-.
      apply follows_capture_in_page.
  - rewrite render_container in Hr. cbn [text_lines].
    apply bind_Ok in Hr as (d1 & H1 & Hr).
    apply bind_Ok in Hr as (d2 & H2 & Hr).
    assert (follows (if is_LTTextLine k then [LTContainer k b cs] else [])
              d d1
            /\ pageseq d1
               = pageseq d
                 + length (if is_LTTextLine k
                           then [LTContainer k b cs] else [])) as [F1 S1].
    { destruct (is_LTTextLine k).
      - split; [by apply follows_update_pageseq |].
        apply update_pageseq_Ok in H1 as (-> & _). simpl. lia.
      - injection H1 as <-. split; [by apply follows_refl | simpl; lia]. }
    assert (follows (flat_map text_lines cs) d1 d2) as F2.
    { clear Hr H1 F1 S1. revert d1 H2.
      induction IH as [| c cs Hc _ IHcs]; intros d1 H2; simpl in H2.
      - injection H2 as <-. by apply follows_refl.
      - apply bind_Ok in H2 as (d3 & H3 & H2). cbn [flat_map].
        apply (follows_trans _ _ d1 d3); [by apply Hc | | by apply IHcs].
        rewrite <- count_lines_text_lines. by apply render_pageseq. }
    apply (follows_trans _ _ d d1); [exact F1 | exact S1 |].
    destruct (is_LTTextBox k).
    + apply bind_Ok in Hr as (r & Hr & Hn).
      apply follows_testboxes in Hr as [Hf Hs].
      rewrite <- (app_nil_r (flat_map text_lines cs)).
      apply (follows_trans _ _ d1 d2); [exact F2 | |].
      { assert (render_children cs d1 = Ok d2) as H2' by exact H2.
        clear -H2'. revert d1 H2'.
        induction cs as [| c cs IHcs]; intros d1 H2; simpl in H2.
        - injection H2 as <-. simpl. lia.
        - apply bind_Ok in H2 as (d3 & H3 & H2). cbn [flat_map].
          rewrite length_app, (IHcs _ H2), <- count_lines_text_lines.
          apply render_pageseq in H3. lia. }
      apply (follows_trans [] [] d2 (fst r)); [exact Hf | simpl; lia |].
      by apply follows_capture_newline.
    + by injection Hr as <-.
  - simpl in Hr. injection Hr as <-. by apply follows_refl.
Qed.

(** X1: rendering never adds, drops or reorders what is on the page: the
    page keeps its number, its object id and its number of annotations,
    and its outlines keep their place, title, page reference and target.
    The position of every outline has gone through [Pos.update_pageseq]
    once for each text line of the layout, in layout order, with the
    sequence numbers that follow the counter of the device. *)
Theorem X1_render_keeps_page (item : LTItem) (d d' : RectExtractor)
    (pg : Page) :
  render item d = Ok d' ->
  page d = Some pg ->
  exists pg', page d' = Some pg'
    /\ pageno pg' = pageno pg /\ objid pg' = objid pg
    /\ length (annots pg') = length (annots pg)
    /\ outlines pg'
       = map (outline_after_lines (pageseq d) (text_lines item))
           (outlines pg).
Proof. intros Hr Hpg. exact (follows_render item d d' Hr pg Hpg). Qed.

(** *** What the engine raises *)






(** Rendering keeps the two sets in existence. *)
Lemma render_has_sets (item : LTItem) :
  forall d d', render item d = Ok d' -> has_sets d -> has_sets d'.
Proof.
  induction item as [b t | t | k b cs IH | b] using LTItem_tree_ind;
    intros d d' Hr Hd.
  - simpl in Hr. apply bind_Ok in Hr as (r & Hr & Heq). injection Heq as <-.
    apply testboxes_Ok in Hr as (pg & cl & _ & _ & _ & _ & _ & E1 & E2).
    split; simpl; [rewrite E1 | rewrite E2]; eauto.
  - simpl in Hr. destruct (String.eqb t newline).
    + apply capture_newline_Ok in Hr as (cl & _ & _ & _ & E1 & E2).
      split; [rewrite E1; apply Hd | rewrite E2; eauto].
    + apply bind_Ok in Hr as (lh & _ & Heq). by injection Heq as <-.
  - rewrite render_container in Hr.
    apply bind_Ok in Hr as (d1 & H1 & Hr).
    apply bind_Ok in Hr as (d2 & H2 & Hr).
    assert (has_sets d1) as Hd1.
    { destruct (is_LTTextLine k); [| by injection H1 as <-].
      apply update_pageseq_Ok in H1 as (_ & E1 & E2 & _).
      unfold has_sets. by rewrite E1, E2. }
    assert (has_sets d2) as Hd2.
    { clear -IH H2 Hd1. revert d1 H2 Hd1.
      induction IH as [| c cs Hc _ IHcs]; intros d1 H2 Hd1; simpl in H2.
      - by injection H2 as <-.
      - apply bind_Ok in H2 as (d3 & H3 & H2). eauto. }
    destruct (is_LTTextBox k); [| by injection Hr as <-].
    apply bind_Ok in Hr as (r & Hr & Hn).
    apply testboxes_Ok in Hr as (pg & cl & _ & _ & _ & _ & _ & E1 & E2).
    apply capture_newline_Ok in Hn as (cl' & _ & _ & _ & E3 & E4).
    split; [rewrite E3, E1 | rewrite E4]; eauto.
  - simpl in Hr. by injection Hr as <-.
Qed.





(** *** Annotations that nothing hits *)

Lemma hit_annot_same_boxes (item : LTItem) (a1 a2 : Annotation) :
  boxes a1 = boxes a2 -> hit_annot item a1 = hit_annot item a2.
Proof. unfold hit_annot. by intros ->. Qed.

Lemma stamp_annot_fields (line : LTItem) (n : nat) (a : Annotation) :
  boxes (stamp_annot line n a) = boxes a
  /\ text (stamp_annot line n a) = text a
  /\ startpos (stamp_annot line n a)
     = option_map (pos_update_pageseq line n) (startpos a).
Proof.
  unfold stamp_annot. destruct (startpos a) as [p |] eqn:E; simpl; auto.
Qed.

Lemma annot_after_lines_fields (lines : list LTItem) :
  forall n a,
    boxes (annot_after_lines n lines a) = boxes a
    /\ text (annot_after_lines n lines a) = text a
    /\ startpos (annot_after_lines n lines a)
       = option_map (stamp_lines n lines) (startpos a).
Proof.
  induction lines as [| l lines IH]; intros n a; simpl.
  - by destruct (startpos a).
  - destruct (IH (S n) (stamp_annot l (S n) a)) as (-> & -> & ->).
    destruct (stamp_annot_fields l (S n) a) as (-> & -> & ->).
    by destruct (startpos a).
Qed.

Lemma annot_after_lines_app (l1 l2 : list LTItem) :
  forall n a,
    annot_after_lines n (l1 ++ l2) a
    = annot_after_lines (n + length l1) l2 (annot_after_lines n l1 a).
Proof.
  induction l1 as [| l l1 IH]; intros n a; simpl.
  - by rewrite Nat.add_0_r.
  - rewrite IH. f_equal. lia.
Qed.

Lemma misses_same_boxes (a1 a2 : Annotation) (item : LTItem) :
  boxes a1 = boxes a2 -> misses a1 item = misses a2 item.
Proof.
  intros Hb.
  induction item as [b t | t | k b cs IH | b] using LTItem_tree_ind;
    try reflexivity.
  - simpl. by rewrite (hit_annot_same_boxes _ a1 a2 Hb).
  - cbn [misses]. rewrite (hit_annot_same_boxes _ a1 a2 Hb). f_equal.
    induction IH as [| c cs Hc _ IHcs]; simpl; congruence.
Qed.

Lemma forallb_misses_same_boxes (a1 a2 : Annotation) (cs : list LTItem) :
  boxes a1 = boxes a2 ->
  forallb (misses a1) cs = forallb (misses a2) cs.
Proof.
  intros Hb. induction cs as [| c cs IH]; simpl; [reflexivity |].
  by rewrite IH, (misses_same_boxes a1 a2 c Hb).
Qed.

Lemma unhit_update_pageseq (i : nat) (a : Annotation) (line : LTItem)
    (d d' : RectExtractor) :
  update_pageseq line d = Ok d' -> unhit i a d ->
  unhit i (stamp_annot line (S (pageseq d)) a) d'.
Proof.
  intros Hu (pg & Hpg & Hl & Hn).
  apply update_pageseq_Ok in Hu
    as (_ & E1 & E2 & pg1 & pg' & Hpg1 & Hpg' & Ha & _).
  rewrite Hpg in Hpg1. injection Hpg1 as <-.
  exists pg'. split; [exact Hpg' |]. split.
  { rewrite Ha, list_lookup_fmap, Hl. reflexivity. }
  by apply (in_no_set_sets i d).
Qed.

Lemma unhit_testboxes (i : nat) (a : Annotation) (item : LTItem)
    (d : RectExtractor) (r : RectExtractor * gset nat) :
  hit_annot item a = false ->
  testboxes item d = Ok r -> unhit i a d ->
  unhit i a (fst r) /\ i ∉ snd r.
Proof.
  intros Hm Hu (pg & Hpg & Hl & Hn).
  pose proof Hu as (pg1 & cl & Hpg1 & _ & Hr & Hp & _)%testboxes_Ok.
  rewrite Hpg in Hpg1. injection Hpg1 as <-.
  assert (i ∉ snd r) as Hnh.
  { rewrite Hr. intros Hi. apply elem_of_hits in Hi as (a2 & Hl2 & Hh).
    rewrite Hl in Hl2. injection Hl2 as <-. congruence. }
  split; [| exact Hnh].
  exists pg. split; [exact Hp |]. split; [exact Hl |].
  by apply (in_no_set_testboxes i item d).
Qed.

Lemma unhit_capture_in_page (i : nat) (a : Annotation) (s : gset nat)
    (t : string) (d : RectExtractor) :
  i ∉ s -> unhit i a d -> unhit i a (capture_in_page s t d).
Proof.
  intros Hi (pg & Hpg & Hl & Hn).
  unfold unhit. rewrite (capture_in_page_page s t d pg Hpg).
  eexists. split; [reflexivity |]. unfold set_annots. simpl.
  rewrite capture_all_not_elem by exact Hi. split; [exact Hl |].
  by apply in_no_set_capture_in_page.
Qed.

Lemma unhit_capture_newline (i : nat) (a : Annotation)
    (d d' : RectExtractor) :
  capture_newline d = Ok d' -> unhit i a d -> unhit i a d'.
Proof.
  intros Hc Hk.
  assert (in_no_set i d) as Hn by (destruct Hk as (pg & _ & _ & Hn); exact Hn).
  pose proof (in_no_set_capture_newline i d d' Hc Hn) as Hn'.
  apply capture_newline_Ok in Hc as (cl & Hcl & Hp & _).
  apply (unhit_capture_in_page i a cl newline d) in Hk;
    [| by apply (in_no_set_curline i d)].
  destruct Hk as (pg & Hpg & Hl & _).
  exists pg. rewrite Hp. auto.
Qed.

Lemma unhit_render (i : nat) (item : LTItem) :
  forall a d d', misses a item = true -> render item d = Ok d' ->
    unhit i a d ->
    unhit i (annot_after_lines (pageseq d) (text_lines item) a) d'.
Proof.
  induction item as [b t | t | k b cs IH | b] using LTItem_tree_ind;
    intros a d d' Hm Hr Hk.
  - simpl in Hr, Hm. apply bind_Ok in Hr as (r & Hr & Heq).
    injection Heq as <-. apply negb_true_iff in Hm.
    destruct (unhit_testboxes i a _ _ _ Hm Hr Hk) as [Hk' Hn].
    by apply unhit_capture_in_page.
  - simpl in Hr. destruct (String.eqb t newline).
    + by apply (unhit_capture_newline i a d).
    + apply bind_Ok in Hr as (lh & Hlh%attr_Ok & Heq). injection Heq as <-.
      apply unhit_capture_in_page; [| exact Hk].
      destruct Hk as (pg & _ & _ & Hn). by apply (in_no_set_lasthit i d).
  - rewrite render_container in Hr. cbn [misses] in Hm. cbn [text_lines].
    apply andb_prop in Hm as [Hbox Hcs].
    apply bind_Ok in Hr as (d1 & H1 & Hr).
    apply bind_Ok in Hr as (d2 & H2 & Hr).
    set (own := if is_LTTextLine k then [LTContainer k b cs] else []).
    assert (unhit i (annot_after_lines (pageseq d) own a) d1
            /\ pageseq d1 = pageseq d + length own) as [Hk1 S1].
    { unfold own. destruct (is_LTTextLine k).
      - split; [by apply unhit_update_pageseq |].
        apply update_pageseq_Ok in H1 as (-> & _). simpl. lia.
      - injection H1 as <-. split; [exact Hk | simpl; lia]. }
    rewrite annot_after_lines_app, <- S1.
    set (a1 := annot_after_lines (pageseq d) own a) in *.
    assert (boxes a1 = boxes a) as Hb1
      by apply (annot_after_lines_fields own (pageseq d) a).
    assert (forallb (misses a1) cs = true) as Hcs1.
    { rewrite <- Hcs. by apply forallb_misses_same_boxes. }
    assert (unhit i (annot_after_lines (pageseq d1) (flat_map text_lines cs)
                       a1) d2) as Hk2.
    { clear Hr H1 Hk Hbox Hcs S1 Hb1. clearbody a1. clear own.
      revert a1 d1 H2 Hk1 Hcs1.
      induction IH as [| c cs Hc _ IHcs]; intros a1 d1 H2 Hk1 Hcs;
        simpl in H2.
      - injection H2 as <-. exact Hk1.
      - simpl in Hcs. apply andb_prop in Hcs as [Hc1 Hc2].
        apply bind_Ok in H2 as (d3 & H3 & H2). cbn [flat_map].
        rewrite annot_after_lines_app, <- count_lines_text_lines.
        rewrite <- (render_pageseq c d1 d3 H3).
        apply IHcs; [exact H2 | by apply Hc |].
        rewrite <- Hc2. apply forallb_misses_same_boxes.
        apply (annot_after_lines_fields (text_lines c) (pageseq d1) a1). }
    destruct (is_LTTextBox k).
    + apply bind_Ok in Hr as (r & Hr & Hnl).
      apply negb_true_iff in Hbox.
      rewrite <- (hit_annot_same_boxes _
                    (annot_after_lines (pageseq d1) (flat_map text_lines cs)
                       a1) a) in Hbox.
      2: { destruct (annot_after_lines_fields (flat_map text_lines cs)
                       (pageseq d1) a1) as (-> & _). exact Hb1. }
      destruct (unhit_testboxes i _ _ _ _ Hbox Hr Hk2) as [Hk' _].
      by apply (unhit_capture_newline i _ (fst r)).
    + injection Hr as <-. exact Hk2.
  - simpl in Hr. injection Hr as <-. exact Hk.
Qed.

(** X3: an annotation that no character and no text box of the layout
    hits leaves the rendering of the page as it entered it, but for what
    the first loop of [update_pageseq] does for each text line of the
    layout, in layout order: nothing is captured into it, whatever
    whitespace and line breaks the layout holds; its start position, if it
    has one, goes through [Pos.update_pageseq] once for each text line,
    and if it has none it stays without; it ends in neither set. *)
Theorem X3_unhit_annotation_untouched (pg : Page) (d d' : RectExtractor)
    (ltpage : LTItem) (i : nat) (a : Annotation) :
  annots pg !! i = Some a ->
  misses a ltpage = true ->
  receive_layout ltpage (start_page pg d) = Ok d' ->
  exists pg' a', page d' = Some pg' /\ annots pg' !! i = Some a'
    /\ a' = annot_after_lines 0 (text_lines ltpage) a
    /\ text a' = text a /\ boxes a' = boxes a
    /\ startpos a'
       = option_map (stamp_lines 0 (text_lines ltpage)) (startpos a)
    /\ (startpos a = None -> a' = a)
    /\ exists lh cl, _lasthit d' = Some lh /\ _curline d' = Some cl
         /\ (i ∉ lh) /\ (i ∉ cl).
Proof.
  intros Hl Hm Hr. unfold receive_layout in Hr.
  apply (unhit_render i ltpage a) in Hr; [| exact Hm |].
  - destruct Hr as (pg' & Hp & Ha & Hn). simpl in Ha.
    destruct (annot_after_lines_fields (text_lines ltpage) 0 a)
      as (Eb & Et & Es).
    exists pg', (annot_after_lines 0 (text_lines ltpage) a).
    repeat split; auto.
    intros Hnone. clear -Hnone. generalize 0.
    induction (text_lines ltpage) as [| l ls IH]; intros n; simpl;
      [reflexivity |].
    unfold stamp_annot at 1. rewrite Hnone. apply IH.
  - exists pg. simpl. repeat split; auto.
    exists ∅, ∅. repeat split; auto; set_solver.
Qed.

(** *** Broadcasts to an empty set *)

Lemma capture_all_empty (t : string) (l : list Annotation) :
  capture_all ∅ t l = l.
Proof.
  apply list_eq. intros i. rewrite capture_all_not_elem; [done | set_solver].
Qed.

Lemma capture_in_page_empty (t : string) (d : RectExtractor) :
  capture_in_page ∅ t d = d.
Proof.
  destruct d as [[pg |] n lh cl]; unfold capture_in_page; simpl;
    [| reflexivity].
  rewrite capture_all_empty. by destruct pg.
Qed.

Lemma capture_newline_empty (d : RectExtractor) :
  _curline d = Some ∅ -> capture_newline d = Ok d.
Proof.
  intros Hc. rewrite (capture_newline_sets d ∅ Hc), capture_in_page_empty.
  destruct d; simpl in *; by subst.
Qed.

(** X4: whitespace that finds its set empty changes nothing.  On a
    device whose two sets are empty, as [receive_layout] leaves them, an
    [LTAnno] of any text is dropped; and a line break that follows a line
    break at once does nothing more than the first. *)
Theorem X4_empty_broadcast (d : RectExtractor) (t : string)
    (cs : list LTItem) :
  (_lasthit d = Some ∅ -> _curline d = Some ∅ ->
   render (LTAnno t) d = Ok d)
  /\ render_children (LTAnno newline :: LTAnno newline :: cs) d
     = render_children (LTAnno newline :: cs) d.
Proof.
  split.
  - intros Hl Hc. simpl. destruct (String.eqb t newline).
    + by apply capture_newline_empty.
    + rewrite Hl. simpl. by rewrite capture_in_page_empty.
  - assert (forall d0, render (LTAnno newline) d0 = capture_newline d0)
      as E by reflexivity.
    rewrite (render_children_cons (LTAnno newline) (LTAnno newline :: cs) d).
    rewrite (render_children_cons (LTAnno newline) cs d), !E.
    destruct (capture_newline d) as [d1 | e] eqn:Hc; [| reflexivity].
    rewrite !bind_Ok_l, render_children_cons, E.
    apply capture_newline_Ok in Hc as (cl & _ & _ & _ & _ & Hc1).
    by rewrite (capture_newline_empty d1 Hc1).
Qed.

(** *** What the two sets hold *)

Lemma sets_on_page_render (item : LTItem) :
  forall d d', render item d = Ok d' -> sets_on_page d -> sets_on_page d'.
Proof.
  assert (forall s t d, sets_on_page d -> sets_on_page (capture_in_page s t d))
    as Hcap.
  { intros s t d Hd pg' s' i Hpg' Hs Hi. unfold capture_in_page in Hpg'.
    simpl in Hpg', Hs. destruct (page d) as [pg |] eqn:Hpg; [| discriminate].
    injection Hpg' as <-. unfold set_annots. simpl.
    rewrite capture_all_lookup.
    destruct (Hd pg s' i Hpg Hs Hi) as [a ->]. simpl. eauto. }
  assert (forall d d', capture_newline d = Ok d' -> sets_on_page d
                       -> sets_on_page d') as Hnl.
  { intros d d' Hc Hd pg' s' i Hpg' Hs Hi.
    apply capture_newline_Ok in Hc as (cl & Hcl & Hp & _ & E1 & E2).
    rewrite Hp in Hpg'. rewrite E1, E2 in Hs.
    destruct Hs as [Hs | Hs].
    - apply (Hcap cl newline d Hd pg' s' i Hpg'); [by left | exact Hi].
    - injection Hs as <-. set_solver. }
  assert (forall it d r, testboxes it d = Ok r -> sets_on_page d
                         -> sets_on_page (fst r)) as Htest.
  { intros it d r Hr Hd pg' s' i Hpg' Hs Hi.
    apply testboxes_Ok in Hr as (pg & cl & Hpg & Hcl & _ & Hp & _ & E1 & E2).
    rewrite Hp in Hpg'. injection Hpg' as <-. rewrite E1, E2 in Hs.
    assert (i ∈ hits it (annots pg) -> is_Some (annots pg !! i)) as Hh.
    { intros (a & -> & _)%elem_of_hits. eauto. }
    destruct Hs as [Hs | Hs]; injection Hs as <-; [by apply Hh |].
    apply elem_of_union in Hi as [Hi | Hi]; [| by apply Hh].
    apply (Hd pg cl i Hpg); [by right | exact Hi]. }
  assert (forall line d d', update_pageseq line d = Ok d' -> sets_on_page d
                            -> sets_on_page d') as Hupd.
  { intros line d d' Hu Hd pg' s' i Hpg' Hs Hi.
    apply update_pageseq_Ok in Hu
      as (_ & E1 & E2 & pg & pg1 & Hpg & Hpg1 & Ha & _).
    rewrite Hpg1 in Hpg'. injection Hpg' as <-. rewrite E1, E2 in Hs.
    rewrite Ha, list_lookup_fmap.
    destruct (Hd pg s' i Hpg Hs Hi) as [a ->]. simpl. eauto. }
  induction item as [b t | t | k b cs IH | b] using LTItem_tree_ind;
    intros d d' Hr Hd.
  - simpl in Hr. apply bind_Ok in Hr as (r & Hr & Heq). injection Heq as <-.
    eauto.
  - simpl in Hr. destruct (String.eqb t newline); [eauto |].
    apply bind_Ok in Hr as (lh & _ & Heq). injection Heq as <-. eauto.
  - rewrite render_container in Hr.
    apply bind_Ok in Hr as (d1 & H1 & Hr).
    apply bind_Ok in Hr as (d2 & H2 & Hr).
    assert (sets_on_page d1) as Hd1.
    { destruct (is_LTTextLine k); [eauto | by injection H1 as <-]. }
    assert (sets_on_page d2) as Hd2.
    { clear -IH H2 Hd1. revert d1 H2 Hd1.
      induction IH as [| c cs Hc _ IHcs]; intros d1 H2 Hd1; simpl in H2.
      - by injection H2 as <-.
      - apply bind_Ok in H2 as (d3 & H3 & H2). eauto. }
    destruct (is_LTTextBox k).
    + apply bind_Ok in Hr as (r & Hr & Hn). eauto.
    + by injection Hr as <-.
  - simpl in Hr. by injection Hr as <-.
Qed.

(** X5: after the layout of a page has been received, both sets exist,
    and the last-hit set and the current-line set hold annotations of
    that page only. *)
Theorem X5_sets_hold_page_annotations (ltpage : LTItem)
    (d d' : RectExtractor) (pg' : Page) :
  receive_layout ltpage d = Ok d' ->
  page d' = Some pg' ->
  exists lh cl, _lasthit d' = Some lh /\ _curline d' = Some cl
    /\ forall i, i ∈ lh \/ i ∈ cl -> is_Some (annots pg' !! i).
Proof.
  intros Hr Hpg. unfold receive_layout in Hr.
  assert (has_sets d') as [[lh Hlh] [cl Hcl]].
  { apply (render_has_sets ltpage _ _ Hr). split; simpl; eauto. }
  exists lh, cl. split; [exact Hlh |]. split; [exact Hcl |].
  intros i Hi.
  assert (sets_on_page d') as Hs.
  { apply (sets_on_page_render ltpage _ _ Hr).
    intros pg s i0 _ [Hs | Hs] Hi0; simpl in Hs; injection Hs as <-;
      set_solver. }
  destruct Hi as [Hi | Hi]; [apply (Hs pg' lh i Hpg) | apply (Hs pg' cl i Hpg)];
    auto.
Qed.

End MoreEngine.


(** ** Further properties of the document layer *)

Section MoreDocument.
Context {T : Types} {M : Methods} {L : Library}.



(** *** What the annotation loop leaves *)

(** X7: when the annotation loop of a page ends, it has logged one
    warning for each entry that is no reference, in their order, and
    nothing else; it has appended one annotation for each reference to a
    record with a supported subtype, behind the annotations the page had;
    and it has left the number, the object id and the outlines of the
    page alone. *)
Theorem X7_add_annotations_result (pas : list pdfobj) (pg pg' : Page)
    (lg : list Output) :
  add_annotations pg pas = (lg, Ok pg') ->
  lg = map WarnUnknownAnnotation
         (List.filter (fun pa => negb (is_PDFObjRef pa)) pas)
  /\ pageno pg' = pageno pg /\ objid pg' = objid pg
  /\ outlines pg' = outlines pg
  /\ exists new, annots pg' = (annots pg ++ new)%list
       /\ length new = length (List.filter supported_entry pas).
Proof. apply add_annotations_Ok. Qed.

(** X8: one bad page stops the whole file.  When the annotations of some
    page cannot be iterated, or one of them refers to a record that is no
    dictionary with a name for subtype (a record without subtype, or a
    reference that resolves to nothing), [process_file] raises: no
    result list is returned for any page. *)
Theorem X8_bad_record_stops_file (file : BinaryIO)
    (emit_progress_to : option TextIO) (doc : PDFDocument) (p : PDFPage) :
  file_doc file = Ok doc ->
  In p (create_pages doc) ->
  bad_page p ->
  exists lg e, process_file file emit_progress_to = (lg, Raise e).
Proof.
  intros Hdoc Hin Hbad.
  destruct (process_file file emit_progress_to) as [lg [r | e]] eqn:Hf;
    [| eauto].
  exfalso. apply process_file_Ok in Hf as (doc' & name & lg1 & Hd & _ & Hf & _).
  rewrite Hdoc in Hd. injection Hd as <-.
  apply process_document_Ok in Hf as (lg2 & st & Hp & _).
  destruct (process_pages_Ok_each _ _ _ _ _ _ Hp p Hin)
    as (k & st0 & lg0 & st1 & Hpage).
  apply process_page_Ok in Hpage as (pas & pg2 & dev & Hpas & Hadd & _).
  unfold bad_page in Hbad. rewrite Hpas in Hbad.
  destruct Hbad as (i & Hi & Hnot).
  destruct (add_annotations_Ok_each _ _ _ _ Hadd _ Hi)
    as (pg0 & lg3 & pg1 & Hone).
  unfold add_annotation in Hone.
  destruct (_mkannotation (deref i) pg0) as [r0 | e] eqn:E;
    [| discriminate Hone].
  apply mkannotation_Ok in E as (d & nm & Hd & Hs & _).
  exact (Hnot d nm Hd Hs).
Qed.

(** *** The retrieval of outlines *)

Lemma outline_of_item_get_dest (doc1 doc2 : PDFDocument) (it : OutlineItem) :
  get_dest doc1 = get_dest doc2 ->
  outline_of_item doc1 it = outline_of_item doc2 it.
Proof.
  intros E. unfold outline_of_item, _resolve_dest. by rewrite E.
Qed.

Lemma outlines_of_items_get_dest (doc1 doc2 : PDFDocument)
    (items : list OutlineItem) (ends : option exn) :
  get_dest doc1 = get_dest doc2 ->
  outlines_of_items doc1 items ends = outlines_of_items doc2 items ends.
Proof.
  intros E. induction items as [| it items IH]; simpl; [reflexivity |].
  by rewrite (outline_of_item_get_dest doc1 doc2 it E), IH.
Qed.

Lemma process_file_same (f1 f2 : BinaryIO)
    (emit_progress_to : option TextIO) (d1 d2 : PDFDocument) :
  file_doc f1 = Ok d1 -> file_doc f2 = Ok d2 ->
  file_name f1 = file_name f2 ->
  process_document emit_progress_to d1 = process_document emit_progress_to d2 ->
  process_file f1 emit_progress_to = process_file f2 emit_progress_to.
Proof.
  intros H1 H2 Hn Hd. unfold process_file. rewrite H1, H2, Hn.
  rewrite !(quiet_bind (Ok _) _ _ eq_refl).
  destruct (file_name f2) as [name |]; [| reflexivity].
  cbn [attr]. rewrite !(quiet_bind (Ok _) _ _ eq_refl). by rewrite Hd.
Qed.

(** X9: the first outline tuple that raises ends the retrieval of
    outlines.  The tuples behind it are never looked at: the outlines
    yielded, the records logged and the exception are those of the tuples
    before it, and [process_file] does what it does for a file whose
    outlines end there with that exception. *)
Theorem X9_outlines_stop_at_failure (file : BinaryIO)
    (emit_progress_to : option TextIO) (doc : PDFDocument)
    (items1 items2 : list OutlineItem) (bad : OutlineItem) (e : exn)
    (ends : option exn) :
  file_doc file = Ok doc ->
  outline_of_item doc bad = Raise e ->
  get_outlines doc = ((items1 ++ bad :: items2)%list, ends) ->
  _get_outlines doc = outlines_of_items doc items1 (Some e)
  /\ process_file file emit_progress_to
     = process_file
         {| file_doc := Ok {| get_outlines := (items1, Some e);
                              get_dest := get_dest doc;
                              create_pages := create_pages doc |};
            file_name := file_name file |} emit_progress_to.
Proof.
  intros Hdoc Hbad Hg.
  assert (_get_outlines doc = outlines_of_items doc items1 (Some e)) as Hstop.
  { unfold _get_outlines. rewrite Hg. simpl. clear Hg.
    induction items1 as [| it items1 IH]; simpl.
    - by rewrite Hbad.
    - destruct (outline_of_item doc it) as [[o lg] | e']; [| reflexivity].
      by rewrite IH. }
  split; [exact Hstop |].
  apply (process_file_same _ _ _ doc
           {| get_outlines := (items1, Some e); get_dest := get_dest doc;
              create_pages := create_pages doc |});
    [exact Hdoc | reflexivity | reflexivity |].
  unfold process_document. rewrite Hstop. unfold _get_outlines. simpl.
  by rewrite (outlines_of_items_get_dest doc
                {| get_outlines := (items1, Some e);
                   get_dest := get_dest doc;
                   create_pages := create_pages doc |} items1 (Some e) eq_refl).
Qed.

(** *** The pending dictionaries *)

Lemma addressed_to_app (r : PageRef) (os1 os2 : list Outline) :
  addressed_to r (os1 ++ os2)
  = (addressed_to r os1 ++ addressed_to r os2)%list.
Proof. unfold addressed_to. apply List.filter_app. Qed.

Lemma file_outline_addressed (pend : Pending) (seen : list Outline)
    (o : Outline) :
  (forall r, pending_of r pend
             = match addressed_to r seen with [] => None | l => Some l end) ->
  forall r, pending_of r (file_outline pend o)
            = match addressed_to r (seen ++ [o]) with
              | [] => None
              | l => Some l
              end.
Proof.
  intros Hinv r. rewrite addressed_to_app. specialize (Hinv r).
  unfold file_outline, pending_of in *. cbn [addressed_to List.filter].
  destruct (pageref o) as [n | i], r as [k | j]; simpl;
    try (rewrite app_nil_r; exact Hinv);
    rewrite dd_append_lookup; case_decide as Hk.
  - subst. rewrite Z.eqb_refl, Hinv.
    destruct (addressed_to (PageNo k) seen); reflexivity.
  - apply Z.eqb_neq in Hk. rewrite Hk, app_nil_r. exact Hinv.
  - subst. rewrite Z.eqb_refl, Hinv.
    destruct (addressed_to (PageObj j) seen); reflexivity.
  - apply Z.eqb_neq in Hk. rewrite Hk, app_nil_r. exact Hinv.
Qed.

Lemma foldl_file_outline_addressed (os : list Outline) :
  forall pend seen,
    (forall r, pending_of r pend
               = match addressed_to r seen with [] => None | l => Some l end) ->
    forall r, pending_of r (foldl file_outline pend os)
              = match addressed_to r (seen ++ os) with
                | [] => None
                | l => Some l
                end.
Proof.
  induction os as [| o os IH]; intros pend seen Hinv r; simpl.
  - rewrite app_nil_r. apply Hinv.
  - replace (seen ++ o :: os)%list with ((seen ++ [o]) ++ os)%list
      by (by rewrite <- app_assoc).
    apply IH. by apply file_outline_addressed.
Qed.

(** X10: after the outlines have been filed, the entry of a page number
    or object id in its pending dictionary is the list of the outlines
    that refer to it, in the order they were retrieved; a key that no
    outline refers to has no entry. *)
Theorem X10_pending_holds_addressed (os : list Outline) (r : PageRef) :
  pending_of r (pending (initial_state os))
  = match addressed_to r os with [] => None | l => Some l end.
Proof.
  unfold initial_state. simpl.
  apply (foldl_file_outline_addressed os _ []).
  intros r0. destruct r0; simpl; apply lookup_empty.
Qed.

(** *** What [process_file] returns *)

Lemma waiting_empty : waiting ∅ = [].
Proof. unfold waiting. by rewrite map_to_list_empty. Qed.

Lemma waiting_insert_fresh (k : Z) (l : list Outline)
    (m : gmap Z (list Outline)) :
  m !! k = None -> waiting (<[ k := l ]> m) ≡ₚ (l ++ waiting m)%list.
Proof.
  intros Hk. unfold waiting. by rewrite (map_to_list_insert m k l Hk).
Qed.

Lemma waiting_delete (k : Z) (m : gmap Z (list Outline)) :
  waiting m ≡ₚ (default [] (m !! k) ++ waiting (delete k m))%list.
Proof.
  destruct (m !! k) as [l |] eqn:E; simpl.
  - rewrite <- (insert_delete_id m k l E) at 1.
    apply waiting_insert_fresh, lookup_delete_eq.
  - by rewrite (delete_id m k E).
Qed.

Lemma waiting_dd_append (k : Z) (o : Outline) (m : gmap Z (list Outline)) :
  waiting (dd_append k o m) ≡ₚ (waiting m ++ [o])%list.
Proof.
  unfold dd_append. rewrite <- insert_delete_eq.
  rewrite waiting_insert_fresh by apply lookup_delete_eq.
  etransitivity;
    [| symmetry; apply Permutation_app_tail, (waiting_delete k m)].
  rewrite <- !app_assoc. apply Permutation_app_head, Permutation_app_comm.
Qed.

Lemma pending_list_file_outline (pend : Pending) (o : Outline) :
  pending_list (file_outline pend o) ≡ₚ (pending_list pend ++ [o])%list.
Proof.
  unfold pending_list, file_outline.
  destruct (pageref o) as [n | i]; simpl; rewrite waiting_dd_append.
  - by rewrite app_assoc.
  - rewrite <- !app_assoc. apply Permutation_app_head, Permutation_app_comm.
Qed.

Lemma pending_list_initial (os : list Outline) :
  forall pend,
    pending_list (foldl file_outline pend os)
    ≡ₚ (pending_list pend ++ os)%list.
Proof.
  induction os as [| o os IH]; intros pend; simpl.
  - by rewrite app_nil_r.
  - rewrite IH, pending_list_file_outline. by rewrite <- app_assoc.
Qed.

Lemma well_filed_file_outline (pend : Pending) (o : Outline) :
  well_filed pend -> well_filed (file_outline pend o).
Proof.
  intros [Hno Hid]. unfold file_outline.
  destruct (pageref o) as [n | i] eqn:Hr; split; simpl; try assumption;
    intros k l o'; rewrite dd_append_lookup; case_decide as Hk; eauto;
    subst; intros [= <-] [Ho | ->%list_elem_of_singleton]%elem_of_app;
    try exact Hr.
  - destruct (outlines_by_pageno pend !! k) as [l |] eqn:E; simpl in Ho;
      [eauto | by apply elem_of_nil in Ho].
  - destruct (outlines_by_objid pend !! k) as [l |] eqn:E; simpl in Ho;
      [eauto | by apply elem_of_nil in Ho].
Qed.

Lemma well_filed_initial (os : list Outline) :
  forall pend, well_filed pend -> well_filed (foldl file_outline pend os).
Proof.
  induction os as [| o os IH]; intros pend Hw; simpl; [exact Hw |].
  by apply IH, well_filed_file_outline.
Qed.

Lemma sort_insert_perm {A : Type} (lt : A -> A -> bool) (x : A)
    (l : list A) :
  sort_insert lt x l ≡ₚ x :: l.
Proof.
  induction l as [| y l IH]; simpl; [reflexivity |].
  destruct (lt y x); [| reflexivity]. rewrite IH. apply perm_swap.
Qed.

Lemma py_sort_perm {A : Type} (lt : A -> A -> bool) (l : list A) :
  py_sort lt l ≡ₚ l.
Proof.
  induction l as [| x l IH]; simpl; [reflexivity |].
  by rewrite sort_insert_perm, IH.
Qed.

Lemma foldl_link_outline_annots (os : list Outline) :
  forall pg, annots (foldl link_outline pg os) = annots pg.
Proof.
  induction os as [| o os IH]; intros pg; simpl; [reflexivity |].
  by rewrite IH.
Qed.

(** The outlines linked to a page are resolved on that page, in their
    order, behind the outlines the page had. *)
Lemma foldl_link_outline_resolved (n : nat) (i : Z) (os : list Outline) :
  forall pg, pageno pg = n -> objid pg = i ->
    exists new,
      outlines (foldl link_outline pg os) = (outlines pg ++ new)%list
      /\ Forall2 (fun o r => exists pg0, pageno pg0 = n /\ objid pg0 = i
                                         /\ r = resolve pg0 o) os new.
Proof.
  induction os as [| o os IH]; intros pg Hn Hi; simpl.
  - exists []. split; [by rewrite app_nil_r | constructor].
  - destruct (IH (link_outline pg o) Hn Hi) as (new & E & F).
    exists (resolve pg o :: new). split.
    + rewrite E. unfold link_outline. simpl. by rewrite <- app_assoc.
    + constructor; [eauto | exact F].
Qed.

Lemma process_page_counts (n : nat) (p : PDFPage) (st st' : LoopState)
    (lg : list Output) :
  process_page n p st = (lg, Ok st') ->
  lg = warnings_on p
  /\ length (allannots st') = length (allannots st) + supported_on p.
Proof.
  intros Hp.
  apply process_page_Ok in Hp
    as (pas & pg2 & dev & Hpas & Hadd & Hr & Ea & Eo).
  apply add_annotations_Ok in Hadd
    as (Hlg & _ & _ & Hout & new & Hnew & Hlen).
  unfold receive_layout in Hr.
  destruct (follows_render _ _ _ Hr pg2 eq_refl)
    as (pg3 & Hp3 & _ & _ & Hla & Hlo).
  rewrite Hp3 in Ea. simpl in Ea.
  unfold warnings_on, supported_on. rewrite Hpas. split; [exact Hlg |].
  rewrite Ea, length_app, (Permutation_length (py_sort_perm _ _)), Hla, Hnew.
  rewrite foldl_link_outline_annots, length_app. simpl. lia.
Qed.

Lemma process_pages_counts (emit_progress_to : option TextIO)
    (pages : list PDFPage) :
  forall n st st' lg,
    process_pages emit_progress_to n pages st = (lg, Ok st') ->
    lg = concat (imap (fun k p =>
                         progress emit_progress_to (page_message (n + k))
                         ++ warnings_on p) pages)%list
    /\ length (allannots st')
       = length (allannots st) + sum_list_with supported_on pages.
Proof.
  induction pages as [| p pages IH]; intros n st st' lg Hp.
  - injection Hp as <- <-. simpl. split; [reflexivity | lia].
  - cbn [process_pages] in Hp.
    apply lbind_Ok in Hp as (lg0 & [] & lg' & H0 & Hp & ->).
    apply emit_progress_Ok in H0 as ->.
    apply lbind_Ok in Hp as (lg1 & st1 & lg2 & H1 & H2 & ->).
    apply process_page_counts in H1 as (-> & Ea1).
    apply IH in H2 as (-> & Ea2). split; [| simpl; lia].
    rewrite imap_cons. cbn [concat]. rewrite Nat.add_0_r, <- !app_assoc.
    do 3 f_equal. apply imap_ext. intros k x _. simpl.
    by rewrite Nat.add_succ_r.
Qed.

Lemma returned_for_head (n : nat) (p : PDFPage) (pages : list PDFPage)
    (o r : Outline) :
  returned_on n p o r -> returned_for n (p :: pages) o r.
Proof. intros H. exists 0, p. by rewrite Nat.add_0_r. Qed.

Lemma returned_for_tail (n : nat) (p : PDFPage) (pages : list PDFPage)
    (o r : Outline) :
  returned_for (S n) pages o r -> returned_for n (p :: pages) o r.
Proof.
  intros (k & q & Hk & H). exists (S k), q. split; [exact Hk |].
  by rewrite Nat.add_succ_r.
Qed.

(** One page returns the outlines that waited for it, each once. *)
Lemma process_page_outlines (n : nat) (p : PDFPage) (st st' : LoopState)
    (lg : list Output) :
  process_page n p st = (lg, Ok st') ->
  well_filed (pending st) ->
  well_filed (pending st')
  /\ exists srcs new,
       alloutlines st' = (alloutlines st ++ new)%list
       /\ Forall2 (returned_on n p) srcs new
       /\ pending_list (pending st)
          ≡ₚ (srcs ++ pending_list (pending st'))%list.
Proof.
  intros Hp [Wno Wid].
  pose proof (process_page_pending _ _ _ _ _ Hp) as [Eno Eid].
  split.
  { split; [rewrite Eno | rewrite Eid]; intros k l o Hl Ho;
      apply lookup_delete_Some in Hl as [_ Hl]; eauto. }
  apply process_page_Ok in Hp
    as (pas & pg2 & dev & Hpas & Hadd & Hr & Ea & Eo).
  apply add_annotations_Ok in Hadd as (_ & _ & _ & Hout & _).
  unfold receive_layout in Hr.
  destruct (follows_render _ _ _ Hr pg2 eq_refl)
    as (pg3 & Hp3 & _ & _ & _ & Hlo).
  rewrite Hp3 in Eo. simpl in Eo, Hlo.
  set (popped := (default [] (outlines_by_objid (pending st) !! pageid p)
                  ++ default [] (outlines_by_pageno (pending st)
                                   !! Z.of_nat n))%list) in *.
  destruct (foldl_link_outline_resolved n (pageid p) popped
              {| pageno := n; objid := pageid p; annots := [];
                 outlines := [] |} eq_refl eq_refl) as (new & En & F).
  simpl in En. rewrite Hout, En in Hlo.
  assert (Forall (fun o => pageref o = PageNo (Z.of_nat n)
                           \/ pageref o = PageObj (pageid p)) popped) as Hrefs.
  { apply Forall_app. split; apply Forall_forall; intros o Ho.
    - destruct (outlines_by_objid (pending st) !! pageid p) as [l |] eqn:E;
        simpl in Ho; [| by apply elem_of_nil in Ho].
      right. by apply (Wid _ l).
    - destruct (outlines_by_pageno (pending st) !! Z.of_nat n) as [l |] eqn:E;
        simpl in Ho; [| by apply elem_of_nil in Ho].
      left. by apply (Wno _ l). }
  assert (Forall2 (returned_on n p) popped (outlines pg3)) as F3.
  { rewrite Hlo. clear -F Hrefs.
    induction F as [| o r os rs (pg0 & Hn & Hi & ->) F IH]; simpl;
      [constructor |].
    apply Forall_cons in Hrefs as [Hr Hrefs].
    constructor; [| by apply IH]. exists pg0. auto. }
  apply Forall2_flip in F3.
  destruct (@Permutation_Forall2 _ _ _ _ _ _
              (Permutation_sym (py_sort_perm outline_lt (outlines pg3))) F3)
    as (srcs & Hperm & F4).
  apply Forall2_flip in F4.
  exists srcs, (py_sort outline_lt (outlines pg3)).
  split; [exact Eo |]. split; [exact F4 |].
  rewrite <- Hperm. unfold pending_list, popped. rewrite Eno, Eid.
  rewrite (waiting_delete (pageid p) (outlines_by_objid (pending st))) at 1.
  rewrite (waiting_delete (Z.of_nat n) (outlines_by_pageno (pending st))) at 1.
  rewrite <- !app_assoc. apply Permutation_app_head.
  rewrite !app_assoc. apply Permutation_app_tail, Permutation_app_comm.
Qed.

Lemma process_pages_outlines (emit_progress_to : option TextIO)
    (pages : list PDFPage) :
  forall n st st' lg,
    process_pages emit_progress_to n pages st = (lg, Ok st') ->
    well_filed (pending st) ->
    exists srcs new,
      alloutlines st' = (alloutlines st ++ new)%list
      /\ Forall2 (returned_for n pages) srcs new
      /\ pending_list (pending st)
         ≡ₚ (srcs ++ pending_list (pending st'))%list.
Proof.
  induction pages as [| p pages IH]; intros n st st' lg Hp Hw.
  - injection Hp as <- <-. exists [], [].
    split; [by rewrite app_nil_r |]. split; [constructor | reflexivity].
  - cbn [process_pages] in Hp.
    apply lbind_Ok in Hp as (lg0 & [] & lg' & _ & Hp & _).
    apply lbind_Ok in Hp as (lg1 & st1 & lg2 & H1 & H2 & _).
    destruct (process_page_outlines _ _ _ _ _ H1 Hw)
      as (Hw1 & s1 & n1 & E1 & F1 & P1).
    destruct (IH _ _ _ _ H2 Hw1) as (s2 & n2 & E2 & F2 & P2).
    exists (s1 ++ s2)%list, (n1 ++ n2)%list.
    split; [by rewrite E2, E1, <- app_assoc |]. split.
    + apply Forall2_app.
      * apply (Forall2_impl _ _ _ _ F1). intros o r.
        apply returned_for_head.
      * apply (Forall2_impl _ _ _ _ F2). intros o r.
        apply returned_for_tail.
    + by rewrite P1, P2, app_assoc.
Qed.

(** X11: when [process_file] returns, no retrieved outline is lost and
    none comes twice: up to their order, the outlines it returns are the
    retrieved ones, each returned once, for a page of the document that
    it refers to by number or by object id, resolved on that page and
    with its position passed through the text lines of that page.  So the
    outline list is as long as the list of the retrieved outlines. *)
Theorem X11_all_outlines_returned (file : BinaryIO)
    (emit_progress_to : option TextIO) (doc : PDFDocument)
    (lg : list Output) (allannots0 : list Annotation)
    (alloutlines0 : list Outline) :
  file_doc file = Ok doc ->
  process_file file emit_progress_to = (lg, Ok (allannots0, alloutlines0)) ->
  (exists srcs,
     srcs ≡ₚ fst (fst (_get_outlines doc))
     /\ Forall2 (returned_for 0 (create_pages doc)) srcs alloutlines0)
  /\ length alloutlines0 = length (fst (fst (_get_outlines doc))).
Proof.
  intros Hdoc Hf.
  apply process_file_Ok in Hf as (doc' & name & lg1 & Hd & _ & Hf & _).
  rewrite Hdoc in Hd. injection Hd as <-.
  apply process_document_Ok in Hf as (lg2 & st & Hp & Hc & Hr & _).
  injection Hr as -> ->.
  apply process_pages_outlines in Hp as (srcs & new & E & F & P).
  2: { apply well_filed_initial. split; intros k l o Hl; simpl in Hl;
       by rewrite lookup_empty in Hl. }
  unfold check_resolved in Hc.
  destruct (decide (outlines_by_pageno (pending st) = ∅)) as [E1 |];
    [| discriminate].
  destruct (decide (outlines_by_objid (pending st) = ∅)) as [E2 |];
    [| discriminate].
  unfold initial_state in P, E. cbn [pending alloutlines] in P, E.
  rewrite pending_list_initial in P. unfold pending_list in P.
  rewrite E1, E2 in P. cbn [outlines_by_pageno outlines_by_objid] in P.
  rewrite !waiting_empty, !app_nil_r in P. simpl in P, E. subst new.
  assert (srcs ≡ₚ fst (fst (_get_outlines doc))) as Hperm by done.
  split; [eauto |].
  by rewrite <- (Forall2_length _ _ _ F), (Permutation_length Hperm).
Qed.

(** X12: when [process_file] returns, its annotation list holds one
    annotation for each page entry that refers to a record with a
    supported subtype, and what it has put out is the progress message
    with the name of the file, the records of the outline retrieval,
    then page by page the progress message of the page and one warning
    for each page entry that is no reference, and the closing progress
    message.  Without progress stream that is the records of the outline
    retrieval followed by the warnings. *)
Theorem X12_annotations_and_log (file : BinaryIO)
    (emit_progress_to : option TextIO) (doc : PDFDocument)
    (lg : list Output) (allannots0 : list Annotation)
    (alloutlines0 : list Outline) :
  file_doc file = Ok doc ->
  process_file file emit_progress_to = (lg, Ok (allannots0, alloutlines0)) ->
  length allannots0 = sum_list_with supported_on (create_pages doc)
  /\ (exists name, file_name file = Some name
        /\ lg = (progress emit_progress_to name
                 ++ (snd (fst (_get_outlines doc))
                     ++ outlines_handler (snd (_get_outlines doc)))
                 ++ concat (imap (fun k p =>
                                    progress emit_progress_to (page_message k)
                                    ++ warnings_on p) (create_pages doc))
                 ++ progress emit_progress_to newline)%list)
  /\ (emit_progress_to = None ->
      lg = ((snd (fst (_get_outlines doc))
             ++ outlines_handler (snd (_get_outlines doc)))
            ++ concat (map warnings_on (create_pages doc)))%list).
Proof.
  intros Hdoc Hf.
  apply process_file_Ok in Hf as (doc' & name & lg1 & Hd & Hn & Hf & ->).
  rewrite Hdoc in Hd. injection Hd as <-.
  apply process_document_Ok in Hf as (lg2 & st & Hp & _ & Hr & ->).
  injection Hr as -> ->.
  apply process_pages_counts in Hp as (-> & Ha).
  split; [exact Ha |]. split; [exists name; split; [exact Hn | reflexivity] |].
  intros ->. cbn [progress app]. rewrite app_nil_r. do 2 f_equal.
  clear. induction (create_pages doc) as [| p pages IH]; [reflexivity |].
  rewrite imap_cons. cbn [map]. f_equal. exact IH.
Qed.

(** *** Destinations of outline entries *)

(** X13: an outline entry with a destination of its own never looks at
    its action.  An entry without one is treated as an entry whose
    destination is the [D] of its action, when the action is a dictionary
    with [S] the name [GoTo]; with any other action it is skipped. *)
Theorem X13_action_fallback (doc : PDFDocument) (it : OutlineItem) :
  (is_None (oi_dest it) = false ->
   forall a,
     outline_of_item doc (mkOutlineItem (oi_title it) (oi_dest it) a)
     = outline_of_item doc it)
  /\ (is_None (oi_dest it) = true ->
      outline_of_item doc it
      = if truthy (oi_action it) then
          match resolve1 (oi_action it) with
          | PDict action =>
              if is_literal "GoTo" (dict_get "S" action)
              then outline_of_item doc
                     (mkOutlineItem (oi_title it) (dict_get "D" action) PNone)
              else Ok (None, [])
          | _ => Ok (None, [])
          end
        else Ok (None, [])).
Proof.
  split.
  - intros Hn a. unfold outline_of_item, item_destname. simpl.
    by rewrite Hn.
  - intros Hn. unfold outline_of_item at 1. unfold item_destname.
    rewrite Hn. simpl.
    destruct (truthy (oi_action it)); [| by rewrite Hn].
    destruct (resolve1 (oi_action it)) as [| | | | | | | | action];
      try (by rewrite Hn).
    destruct (is_literal "GoTo" (dict_get "S" action)); [| by rewrite Hn].
    unfold outline_of_item, item_destname. simpl.
    by rewrite andb_false_r.
Qed.

(** X14: a destination array with fewer than two entries stops the
    retrieval of the outlines with [IndexError], and an [XYZ] array with
    fewer than four entries with [ValueError]. *)
Theorem X14_short_destination_array (doc : PDFDocument) (it : OutlineItem)
    (l : list pdfobj) :
  item_destname it = PList l ->
  (length l < 2 -> outline_of_item doc it = Raise IndexError)
  /\ (forall pr rest, l = pr :: PLit "XYZ" :: rest -> length rest < 2 ->
        outline_of_item doc it = Raise ValueError).
Proof.
  intros Hd. unfold outline_of_item. rewrite Hd. simpl. split.
  - intros Hl. destruct l as [| x [| y l]]; simpl in *; [done | done | lia].
  - intros pr rest -> Hl. simpl.
    destruct rest as [| x [| y rest]]; simpl in *; [done | done | lia].
Qed.

Lemma dict_get_present (k : string) (d : list (string * pdfobj)) :
  dict_get k d <> PNone ->
  existsb (fun kv => String.eqb k (fst kv)) d = true.
Proof.
  induction d as [| [k' v] d IH]; simpl; [congruence |].
  destruct (String.eqb k k'); [reflexivity | exact IH].
Qed.

(** X15: [_resolve_dest] fails only when the look-up of a named
    destination fails, with the exception of the look-up, or when the
    destination is a dictionary without the key [D], with [KeyError].
    When it returns, a dictionary has given the value of its [D]; what is
    neither a name nor a dictionary has been returned as it is; and a
    name, given as a byte string or as a literal, has given what its entry
    in the document resolves to, or the value of the [D] of that when it
    is a dictionary.  A dictionary with the key [D] and what is neither a
    name nor a dictionary always return. *)
Theorem X15_resolve_dest_outcome (doc : PDFDocument) (dest : pdfobj) :
  (forall e, _resolve_dest doc dest = Raise e ->
     (exists s, (dest = PBytes s \/ dest = PLit s)
                /\ get_dest doc s = Raise e)
     \/ (e = KeyError
         /\ exists d,
              existsb (fun kv => String.eqb "D" (fst kv)) d = false
              /\ (dest = PDict d
                  \/ exists s r, (dest = PBytes s \/ dest = PLit s)
                       /\ get_dest doc s = Ok r /\ resolve1 r = PDict d)))
  /\ (forall r, _resolve_dest doc dest = Ok r ->
        let looked_up (s : string) :=
          exists v, get_dest doc s = Ok v
            /\ match resolve1 v with
               | PDict d =>
                   existsb (fun kv => String.eqb "D" (fst kv)) d = true
                   /\ r = dict_get "D" d
               | v' => r = v'
               end in
        match dest with
        | PDict d =>
            existsb (fun kv => String.eqb "D" (fst kv)) d = true
            /\ r = dict_get "D" d
        | PBytes s => looked_up s
        | PLit s => looked_up s
        | _ => r = dest
        end)
  /\ (forall d, dest = PDict d ->
        existsb (fun kv => String.eqb "D" (fst kv)) d = true ->
        _resolve_dest doc dest = Ok (dict_get "D" d))
  /\ ((forall s, dest <> PBytes s) -> (forall s, dest <> PLit s) ->
      (forall d, dest <> PDict d) ->
      _resolve_dest doc dest = Ok dest).
Proof.
  unfold _resolve_dest. split; [| split; [| split]].
  - intros e.
    destruct dest as [| b | n | q | s | s | i | l | d]; simpl;
      try discriminate.
    + destruct (get_dest doc s) as [r | e'] eqn:Eg; simpl.
      * destruct (resolve1 r) as [| | | | | | | | d] eqn:Er; try discriminate.
        destruct (existsb _ d) eqn:Ex; [discriminate |].
        intros [= <-]. right. split; [reflexivity |]. exists d.
        split; [exact Ex |]. right. exists s, r. auto.
      * intros [= <-]. left. exists s. auto.
    + destruct (get_dest doc s) as [r | e'] eqn:Eg; simpl.
      * destruct (resolve1 r) as [| | | | | | | | d] eqn:Er; try discriminate.
        destruct (existsb _ d) eqn:Ex; [discriminate |].
        intros [= <-]. right. split; [reflexivity |]. exists d.
        split; [exact Ex |]. right. exists s, r. auto.
      * intros [= <-]. left. exists s. auto.
    + destruct (existsb _ d) eqn:Ex; [discriminate |].
      intros [= <-]. right. split; [reflexivity |]. exists d. auto.
  - intros r.
    destruct dest as [| b | n | q | s | s | i | l | d]; simpl;
      try (by intros [= <-]).
    + destruct (get_dest doc s) as [v | e'] eqn:Eg; simpl; [| discriminate].
      intros H. exists v. split; [reflexivity |].
      destruct (resolve1 v) as [| | | | | | | | d]; try (by injection H as <-).
      destruct (existsb _ d); [| discriminate]. by injection H as <-.
    + destruct (get_dest doc s) as [v | e'] eqn:Eg; simpl; [| discriminate].
      intros H. exists v. split; [reflexivity |].
      destruct (resolve1 v) as [| | | | | | | | d]; try (by injection H as <-).
      destruct (existsb _ d); [| discriminate]. by injection H as <-.
    + destruct (existsb _ d); [| discriminate]. by intros [= <-].
  - intros d -> Hd. cbn [bind]. by rewrite Hd.
  - intros Hb Hl Hd.
    destruct dest as [| b | n | q | s | s | i | l | d]; try reflexivity.
    + by destruct (Hb s).
    + by destruct (Hl s).
    + by destruct (Hd d).
Qed.

(** X16: a named destination, given as a byte string or as a name, whose
    entry in the document is an array, or a dictionary with an array for
    [D], gives what the array gives as the destination of the entry. *)
Theorem X16_named_destination (doc : PDFDocument) (t s : string)
    (a ds r : pdfobj) (l : list pdfobj) :
  ds = PBytes s \/ ds = PLit s ->
  get_dest doc s = Ok r ->
  resolve1 r = PList l
  \/ (exists d, resolve1 r = PDict d /\ dict_get "D" d = PList l) ->
  outline_of_item doc (mkOutlineItem t ds a)
  = outline_of_item doc (mkOutlineItem t (PList l) a).
Proof.
  intros Hds Hg Hr.
  assert (_resolve_dest doc ds = Ok (PList l)) as Hres.
  { unfold _resolve_dest.
    destruct Hds as [-> | ->]; rewrite Hg; cbn [bind];
      (destruct Hr as [-> | (d & -> & Hd)]; [reflexivity |]);
      rewrite dict_get_present by (rewrite Hd; discriminate);
      by rewrite Hd. }
  unfold outline_of_item, item_destname. cbn [oi_dest oi_action oi_title].
  destruct Hds as [-> | ->]; cbn [is_None andb]; rewrite Hres; reflexivity.
Qed.

End MoreDocument.

(** *** The further properties at the example inputs *)

Lemma X1_witness :
  exists d' pg',
    render (M:=rect_methods) ex_layout ex_device = Ok d'
    /\ page d' = Some pg' /\ length (annots pg') = 3.
Proof.
  destruct (render_ready (M:=rect_methods) ex_layout ex_device)
    as (d' & E & _).
  { split; [by eexists |]. split; [by eexists |].
    exists ex_page. split; [reflexivity | constructor]. }
  destruct (X1_render_keeps_page (M:=rect_methods) ex_layout ex_device d'
              ex_page E eq_refl) as (pg' & Hp & _ & _ & Hl & _).
  exists d', pg'. repeat split; assumption.
Defined.


Lemma X3_witness :
  exists d' pg',
    receive_layout (M:=rect_methods) ex_layout (start_page ex_page ex_device)
    = Ok d'
    /\ page d' = Some pg' /\ annots pg' !! 2 = Some ex_note.
Proof.
  destruct (receive_layout (M:=rect_methods) ex_layout
              (start_page ex_page ex_device)) as [d' | e] eqn:E;
    [| vm_compute in E; discriminate E].
  destruct (X3_unhit_annotation_untouched (M:=rect_methods) ex_page ex_device
              d' ex_layout 2 ex_note eq_refl eq_refl E)
    as (pg' & a' & Hp & Ha & _ & _ & _ & _ & Hs & _).
  exists d', pg'. split; [reflexivity |]. split; [exact Hp |].
  rewrite <- (Hs eq_refl). exact Ha.
Defined.

Lemma X4_witness :
  render (M:=rect_methods) (LTAnno " ") ex_device = Ok ex_device.
Proof.
  destruct (X4_empty_broadcast (M:=rect_methods) ex_device " " []) as (H & _).
  exact (H eq_refl eq_refl).
Defined.

Lemma X5_witness :
  exists d' pg' lh cl,
    receive_layout (M:=rect_methods) ex_layout (start_page ex_page ex_device)
    = Ok d'
    /\ page d' = Some pg'
    /\ _lasthit d' = Some lh /\ _curline d' = Some cl
    /\ forall i, i ∈ lh \/ i ∈ cl -> is_Some (annots pg' !! i).
Proof.
  assert (match receive_layout (M:=rect_methods) ex_layout
                  (start_page ex_page ex_device) with
          | Ok d => bool_decide (is_Some (page d))
          | Raise _ => false
          end = true) as H by (vm_compute; reflexivity).
  destruct (receive_layout (M:=rect_methods) ex_layout
              (start_page ex_page ex_device)) as [d' | e] eqn:E;
    [| discriminate H].
  apply bool_decide_eq_true_1 in H. destruct H as [pg' Hp].
  destruct (X5_sets_hold_page_annotations (M:=rect_methods) ex_layout
              (start_page ex_page ex_device) d' pg' E Hp)
    as (lh & cl & Hlh & Hcl & Hall).
  exists d', pg', lh, cl. auto.
Defined.


Lemma X7_witness :
  exists lg pg',
    add_annotations (L:=ex_library) ex_page [PRef 1; PInt 5; PRef 2]
    = (lg, Ok pg')
    /\ lg = [WarnUnknownAnnotation (PInt 5)]
    /\ length (annots pg') = 4.
Proof.
  destruct (add_annotations (L:=ex_library) ex_page [PRef 1; PInt 5; PRef 2])
    as [lg [pg' | e]] eqn:E; [| vm_compute in E; discriminate E].
  destruct (X7_add_annotations_result (L:=ex_library) _ _ _ _ E)
    as (Hlg & _ & _ & _ & new & Hnew & Hlen).
  exists lg, pg'. split; [reflexivity |]. split; [exact Hlg |].
  rewrite Hnew, length_app, Hlen. reflexivity.
Defined.

Lemma X8_witness :
  exists lg e, ex_process_file ex_doc_bad = (lg, Raise e).
Proof.
  apply (X8_bad_record_stops_file (M:=rect_methods) (L:=ex_library)
           (ex_file ex_doc_bad) None ex_doc_bad ex_page_bad eq_refl).
  - right. left. reflexivity.
  - exists 9%Z. split; [right; left; reflexivity |].
    intros d name Hd. discriminate Hd.
Defined.

Lemma X9_witness :
  _get_outlines (L:=ex_library) ex_doc_short
  = ([new_Outline "Intro" (PageNo 0) (PInt 0, PInt 700)], [],
     Some IndexError).
Proof.
  destruct (X9_outlines_stop_at_failure (M:=rect_methods) (L:=ex_library)
              (ex_file ex_doc_short) None
              ex_doc_short [ex_item_xyz (PInt 0)] [ex_item_fit] ex_item_short
              IndexError None eq_refl eq_refl eq_refl) as (H & _).
  rewrite H. reflexivity.
Defined.

Lemma X11_witness :
  exists lg allannots0 alloutlines0 srcs,
    ex_process_file ex_doc = (lg, Ok (allannots0, alloutlines0))
    /\ srcs ≡ₚ [new_Outline "Intro" (PageNo 0) (PInt 0, PInt 700)]
    /\ Forall2 (returned_for (M:=rect_methods) (L:=ex_library) 0
                  (create_pages ex_doc)) srcs
         alloutlines0
    /\ length alloutlines0 = 1.
Proof.
  unfold ex_process_file.
  destruct (process_file (M:=rect_methods) (L:=ex_library) (ex_file ex_doc)
              None)
    as [lg [[aa ao] | e]] eqn:E; [| vm_compute in E; discriminate E].
  destruct (X11_all_outlines_returned (M:=rect_methods) (L:=ex_library)
              (ex_file ex_doc) None ex_doc lg aa ao eq_refl E)
    as ((srcs & Hperm & F) & Hl).
  exists lg, aa, ao, srcs. split; [reflexivity |].
  split; [exact Hperm |]. split; [exact F |]. rewrite Hl. reflexivity.
Defined.

Lemma X12_witness :
  exists lg allannots0 alloutlines0,
    ex_process_file ex_doc = (lg, Ok (allannots0, alloutlines0))
    /\ length allannots0 = 1 /\ lg = [WarnUnknownAnnotation (PInt 5)].
Proof.
  unfold ex_process_file.
  destruct (process_file (M:=rect_methods) (L:=ex_library) (ex_file ex_doc)
              None)
    as [lg [[aa ao] | e]] eqn:E; [| vm_compute in E; discriminate E].
  exists lg, aa, ao. split; [reflexivity |].
  destruct (X12_annotations_and_log (M:=rect_methods) (L:=ex_library)
              (ex_file ex_doc) None ex_doc lg aa ao eq_refl E)
    as (Ha & _ & Hlg).
  split; [rewrite Ha | rewrite (Hlg eq_refl)]; reflexivity.
Defined.

Lemma X13_witness :
  outline_of_item (L:=ex_library) ex_doc ex_item_action
  = outline_of_item (L:=ex_library) ex_doc (ex_item_xyz (PInt 0))
  /\ outline_of_item (L:=ex_library) ex_doc
       (mkOutlineItem "Short" (PList [PInt 0]) (oi_action ex_item_action))
     = outline_of_item (L:=ex_library) ex_doc ex_item_short.
Proof.
  split.
  - destruct (X13_action_fallback (L:=ex_library) ex_doc ex_item_action)
      as (_ & H).
    rewrite (H eq_refl). reflexivity.
  - destruct (X13_action_fallback (L:=ex_library) ex_doc ex_item_short)
      as (H & _).
    exact (H eq_refl (oi_action ex_item_action)).
Defined.

Lemma X14_witness :
  outline_of_item (L:=ex_library) ex_doc ex_item_short = Raise IndexError
  /\ outline_of_item (L:=ex_library) ex_doc
       (mkOutlineItem "Intro" (PList [PInt 0; PLit "XYZ"; PInt 0]) PNone)
     = Raise ValueError.
Proof.
  split.
  - destruct (X14_short_destination_array (L:=ex_library) ex_doc
                ex_item_short [PInt 0] eq_refl) as (H & _).
    apply H. simpl. lia.
  - destruct (X14_short_destination_array (L:=ex_library) ex_doc
                (mkOutlineItem "Intro" (PList [PInt 0; PLit "XYZ"; PInt 0])
                   PNone)
                [PInt 0; PLit "XYZ"; PInt 0] eq_refl) as (_ & H).
    apply (H (PInt 0) [PInt 0] eq_refl). simpl. lia.
Defined.

Lemma X15_witness :
  _resolve_dest (L:=ex_library) ex_doc
    (PDict [("D", PList [PInt 0; PLit "XYZ"])])
  = Ok (PList [PInt 0; PLit "XYZ"])
  /\ forall r,
       _resolve_dest (L:=ex_library) ex_doc_named (PBytes "intro") = Ok r ->
       r = PList [PInt 0; PLit "XYZ"; PInt 0; PInt 700; PNone].
Proof.
  split.
  - destruct (X15_resolve_dest_outcome (L:=ex_library) ex_doc
                (PDict [("D", PList [PInt 0; PLit "XYZ"])]))
      as (_ & _ & H & _).
    exact (H _ eq_refl eq_refl).
  - intros r Hr.
    destruct (X15_resolve_dest_outcome (L:=ex_library) ex_doc_named
                (PBytes "intro")) as (_ & H & _).
    destruct (H r Hr) as (v & Hv & Hm). injection Hv as <-.
    exact (proj2 Hm).
Defined.

Lemma X16_witness :
  outline_of_item (L:=ex_library) ex_doc_named
    (mkOutlineItem "Intro" (PBytes "intro") PNone)
  = Ok (Some (new_Outline "Intro" (PageNo 0) (PInt 0, PInt 700)), []).
Proof.
  rewrite (X16_named_destination (L:=ex_library) ex_doc_named "Intro" "intro"
             PNone (PBytes "intro")
             (PDict [("D", PList [PInt 0; PLit "XYZ"; PInt 0; PInt 700;
                                  PNone])])
             [PInt 0; PLit "XYZ"; PInt 0; PInt 700; PNone]).
  - reflexivity.
  - left. reflexivity.
  - reflexivity.
  - right. eexists. split; reflexivity.
Defined.
